(** * SwimScraper: the normalisation layer of [SwimScraper.py]

    A shallow embedding of the string, record and table helpers of
    [src/SwimScraper/SwimScraper.py], followed by the properties the
    specification states about them.

    Conventions of the embedding.
    - A Python [str] is a [string] of ASCII characters; the character
      classes ([isalpha], whitespace) are the ASCII ones.
    - A JSON scalar or a table cell is a [value]; a JSON object is a [dict],
      an insertion-ordered association list.
    - A Python [float] is a binary64 number ([spec_float]).
    - A call that may raise returns a [result]; the exception is named.
    - Network calls are taken from an [Api] record and every call is written
      to a request log that is threaded through the computation.
    - A [DataFrame] that is only built, sorted and returned is the list of
      its rows; the teams table also carries its column labels. Where the
      rows are arbitrary JSON, the constructor [pd.DataFrame] is a
      parameter, as [read_csv] is for the teams file.
    - [float] skips only the whitespace C skips (TAB, LF, VT, FF, CR,
      space), [str.strip] also the separators FS, GS, RS and US. *)

From Stdlib Require Import ZArith List Bool Ascii String Lia.
From Stdlib Require Import Floats.SpecFloat.
From Stdlib Require Import DecimalString Sorted Permutation.
From Stdlib Require Import OrdersEx.
Import ListNotations.

Open Scope list_scope.
Open Scope string_scope.

(* ------------------------------------------------------------------ *)
(** ** Python values and exceptions *)

Module Py.

Inductive exn : Type :=
| ValueError
| IndexError
| KeyError
| TypeError
| AttributeError
| HTTPError
| EmptyDataError
| ParserError.

Inductive result (A : Type) : Type :=
| Ok (a : A)
| Raise (e : exn).
Arguments Ok {A} a.
Arguments Raise {A} e.

Definition bind {A B : Type} (r : result A) (k : A -> result B) : result B :=
  match r with
  | Ok a => k a
  | Raise e => Raise e
  end.

(** JSON scalars as Python sees them after [r.json()]: [None], [bool],
    [int] and [str]. *)
Inductive value : Type :=
| JNull
| JBool (b : bool)
| JInt (n : Z)
| JStr (s : string).

(** [bool(v)]: the truth value that [or] and [not] test. *)
Definition truthy (v : value) : bool :=
  match v with
  | JNull => false
  | JBool b => b
  | JInt n => negb (n =? 0)%Z
  | JStr s => negb (s =? "")
  end.

(** [a or b]. *)
Definition py_or (a b : value) : value :=
  if truthy a then a else b.

(** The integer a [bool] or [int] stands for ([True == 1]). *)
Definition as_number (v : value) : option Z :=
  match v with
  | JBool b => Some (if b then 1 else 0)%Z
  | JInt n => Some n
  | _ => None
  end.

(** [a == b]. *)
Definition py_eq (a b : value) : bool :=
  match a, b with
  | JNull, JNull => true
  | JStr s, JStr t => s =? t
  | _, _ =>
      match as_number a, as_number b with
      | Some x, Some y => (x =? y)%Z
      | _, _ => false
      end
  end.

Definition str_of_Z (n : Z) : string :=
  NilZero.string_of_int (Z.to_int n).

(** [str(v)], which is also what an f-string field [{v}] renders. *)
Definition py_str (v : value) : string :=
  match v with
  | JNull => "None"
  | JBool true => "True"
  | JBool false => "False"
  | JInt n => str_of_Z n
  | JStr s => s
  end.

(** A JSON object / Python [dict]: keys in insertion order. *)
Definition dict : Type := list (string * value).

Fixpoint lookup (k : string) (d : dict) : option value :=
  match d with
  | [] => None
  | (k', v) :: d' => if k' =? k then Some v else lookup k d'
  end.

(** [d[k] = v]: an existing key keeps its position, a new key goes last. *)
Fixpoint dict_set (k : string) (v : value) (d : dict) : dict :=
  match d with
  | [] => [(k, v)]
  | (k', v') :: d' =>
      if k' =? k then (k', v) :: d' else (k', v') :: dict_set k v d'
  end.

(** The dictionary a literal [{k1: v1, k2: v2, ...}] builds. *)
Definition dict_of_items (items : list (string * value)) : dict :=
  fold_left (fun d kv => dict_set (fst kv) (snd kv) d) items [].

(** [d.get(k)]: [None] when the key is missing. *)
Definition get (d : dict) (k : string) : value :=
  match lookup k d with
  | Some v => v
  | None => JNull
  end.

(** [d.get(k, default)]. *)
Definition get_default (d : dict) (k : string) (default : value) : value :=
  match lookup k d with
  | Some v => v
  | None => default
  end.

Definition keys (d : dict) : list string := map fst d.
Definition values (d : dict) : list value := map snd d.

(** [xs.index(x)]: position of the first element equal to [x]. *)
Fixpoint index (x : value) (xs : list value) : result nat :=
  match xs with
  | [] => Raise ValueError
  | y :: ys => if py_eq y x then Ok 0%nat else bind (index x ys) (fun i => Ok (S i))
  end.

(** [xs[i]] for [i >= 0]. *)
Definition item {A : Type} (xs : list A) (i : nat) : result A :=
  match nth_error xs i with
  | Some x => Ok x
  | None => Raise IndexError
  end.

End Py.

Import Py.

(* ------------------------------------------------------------------ *)
(** ** Python [str] methods *)

Module Str.

Definition code (c : ascii) : N := N_of_ascii c.

Definition in_range (lo hi : N) (c : ascii) : bool :=
  ((lo <=? code c) && (code c <=? hi))%N.

(** What [str.isspace] accepts below 128: TAB, LF, VT, FF, CR, the four
    separators FS, GS, RS, US, and the space. *)
Definition is_space (c : ascii) : bool :=
  in_range 9 13 c || in_range 28 32 c.

Definition is_upper (c : ascii) : bool := in_range 65 90 c.
Definition is_lower (c : ascii) : bool := in_range 97 122 c.
Definition is_alpha (c : ascii) : bool := is_upper c || is_lower c.
Definition is_digit (c : ascii) : bool := in_range 48 57 c.

Definition digit_val (c : ascii) : Z := (Z.of_N (code c) - 48)%Z.

Definition to_lower (c : ascii) : ascii :=
  if is_upper c then ascii_of_N (code c + 32) else c.

Fixpoint all_chars (p : ascii -> bool) (s : string) : bool :=
  match s with
  | EmptyString => true
  | String c s' => p c && all_chars p s'
  end.

(** [s.isalpha()]: at least one character and every character a letter. *)
Definition isalpha (s : string) : bool :=
  negb (s =? "") && all_chars is_alpha s.

(** [c in s] for a one-character [c]. *)
Fixpoint contains (c : ascii) (s : string) : bool :=
  match s with
  | EmptyString => false
  | String d s' => (d =? c)%char || contains c s'
  end.

Fixpoint lower (s : string) : string :=
  match s with
  | EmptyString => EmptyString
  | String c s' => String (to_lower c) (lower s')
  end.

Fixpoint lstrip (s : string) : string :=
  match s with
  | EmptyString => EmptyString
  | String c s' => if is_space c then lstrip s' else s
  end.

Fixpoint rstrip (s : string) : string :=
  match s with
  | EmptyString => EmptyString
  | String c s' =>
      match rstrip s' with
      | EmptyString => if is_space c then EmptyString else String c EmptyString
      | r => String c r
      end
  end.

(** [s.strip()]. *)
Definition strip (s : string) : string := rstrip (lstrip s).

(** [s.split(sep)] for a one-character separator: never empty. *)
Fixpoint split (sep : ascii) (s : string) : list string :=
  match s with
  | EmptyString => [EmptyString]
  | String c s' =>
      if (c =? sep)%char then EmptyString :: split sep s'
      else
        match split sep s' with
        | [] => [String c EmptyString]
        | seg :: segs => String c seg :: segs
        end
  end.

(** [s.split(sep, 1)]: cut at the first separator only. *)
Fixpoint split1 (sep : ascii) (s : string) : list string :=
  match s with
  | EmptyString => [EmptyString]
  | String c s' =>
      if (c =? sep)%char then [EmptyString; s']
      else
        match split1 sep s' with
        | [] => [String c EmptyString]
        | seg :: segs => String c seg :: segs
        end
  end.

(** [s.split()]: maximal runs of non-whitespace. *)
Fixpoint split_ws (s : string) : list string :=
  match s with
  | EmptyString => []
  | String c s' =>
      if is_space c then split_ws s'
      else
        match s' with
        | EmptyString => [String c EmptyString]
        | String d _ =>
            if is_space d then String c EmptyString :: split_ws s'
            else
              match split_ws s' with
              | [] => [String c EmptyString]
              | w :: ws => String c w :: ws
              end
        end
  end.

(** [sep.join(parts)]. *)
Fixpoint join (sep : string) (parts : list string) : string :=
  match parts with
  | [] => EmptyString
  | [p] => p
  | p :: ps => p ++ sep ++ join sep ps
  end.

(** [a, b = parts]. *)
Definition unpack2 (parts : list string) : result (string * string) :=
  match parts with
  | [a; b] => Ok (a, b)
  | _ => Raise ValueError
  end.

(** [parts[-1]]. *)
Definition last_item (parts : list string) : result string :=
  match parts with
  | [] => Raise IndexError
  | p :: ps => Ok (last ps p)
  end.

(** [parts.pop()]: the list that is left. *)
Definition pop (parts : list string) : result (list string) :=
  match parts with
  | [] => Raise IndexError
  | _ => Ok (removelast parts)
  end.

End Str.

(* ------------------------------------------------------------------ *)
(** ** Event codec and record flattener (JSON-based helpers) *)

Module Codec.

Definition STROKE_CODES : dict :=
  dict_of_items
    [ ("1", JStr "Free");
      ("2", JStr "Back");
      ("3", JStr "Breast");
      ("4", JStr "Fly");
      ("5", JStr "IM") ].

Definition _gender_code (eventgender : value) : Z :=
  if py_eq eventgender (JStr "M") then 1
  else if py_eq eventgender (JStr "F") then 2
  else 0.

Definition _stroke_name (code : value) : string :=
  py_str (get_default STROKE_CODES (py_str code) (JStr (py_str code))).

Definition _event_label_from_record (rec : dict) : string :=
  let dist := get rec "eventdistance" in
  let course := get rec "eventcourse" in
  let stroke := _stroke_name (get rec "eventstroke") in
  py_str dist ++ " " ++ py_str course ++ " " ++ stroke.

Definition _event_token_from_record (rec : dict) : string :=
  let gender_code := _gender_code (get rec "eventgender") in
  let distance := get rec "eventdistance" in
  let course := get rec "eventcourse" in
  let stroke_code := get rec "eventstroke" in
  str_of_Z gender_code ++ "|" ++ py_str distance ++ "|" ++ py_str course
    ++ "|" ++ py_str stroke_code.

End Codec.

(* ------------------------------------------------------------------ *)
(** ** The remote service and the request log *)

Module Net.

Inductive request : Type :=
| ProfileFastestTimes (swimmer_ID : value)
| TimesByEvent (swimmer_ID : value) (event_token : string).

(** What the two JSON endpoints answer: a list of records, or a failure
    ([raise_for_status], a connection error). *)
Record Api : Type := {
  profile_fastest_times : value -> result (list dict);
  times_by_event : value -> string -> result (list dict)
}.

(** A computation that issues requests: it extends the log and either
    returns or raises. *)
Definition M (A : Type) : Type := list request -> result A * list request.

Definition ret {A : Type} (a : A) : M A := fun log => (Ok a, log).

Definition mbind {A B : Type} (m : M A) (k : A -> M B) : M B :=
  fun log =>
    match m log with
    | (Ok a, log') => k a log'
    | (Raise e, log') => (Raise e, log')
    end.

(** [try: m  except Exception: handler]. *)
Definition try_except {A : Type} (m : M A) (handler : exn -> M A) : M A :=
  fun log =>
    match m log with
    | (Ok a, log') => (Ok a, log')
    | (Raise e, log') => handler e log'
    end.

Definition getSwimmerProfileFastestTimes (api : Api) (swimmer_ID : value)
  : M (list dict) :=
  fun log =>
    (profile_fastest_times api swimmer_ID, (log ++ [ProfileFastestTimes swimmer_ID])%list).

Definition getSwimmerTimesByEventJSON (api : Api) (swimmer_ID : value)
    (event_token : string) : M (list dict) :=
  fun log =>
    (times_by_event api swimmer_ID event_token,
     (log ++ [TimesByEvent swimmer_ID event_token])%list).

(** The tokens of the per-event requests in a log, in the order issued. *)
Fixpoint per_event_fetches (log : list request) : list string :=
  match log with
  | [] => []
  | TimesByEvent _ t :: log' => t :: per_event_fetches log'
  | _ :: log' => per_event_fetches log'
  end.

End Net.

Notation "x <- m ;; k" := (Net.mbind m (fun x => k))
  (at level 61, m at next level, right associativity).

(* ------------------------------------------------------------------ *)
(** ** Tables: [DataFrame.sort_values] *)

Module Frame.

(** Ascending order of the cells of one column, missing values last
    ([na_position="last"]): numbers by value and before text, text by
    code point. *)
Definition cell_leb (a b : value) : bool :=
  match a, b with
  | _, JNull => true
  | JNull, _ => false
  | JStr s, JStr t => (s <=? t)%string
  | JStr _, _ => false
  | _, JStr _ => true
  | _, _ =>
      match as_number a, as_number b with
      | Some x, Some y => (x <=? y)%Z
      | _, _ => true
      end
  end.

(** Lexicographic order of two rows on the columns [by]. *)
Fixpoint lex_leb {R : Type} (by_ : list (R -> value)) (r1 r2 : R) : bool :=
  match by_ with
  | [] => true
  | col :: cols =>
      if cell_leb (col r1) (col r2) then
        if cell_leb (col r2) (col r1) then lex_leb cols r1 r2 else true
      else false
  end.

Fixpoint insert {R : Type} (leb : R -> R -> bool) (r : R) (rows : list R)
  : list R :=
  match rows with
  | [] => [r]
  | r' :: rows' =>
      if leb r r' then r :: rows else r' :: insert leb r rows'
  end.

(** [df.sort_values(by, na_position="last")]: a stable ascending sort. *)
Definition sort_values {R : Type} (by_ : list (R -> value)) (rows : list R)
  : list R :=
  fold_right (insert (lex_leb by_)) [] rows.

(** [r1] may stand before [r2] in a table sorted on the columns [by]. *)
Definition rows_le {R : Type} (by_ : list (R -> value)) (r1 r2 : R) : Prop :=
  lex_leb by_ r1 r2 = true.

End Frame.

(* ------------------------------------------------------------------ *)
(** ** Swimmer times *)

Module Swimmer.

Import Codec Net.

(** One entry of the list [getSwimmerEventTokens] returns. *)
Record event_entry : Type := {
  ee_swimmer_id : value;
  ee_event_token : string;
  ee_event_label : string;
  ee_eventdistance : value;
  ee_eventstroke : value;
  ee_eventcourse : value;
  ee_eventgender : value
}.

(** The loop of [getSwimmerEventTokens] over the fastest-times records,
    with its two accumulators [seen] and [tokens]. *)
Fixpoint event_tokens_loop (swimmer_ID : value) (fastest : list dict)
    (seen : list string) (tokens : list event_entry) : list event_entry :=
  match fastest with
  | [] => tokens
  | rec :: fastest' =>
      let token := _event_token_from_record rec in
      if existsb (String.eqb token) seen then
        event_tokens_loop swimmer_ID fastest' seen tokens
      else
        event_tokens_loop swimmer_ID fastest' (token :: seen)
          (tokens ++
             [ {| ee_swimmer_id := swimmer_ID;
                  ee_event_token := token;
                  ee_event_label := _event_label_from_record rec;
                  ee_eventdistance := get rec "eventdistance";
                  ee_eventstroke := get rec "eventstroke";
                  ee_eventcourse := get rec "eventcourse";
                  ee_eventgender := get rec "eventgender" |} ])
  end.

Definition getSwimmerEventTokens (api : Api) (swimmer_ID : value)
  : M (list event_entry) :=
  fastest <- getSwimmerProfileFastestTimes api swimmer_ID ;;
  ret (event_tokens_loop swimmer_ID fastest [] []).

(** One row of the table [getSwimmerAllTimes] returns. *)
Record swim_row : Type := {
  swimmer_id : value;
  event_label : string;
  eventdistance : value;
  eventcourse : value;
  eventstroke_name : string;
  eventgender : value;
  eventtime : value;
  dateofswim : value;
  meet_name : value;
  season_id : value;
  heat : value;
  lane : value;
  place : value
}.

(** The body of the inner loop: one per-event record to one row. *)
Definition swim_row_of (swimmer_ID : value) (label : string) (rec : dict)
  : swim_row :=
  let distance := get rec "eventdistance" in
  let course := get rec "eventcourse" in
  let stroke_code := get rec "eventstroke" in
  let stroke_name := _stroke_name stroke_code in
  let gender := get rec "eventgender" in
  let eventtime := py_or (get rec "eventtime") (get rec "time") in
  let dateofswim := py_or (get rec "dateofswim") (get rec "date_created") in
  let meet_name := py_or (get rec "meet_name") (get rec "name") in
  let season_id := get rec "season_id" in
  let heat := get rec "heat" in
  let lane := get rec "lane" in
  let place := get rec "place" in
  {| swimmer_id := swimmer_ID;
     event_label := label;
     eventdistance := distance;
     eventcourse := course;
     eventstroke_name := stroke_name;
     eventgender := gender;
     eventtime := eventtime;
     dateofswim := dateofswim;
     meet_name := meet_name;
     season_id := season_id;
     heat := heat;
     lane := lane;
     place := place |}.

(** The outer loop of [getSwimmerAllTimes]: one fetch per entry; a fetch
    that raises is reported and the loop goes on with the next entry. *)
Fixpoint all_times_loop (api : Api) (swimmer_ID : value)
    (event_tokens : list event_entry) (all_rows : list swim_row)
  : M (list swim_row) :=
  match event_tokens with
  | [] => ret all_rows
  | et :: event_tokens' =>
      let token := ee_event_token et in
      let label := ee_event_label et in
      fetched <-
        try_except
          (event_times <- getSwimmerTimesByEventJSON api swimmer_ID token ;;
           ret (Some event_times))
          (fun _ => ret None) ;;
      match fetched with
      | None => all_times_loop api swimmer_ID event_tokens' all_rows
      | Some event_times =>
          all_times_loop api swimmer_ID event_tokens'
            (all_rows ++ map (swim_row_of swimmer_ID label) event_times)
      end
  end.

Definition swim_sort_columns : list (swim_row -> value) :=
  [ swimmer_id; (fun r => JStr (event_label r)); dateofswim ].

(** The table is the list of its rows; [pd.DataFrame()] is the empty one. *)
Definition getSwimmerAllTimes (api : Api) (swimmer_ID : value)
  : M (list swim_row) :=
  event_tokens <- getSwimmerEventTokens api swimmer_ID ;;
  all_rows <- all_times_loop api swimmer_ID event_tokens [] ;;
  match all_rows with
  | [] => ret []
  | _ => ret (Frame.sort_values swim_sort_columns all_rows)
  end.

(** One row of the table [getSwimmerFastestTimesClean] returns. *)
Record fastest_row : Type := {
  f_swimmer_id : value;
  f_event_label : string;
  f_eventdistance : value;
  f_eventcourse : value;
  f_eventstroke_name : string;
  f_eventgender : value;
  f_eventtime : value;
  f_dateofswim : value;
  f_meet_name : value;
  f_season_id : value
}.

Definition fastest_row_of (swimmer_ID : value) (rec : dict) : fastest_row :=
  let label := _event_label_from_record rec in
  let stroke_name := _stroke_name (get rec "eventstroke") in
  {| f_swimmer_id := swimmer_ID;
     f_event_label := label;
     f_eventdistance := get rec "eventdistance";
     f_eventcourse := get rec "eventcourse";
     f_eventstroke_name := stroke_name;
     f_eventgender := get rec "eventgender";
     f_eventtime := py_or (get rec "eventtime") (get rec "time");
     f_dateofswim := py_or (get rec "dateofswim") (get rec "date_created");
     f_meet_name := py_or (get rec "meet_name") (get rec "name");
     f_season_id := get rec "season_id" |}.

Definition fastest_sort_columns : list (fastest_row -> value) :=
  [ f_swimmer_id; (fun r => JStr (f_event_label r)) ].

Definition getSwimmerFastestTimesClean (api : Api) (swimmer_ID : value)
  : M (list fastest_row) :=
  fastest <- getSwimmerProfileFastestTimes api swimmer_ID ;;
  let rows := map (fastest_row_of swimmer_ID) fastest in
  match rows with
  | [] => ret []
  | _ => ret (Frame.sort_values fastest_sort_columns rows)
  end.

End Swimmer.

(* ------------------------------------------------------------------ *)
(** ** [float]: parsing and the two operations [convertTime] uses

    A Python float is an IEEE 754 binary64 number: [spec_float] at
    precision 53 and maximal exponent 1024, with the library's correctly
    rounded operations. *)

Module Float.

Import Str.

Definition pyfloat : Type := spec_float.

Definition prec : Z := 53.
Definition emax : Z := 1024.

Definition fmul (a b : pyfloat) : pyfloat := SFmul prec emax a b.
Definition fadd (a b : pyfloat) : pyfloat := SFadd prec emax a b.

(** The float nearest to an integer ([float(n)], and an [int] operand of a
    float operation). *)
Definition of_Z (n : Z) : pyfloat := binary_normalize prec emax n 0 false.

(** The float nearest to [mantissa * 10 ^ exponent], [mantissa >= 0], with
    the given sign: what [float] makes of a decimal spelling. *)
Definition of_decimal (negative : bool) (mantissa exponent : Z) : pyfloat :=
  if (mantissa =? 0)%Z then S754_zero negative
  else if (0 <=? exponent)%Z then
    binary_normalize prec emax
      ((if negative then - mantissa else mantissa) * 10 ^ exponent)%Z 0 negative
  else
    SFdiv prec emax
      (S754_finite negative (Z.to_pos mantissa) 0)
      (S754_finite false (Z.to_pos (10 ^ (- exponent))) 0).

Definition is_finite (f : pyfloat) : bool :=
  match f with
  | S754_zero _ | S754_finite _ _ _ => true
  | S754_infinity _ | S754_nan => false
  end.

Definition starts_with_digit (s : string) : bool :=
  match s with
  | String d _ => is_digit d
  | EmptyString => false
  end.

(** Reads [digit (["_"] digit)*] off the front of [s]: the number read so
    far, how many digits it has, and what is left of [s]. *)
Fixpoint digits_from (s : string) (acc : Z) (n : nat) : Z * nat * string :=
  match s with
  | EmptyString => (acc, n, s)
  | String c s' =>
      if is_digit c then digits_from s' (10 * acc + digit_val c)%Z (S n)
      else if (c =? "_")%char && (0 <? n)%nat && starts_with_digit s'
      then digits_from s' acc n
      else (acc, n, s)
  end.

(** An optional sign: whether it is a minus, and the rest. *)
Definition sign_of (s : string) : bool * string :=
  match s with
  | String c s' =>
      if (c =? "+")%char then (false, s')
      else if (c =? "-")%char then (true, s')
      else (false, s)
  | EmptyString => (false, s)
  end.

(** The exponent part: empty, or [e] or [E], an optional sign and digits. *)
Definition exponent_of (s : string) : option Z :=
  match s with
  | EmptyString => Some 0%Z
  | String c s' =>
      if (to_lower c =? "e")%char then
        let '(neg, s'') := sign_of s' in
        match digits_from s'' 0 0 with
        | (e, S _, EmptyString) => Some (if neg then (- e)%Z else e)
        | _ => None
        end
      else None
  end.

(** [[digits] "." digits | digits ["."]] followed by the exponent part:
    the mantissa and the power of ten. *)
Definition decimal_of (s : string) : option (Z * Z) :=
  let '(ip, n1, r1) := digits_from s 0 0 in
  let without_point :=
    if (0 <? n1)%nat then
      match exponent_of r1 with
      | Some e => Some (ip, e)
      | None => None
      end
    else None in
  match r1 with
  | String c r2 =>
      if (c =? ".")%char then
        let '(fp, n2, r3) := digits_from r2 0 0 in
        if (0 <? n1 + n2)%nat then
          match exponent_of r3 with
          | Some e =>
              Some (ip * 10 ^ Z.of_nat n2 + fp, e - Z.of_nat n2)%Z
          | None => None
          end
        else None
      else without_point
  | EmptyString => without_point
  end.

(** The whitespace [float] skips around a number: TAB, LF, VT, FF, CR
    and the space. The separators FS, GS, RS and US, which [str.strip]
    removes, are not skipped: [float] rejects a string that has one. *)
Definition is_float_space (c : ascii) : bool :=
  in_range 9 13 c || (c =? " ")%char.

(** [s] without the characters [p] accepts at its left end. *)
Fixpoint drop_left (p : ascii -> bool) (s : string) : string :=
  match s with
  | EmptyString => EmptyString
  | String c s' => if p c then drop_left p s' else s
  end.

(** [s] without the characters [p] accepts at its right end. *)
Fixpoint drop_right (p : ascii -> bool) (s : string) : string :=
  match s with
  | EmptyString => EmptyString
  | String c s' =>
      match drop_right p s' with
      | EmptyString => if p c then EmptyString else String c EmptyString
      | r => String c r
      end
  end.

Definition skip_spaces (s : string) : string :=
  drop_right is_float_space (drop_left is_float_space s).

(** The characters a number is spelled with. *)
Definition float_char (c : ascii) : bool :=
  is_digit c || is_alpha c
  || (c =? "+")%char || (c =? "-")%char || (c =? ".")%char || (c =? "_")%char.

(** The number a spelling without surrounding whitespace denotes: a sign,
    then [inf], [infinity] or [nan] in any case, or a decimal. *)
Definition parse_float (body : string) : option pyfloat :=
  let '(neg, body) := sign_of body in
  let name := lower body in
  if (name =? "inf") || (name =? "infinity") then Some (S754_infinity neg)
  else if name =? "nan" then Some S754_nan
  else
    match decimal_of body with
    | Some (mantissa, exponent) => Some (of_decimal neg mantissa exponent)
    | None => None
    end.

(** What [float(s)] accepts and the value it denotes; [None] stands for
    the [ValueError] of a string that is not a number. *)
Definition py_float (s : string) : option pyfloat :=
  parse_float (skip_spaces s).

(** [float(s)]. *)
Definition float (s : string) : result pyfloat :=
  match py_float s with
  | Some f => Ok f
  | None => Raise ValueError
  end.

End Float.

(* ------------------------------------------------------------------ *)
(** ** Constants and helper functions (string parsing, IDs) *)

Module Helpers.

Import Str Float.

Definition events : dict :=
  dict_of_items
    [
      (* yards *)
      ("25 Y Free", JStr "125Y");
      ("25 Y Back", JStr "225 Y");
      ("25 Y Breast", JStr "325Y");
      ("25 Y Fly", JStr "425Y");
      ("50 Y Free", JStr "150Y");
      ("75 Y Free", JStr "175Y");
      ("100 Y Free", JStr "1100Y");
      ("125 Y Free", JStr "1125Y");
      ("200 Y Free", JStr "1200Y");
      ("400 Y Free", JStr "1400Y");
      ("500 Y Free", JStr "1500Y");
      ("800 Y Free", JStr "1800Y");
      ("1000 Y Free", JStr "11000Y");
      ("1500 Y Free", JStr "11500Y");
      ("1650 Y Free", JStr "11650Y");
      ("50 Y Back", JStr "250Y");
      ("100 Y Back", JStr "2100Y");
      ("200 Y Back", JStr "2200Y");
      ("50 Y Breast", JStr "350Y");
      ("100 Y Breast", JStr "3100Y");
      ("200 Y Breast", JStr "3200Y");
      ("50 Y Fly", JStr "450Y");
      ("100 Y Fly", JStr "4100Y");
      ("200 Y Fly", JStr "4200Y");
      ("100 Y IM", JStr "5100Y");
      ("200 Y IM", JStr "5200Y");
      ("400 Y IM", JStr "5400Y");
      ("200 Free Relay", JInt 6200);
      ("400 Free Relay", JInt 6400);
      ("800 Free Relay", JInt 6800);
      ("200 Medley Relay", JInt 7200);
      ("400 Medley Relay", JInt 7400);
      ("1 M Diving", JStr "H1");
      ("1 M Diving (6 dives)", JStr "H16");
      ("3 M Diving ", JStr "H3");
      ("3 M Diving (6 dives)", JStr "H36");
      ("7M Diving", JStr "H75");
      ("7M Diving (5 dives)", JStr "H75Y");
      ("Platform Diving", JStr "H2");
      ("50 Individual", JStr "H50");
      ("100 Individual", JStr "H100");
      ("200 Individual", JStr "H200");
      (* short course meters *)
      ("25 S Free", JStr "125S");
      ("25 S Back", JStr "225 S");
      ("25 S Breast", JStr "325S");
      ("25 S Fly", JStr "425S");
      ("50 S Free", JStr "150S");
      ("75 S Free", JStr "175S");
      ("100 S Free", JStr "1100S");
      ("125 S Free", JStr "1125S");
      ("200 S Free", JStr "1200S");
      ("400 S Free", JStr "1400S");
      ("500 S Free", JStr "1500S");
      ("800 S Free", JStr "1800S");
      ("1000 S Free", JStr "11000S");
      ("1500 S Free", JStr "11500S");
      ("1650 S Free", JStr "11650S");
      ("50 S Back", JStr "250S");
      ("100 S Back", JStr "2100S");
      ("200 S Back", JStr "2200S");
      ("50 S Breast", JStr "350S");
      ("100 S Breast", JStr "3100S");
      ("200 S Breast", JStr "3200S");
      ("50 S Fly", JStr "450S");
      ("100 S Fly", JStr "4100S");
      ("200 S Fly", JStr "4200S");
      ("100 S IM", JStr "5100S");
      ("200 S IM", JStr "5200S");
      ("400 S IM", JStr "5400S");
      (* long course meters *)
      ("50 L Free", JStr "150L");
      ("100 L Free", JStr "1100L");
      ("200 L Free", JStr "1200L");
      ("400 L Free", JStr "1400L");
      ("500 L Free", JStr "1500L");
      ("800 L Free", JStr "1800L");
      ("1000 L Free", JStr "11000L");
      ("1500 L Free", JStr "11500L");
      ("1650 L Free", JStr "11650L");
      ("50 L Back", JStr "250L");
      ("100 L Back", JStr "2100L");
      ("200 L Back", JStr "2200L");
      ("50 L Breast", JStr "350L");
      ("100 L Breast", JStr "3100L");
      ("200 L Breast", JStr "3200L");
      ("50 L Fly", JStr "450L");
      ("100 L Fly", JStr "4100L");
      ("200 L Fly", JStr "4200L");
      ("100 L IM", JStr "5100L");
      ("200 L IM", JStr "5200L");
      ("400 L IM", JStr "5400L")
    ].

Definition cleanName (name : value) : result string :=
  if negb (truthy name) then Ok ""
  else
    match name with
    | JStr name =>
        let name := strip name in
        if contains "," name then
          let parts :=
            map strip (filter (fun p => truthy (JStr (strip p))) (split "," name)) in
          match parts with
          | [last; first] => Ok (strip (first ++ " " ++ last))
          | _ => Ok (join " " parts)
          end
        else
          let tokens := split_ws name in
          if (List.length tokens <=? 1)%nat then item tokens 0
          else Ok (join " " tokens)
    | _ => Raise AttributeError
    end.

Definition getSeasonID (year : Z) : Z := (year - 1996)%Z.

Definition getYear (season_ID : Z) : Z := (season_ID + 1996)%Z.

Definition getEventName (event_ID : value) : result string :=
  bind (index event_ID (values events)) (fun i => item (keys events) i).

Definition getEventID (event_name : string) : value :=
  get events event_name.

Definition getState (hometown : string) : result string :=
  bind (last_item (split "," hometown)) (fun seg =>
  let home := strip seg in
  if isalpha home then Ok home else Ok "NONE").

Definition getCity (hometown : string) : result string :=
  bind (pop (split "," hometown)) (fun home =>
  let city := join " " (map strip home) in
  Ok city).

(** [None] is the Python [None] returned for codes such as DNS and DQ. *)
Definition convertTime (display_time : value) : result (option pyfloat) :=
  let display_time := strip (py_str display_time) in
  if contains ":" display_time then
    bind (unpack2 (split1 ":" display_time)) (fun parts =>
    let '(minutes, seconds) := parts in
    bind (float minutes) (fun m =>
    bind (float seconds) (fun s =>
    Ok (Some (fadd (fmul m (of_Z 60)) s)))))
  else if isalpha display_time then Ok None
  else bind (float display_time) (fun f => Ok (Some f)).

End Helpers.

(* ------------------------------------------------------------------ *)
(** ** Teams table management ([collegeSwimmingTeams.csv]) *)

Module Teams.

Import Str.

(** A [DataFrame]: the column labels in order, and the rows, each a
    mapping from column label to cell. *)
Record DataFrame : Type := {
  columns : list string;
  rows : list dict
}.

(** [pd.DataFrame(columns=cols)]. *)
Definition empty_frame (cols : list string) : DataFrame :=
  {| columns := cols; rows := [] |}.

Definition has_column (df : DataFrame) (col : string) : bool :=
  existsb (String.eqb col) (columns df).

(** [df[col] = v]: fills an existing column, or appends a new one. *)
Definition set_column (df : DataFrame) (col : string) (v : value) : DataFrame :=
  {| columns := if has_column df col then columns df else columns df ++ [col];
     rows := map (dict_set col v) (rows df) |}.

(** [df[cols]]: the sub-table of the listed columns, in the listed order. *)
Definition select (df : DataFrame) (cols : list string) : result DataFrame :=
  if forallb (has_column df) cols then
    Ok {| columns := cols;
          rows := map (fun r => map (fun c => (c, get r c)) cols) (rows df) |}
  else Raise KeyError.

(** [row[col]] on a row handed out by [iterrows]. *)
Definition cell (row : dict) (col : string) : result value :=
  match lookup col row with
  | Some v => Ok v
  | None => Raise KeyError
  end.

(** What a path names on disk. *)
Inductive file : Type :=
| Missing
| File (content : string).

(** The surroundings [load_teams] reads: where the module lives, the
    files, and [pd.read_csv] on the content of a file. *)
Record World : Type := {
  module_file : string;
  files : string -> file;
  read_csv : string -> result DataFrame
}.

(** [Path(p).with_name(name)]: replaces the last component. *)
Definition with_name (p name : string) : string :=
  join "/" (removelast (split "/" p) ++ [name])%list.

Definition _default_teams_path (w : World) : string :=
  with_name (module_file w) "collegeSwimmingTeams.csv".

Definition expected_cols : list string :=
  [ "team_name";
    "team_ID";
    "team_state";
    "team_division";
    "team_division_ID";
    "team_conference";
    "team_conference_ID" ].

(** The loop [for col in expected_cols: if col not in df.columns: ...]. *)
Definition fill_missing (df : DataFrame) : DataFrame :=
  fold_left
    (fun df col => if has_column df col then df else set_column df col JNull)
    expected_cols df.

Definition load_teams (w : World) (path : option string) : result DataFrame :=
  let path :=
    match path with
    | None => _default_teams_path w
    | Some p => p
    end in
  match files w path with
  | Missing => Ok (empty_frame expected_cols)
  | File content =>
      if (String.length content =? 0)%nat then Ok (empty_frame expected_cols)
      else
        match read_csv w content with
        | Raise EmptyDataError => Ok (empty_frame expected_cols)
        | Raise e => Raise e
        | Ok df => select (fill_missing df) expected_cols
        end
  end.

(** The loop of [getTeamID] over [teams.iterrows()]. *)
Fixpoint getTeamID_loop (rows : list dict) (team_name team_number : value)
  : result value :=
  match rows with
  | [] => Ok team_number
  | row :: rows' =>
      bind (cell row "team_name") (fun name =>
      if py_eq name team_name then
        bind (cell row "team_ID") (fun id => getTeamID_loop rows' team_name id)
      else getTeamID_loop rows' team_name team_number)
  end.

(** The global [teams] is passed in. *)
Definition getTeamID (teams : DataFrame) (team_name : value) : result value :=
  getTeamID_loop (rows teams) team_name (JInt (-1)).

Fixpoint getTeamName_loop (rows : list dict) (team_ID team_name : value)
  : result value :=
  match rows with
  | [] => Ok team_name
  | row :: rows' =>
      bind (cell row "team_ID") (fun id =>
      if py_eq id team_ID then
        bind (cell row "team_name") (fun name => getTeamName_loop rows' team_ID name)
      else getTeamName_loop rows' team_ID team_name)
  end.

Definition getTeamName (teams : DataFrame) (team_ID : value) : result value :=
  getTeamName_loop (rows teams) team_ID (JStr "").

(** A small comma-separated reader, enough to exercise [load_teams]: the
    first line names the columns, every other non-blank line is a row of
    text cells; content with nothing but whitespace has no columns. *)
Definition sample_read_csv (content : string) : result DataFrame :=
  if strip content =? "" then Raise EmptyDataError
  else
    match split "010" content with
    | [] => Raise EmptyDataError
    | header :: lines =>
        let cols := split "," header in
        Ok {| columns := cols;
              rows :=
                map (fun line => combine cols (map JStr (split "," line)))
                    (filter (fun line => negb (strip line =? "")) lines) |}
    end.

End Teams.

(* ------------------------------------------------------------------ *)
(** ** The specification's wording, as definitions to compare against *)

Module Spec.

(** "gender_code is 1 when eventgender is M, 2 when it is F, and 0 for any
    other value", as the leading digit of the token. *)
Definition gender_digit (eventgender : value) : string :=
  match eventgender with
  | JStr s => if s =? "M" then "1" else if s =? "F" then "2" else "0"
  | _ => "0"
  end.

(** A missing key reads as null. *)
Definition field (rec : dict) (key : string) : value :=
  match lookup key rec with
  | Some v => v
  | None => JNull
  end.

(** The value a row takes from [primary], or from [alternate] when the
    value under [primary] is missing or counts as false. *)
Definition with_fallback (rec : dict) (primary alternate : string) : value :=
  match lookup primary rec with
  | Some v => if truthy v then v else field rec alternate
  | None => field rec alternate
  end.

(** Every row carries the two columns the lookups read. *)
Definition has_team_keys (teams : Teams.DataFrame) : bool :=
  forallb (fun r =>
             match lookup "team_name" r, lookup "team_ID" r with
             | Some _, Some _ => true
             | _, _ => false
             end) (Teams.rows teams).

(** No row of [rs] has a cell equal to [key] in column [col]. *)
Definition no_match (col : string) (key : value) (rs : list dict) : bool :=
  forallb (fun r => negb (py_eq (get r col) key)) rs.

(** The three shapes of a display time the specification names, read on
    the text with surrounding whitespace removed: minutes and seconds
    around the first colon, both numbers; a number; letters only. *)
Definition colon_form (s : string) : Prop :=
  exists minutes seconds,
    Str.strip s = minutes ++ ":" ++ seconds
    /\ Str.contains ":" minutes = false
    /\ Float.py_float minutes <> None
    /\ Float.py_float seconds <> None.

Definition numeric (s : string) : Prop :=
  Float.py_float (Str.strip s) <> None.

Definition alphabetic (s : string) : Prop := Str.isalpha (Str.strip s) = true.

(** The rows one entry of the event list contributes: those of its
    per-event records when the fetch answers, none when it raises. *)
Definition rows_of_entry (api : Net.Api) (swimmer_ID : value)
    (et : Swimmer.event_entry) : list Swimmer.swim_row :=
  match Net.times_by_event api swimmer_ID (Swimmer.ee_event_token et) with
  | Ok recs =>
      map (Swimmer.swim_row_of swimmer_ID (Swimmer.ee_event_label et)) recs
  | Raise _ => []
  end.

(** "Sorted by (swimmer ID, event label, date of swim), null dates last":
    when [r1] stands before [r2], they are of the same swimmer, and either
    the label of [r1] is the smaller one, or the labels agree and then the
    date of [r2] is null, or neither date is null and that of [r1] is not
    the greater one. *)
Definition row_before (r1 r2 : Swimmer.swim_row) : Prop :=
  Swimmer.swimmer_id r1 = Swimmer.swimmer_id r2
  /\ ((Swimmer.event_label r1 <? Swimmer.event_label r2) = true
      \/ (Swimmer.event_label r1 = Swimmer.event_label r2
          /\ (Swimmer.dateofswim r2 = JNull
              \/ (Swimmer.dateofswim r1 <> JNull
                  /\ Swimmer.dateofswim r2 <> JNull
                  /\ Frame.cell_leb (Swimmer.dateofswim r1)
                                    (Swimmer.dateofswim r2) = true)))).

End Spec.

(* ------------------------------------------------------------------ *)
(** ** Sample inputs *)

Module Samples.

Definition free_50 (time : string) : dict :=
  [ ("eventgender", JStr "M"); ("eventdistance", JInt 50);
    ("eventcourse", JStr "Y"); ("eventstroke", JInt 1);
    ("eventtime", JStr time) ].

Definition free_100 (time : string) : dict :=
  [ ("eventgender", JStr "M"); ("eventdistance", JInt 100);
    ("eventcourse", JStr "Y"); ("eventstroke", JInt 1);
    ("eventtime", JStr time) ].

Definition dated (rec : dict) (date : value) : dict :=
  dict_set "dateofswim" date rec.

(** Three fastest-times records over two events. *)
Definition three_records : list dict :=
  [ free_50 "20.11"; free_100 "44.02"; free_50 "20.50" ].

(** A service that answers every request. *)
Definition full_service : Net.Api :=
  {| Net.profile_fastest_times := fun _ => Ok three_records;
     Net.times_by_event := fun _ token =>
       if token =? "1|50|Y|1" then
         Ok [ dated (free_50 "20.50") (JStr "2023-11-02");
              dated (free_50 "20.30") JNull;
              dated (free_50 "20.11") (JStr "2023-02-17") ]
       else if token =? "1|100|Y|1" then
         Ok [ dated (free_100 "44.02") (JStr "2023-02-18") ]
       else Raise HTTPError |}.

(** The same service with the 50 free endpoint failing. *)
Definition failing_service : Net.Api :=
  {| Net.profile_fastest_times := fun _ => Ok three_records;
     Net.times_by_event := fun _ token =>
       if token =? "1|100|Y|1" then
         Ok [ dated (free_100 "44.02") (JStr "2023-02-18") ]
       else Raise HTTPError |}.

Definition team (name : string) (id : Z) : dict :=
  [ ("team_name", JStr name); ("team_ID", JInt id) ].

(** A teams table in which one name and one ID occur twice. *)
Definition duplicated_teams : Teams.DataFrame :=
  {| Teams.columns := ["team_name"; "team_ID"];
     Teams.rows :=
       [ team "Florida" 117; team "Texas" 105; team "Florida" 999;
         team "Texas A&M" 105 ] |}.

(** A disk with a table next to the module, an empty file and a file of
    one blank line. *)
Definition disk : Teams.World :=
  {| Teams.module_file := "/opt/SwimScraper/SwimScraper.py";
     Teams.files := fun p =>
       if p =? "/opt/SwimScraper/collegeSwimmingTeams.csv"
       then Teams.File "team_name,team_ID,team_state"
       else if p =? "empty.csv" then Teams.File ""
       else if p =? "blank.csv" then Teams.File " "
       else Teams.Missing;
     Teams.read_csv := Teams.sample_read_csv |}.

End Samples.

(* ------------------------------------------------------------------ *)
(** ** Further wording to compare against *)

Module More.

(** The elements of [l] that are the first with their key, in order. *)
Fixpoint first_by {A : Type} (key : A -> string) (l : list A) : list A :=
  match l with
  | [] => []
  | x :: l' =>
      x :: filter (fun y => negb (key y =? key x)) (first_by key l')
  end.

(** The entry [getSwimmerEventTokens] makes of a record. *)
Definition entry_of (swimmer_ID : value) (rec : dict) : Swimmer.event_entry :=
  {| Swimmer.ee_swimmer_id := swimmer_ID;
     Swimmer.ee_event_token := Codec._event_token_from_record rec;
     Swimmer.ee_event_label := Codec._event_label_from_record rec;
     Swimmer.ee_eventdistance := get rec "eventdistance";
     Swimmer.ee_eventstroke := get rec "eventstroke";
     Swimmer.ee_eventcourse := get rec "eventcourse";
     Swimmer.ee_eventgender := get rec "eventgender" |}.

(** The three raw fields a token and a label share render without "|". *)
Definition pipe_free (rec : dict) : bool :=
  negb (Str.contains "|" (py_str (get rec "eventdistance")))
  && negb (Str.contains "|" (py_str (get rec "eventcourse")))
  && negb (Str.contains "|" (py_str (get rec "eventstroke"))).

End More.

(* ------------------------------------------------------------------ *)
(** ** The global teams table and its filters *)

Module TeamTable.

Import Teams.

(** [xs == ys] on lists. *)
Fixpoint list_eq (xs ys : list value) : bool :=
  match xs, ys with
  | [], [] => true
  | x :: xs', y :: ys' => py_eq x y && list_eq xs' ys'
  | _, _ => false
  end.

(** [set_teams_csv(path)]: the global [teams] before and after; when
    [load_teams] raises, the assignment does not happen. *)
Definition set_teams_csv (w : World) (path : option string)
    (teams : DataFrame) : result unit * DataFrame :=
  match load_teams w path with
  | Ok df => (Ok tt, df)
  | Raise e => (Raise e, teams)
  end.

(** [teams[teams[col].isin(wanted)].reset_index(drop=True)], as the list
    [to_dict("records")] makes of it. *)
Definition rows_where_isin (teams : DataFrame) (col : string)
    (wanted : list value) : result (list dict) :=
  if has_column teams col then
    Ok (filter (fun r => existsb (py_eq (get r col)) wanted) (rows teams))
  else Raise KeyError.

Definition getCollegeTeams (teams : DataFrame)
    (team_names conference_names division_names : list value)
  : result (list dict) :=
  if negb (list_eq team_names [JStr "NONE"]) then
    rows_where_isin teams "team_name" team_names
  else if negb (list_eq division_names [JStr "NONE"]) then
    rows_where_isin teams "team_division" division_names
  else if negb (list_eq conference_names [JStr "NONE"]) then
    rows_where_isin teams "team_conference" conference_names
  else Ok (rows teams).

End TeamTable.

(* ------------------------------------------------------------------ *)
(** ** More sample inputs *)

Module Cases.

(** A teams file with one column out of place, one missing and one extra. *)
Definition teams_csv : string :=
  "team_ID,team_name,team_division,mascot" ++ String "010"
  ("117,Florida,Division 1,Gator" ++ String "010"
  ("105,Texas,Division 1,Longhorn" ++ String "010"
  "420,Emory,Division 3,Eagle")).

Definition campus : Teams.World :=
  {| Teams.module_file := "SwimScraper.py";
     Teams.files := fun _ => Teams.File teams_csv;
     Teams.read_csv := Teams.sample_read_csv |}.

Definition parsed_teams : Teams.DataFrame :=
  match Teams.sample_read_csv teams_csv with
  | Ok df => df
  | Raise _ => Teams.empty_frame []
  end.

Definition loaded_teams : Teams.DataFrame :=
  match Teams.load_teams campus None with
  | Ok df => df
  | Raise _ => Teams.empty_frame []
  end.

End Cases.

(* ------------------------------------------------------------------ *)
(** ** Event-progression tables: [getIndexes] *)

Module Progression.

(** What [getIndexes] reads of a header cell: its text, and its [class]
    attribute (a list of class names) when it has one. *)
Record cell : Type := {
  cell_text : string;
  cell_class : option (list string)
}.

(** [cls in td["class"]], after [td.has_attr("class")]. *)
Definition has_class (cls : string) (td : cell) : bool :=
  match cell_class td with
  | Some classes => existsb (String.eqb cls) classes
  | None => false
  end.

Record indexes : Type := {
  meet_name_index : Z;
  date_index : Z;
  additional_info_index : Z
}.

(** The loop of [getIndexes], with its counter [i]. *)
Fixpoint getIndexes_loop (data : list cell) (i : Z) (found : indexes)
  : indexes :=
  match data with
  | [] => found
  | td :: data' =>
      let text := Str.strip (cell_text td) in
      let found' :=
        if text =? "Meet" then
          {| meet_name_index := i;
             date_index := date_index found;
             additional_info_index := additional_info_index found |}
        else if text =? "Date" then
          {| meet_name_index := meet_name_index found;
             date_index := i;
             additional_info_index := additional_info_index found |}
        else if (text =? "") && has_class "c-table-clean__col-fit" td then
          {| meet_name_index := meet_name_index found;
             date_index := date_index found;
             additional_info_index := i |}
        else found in
      getIndexes_loop data' (i + 1)%Z found'
  end.

Definition getIndexes (data : list cell) : indexes :=
  getIndexes_loop data 0
    {| meet_name_index := -1; date_index := -1;
       additional_info_index := -1 |}.

(** The three kinds of header cell the loop tells apart. *)
Definition is_meet (td : cell) : bool := Str.strip (cell_text td) =? "Meet".
Definition is_date (td : cell) : bool := Str.strip (cell_text td) =? "Date".
Definition is_info (td : cell) : bool :=
  (Str.strip (cell_text td) =? "") && has_class "c-table-clean__col-fit" td.

(** [index] is what a scan for the cells satisfying [p] leaves: -1 when
    there is none, otherwise the position of the last one. *)
Definition last_position (p : cell -> bool) (data : list cell) (index : Z)
  : Prop :=
  (index = (-1)%Z /\ forallb (fun td => negb (p td)) data = true)
  \/ (exists before td after,
        data = (before ++ td :: after)%list
        /\ index = Z.of_nat (List.length before)
        /\ p td = true
        /\ forallb (fun td => negb (p td)) after = true).

End Progression.

(* ------------------------------------------------------------------ *)
(** ** Locating the rows in a times answer: [swimmer_times_to_dataframe] *)

Module TimesJson.

(** JSON as [r.json()] returns it: a scalar, a list, or a dict. *)
Inductive json : Type :=
| JScalar (v : value)
| JArray (items : list json)
| JObject (fields : list (string * json)).

(** [isinstance(j, list)]. *)
Definition is_list (j : json) : bool :=
  match j with
  | JArray _ => true
  | _ => false
  end.

Fixpoint field (key : string) (fields : list (string * json)) : option json :=
  match fields with
  | [] => None
  | (k, j) :: fields' => if k =? key then Some j else field key fields'
  end.

(** [key in d and isinstance(d[key], list)]: the list, when it is one. *)
Definition list_under (key : string) (fields : list (string * json))
  : option (list json) :=
  match field key fields with
  | Some (JArray rows) => Some rows
  | _ => None
  end.

(** [[v for v in d.values() if isinstance(v, list)]]. *)
Definition list_values (fields : list (string * json)) : list json :=
  filter is_list (map snd fields).

(** The rows the function hands to [pd.DataFrame], or the exception it
    raises before that. *)
Definition located_rows (times_json : json) : result (list json) :=
  match times_json with
  | JObject fields =>
      match list_under "results" fields with
      | Some rows => Ok rows
      | None =>
          match list_under "times" fields with
          | Some rows => Ok rows
          | None =>
              match list_values fields with
              | [JArray rows] => Ok rows
              | _ => Raise ValueError
              end
          end
      end
  | JArray rows => Ok rows
  | JScalar _ => Raise TypeError
  end.

(** [DataFrame] stands for the constructor [pd.DataFrame], which builds
    the table from the rows or raises: what pandas makes of a list is not
    modelled. *)
Definition swimmer_times_to_dataframe {T : Type}
    (DataFrame : list json -> result T) (times_json : json) : result T :=
  bind (located_rows times_json) (fun rows => DataFrame rows).

Definition is_object (j : json) : bool :=
  match j with
  | JObject _ => true
  | _ => false
  end.

(** A stand-in for the constructor in the examples: it takes a list of
    objects as it is and rejects any other list. *)
Definition objects_only (rows : list json) : result (list json) :=
  if forallb is_object rows then Ok rows else Raise TypeError.

(** An answer that has lists under both "times" and "results". *)
Definition both_keys : list (string * json) :=
  [ ("count", JScalar (JInt 2));
    ("times", JArray [JObject [("time", JScalar (JStr "20.11"))]]);
    ("results",
     JArray [ JObject [("time", JScalar (JStr "19.98"))]; JObject [] ]) ].

End TimesJson.

(* ------------------------------------------------------------------ *)
(** ** HTML pages: requests and what the scrapers read of a page *)

Module Web.

(** A computation that requests pages: the URLs requested so far are
    threaded through, and the computation returns or raises. *)
Definition M (A : Type) : Type := list string -> result A * list string.

Definition ret {A : Type} (a : A) : M A := fun log => (Ok a, log).

Definition mbind {A B : Type} (m : M A) (k : A -> M B) : M B :=
  fun log =>
    match m log with
    | (Ok a, log') => k a log'
    | (Raise e, log') => (Raise e, log')
    end.

(** A step that requests nothing. *)
Definition lift {A : Type} (r : result A) : M A := fun log => (r, log).

(** [requests.get(url, ...)] against a site, followed by the queries the
    caller makes on the answer. *)
Definition fetch {P : Type} (site : string -> result P) (url : string) : M P :=
  fun log => (site url, (log ++ [url])%list).

(** [try: m  except Exception: handler]. *)
Definition try_except {A : Type} (m : M A) (handler : exn -> M A) : M A :=
  fun log =>
    match m log with
    | (Ok a, log') => (Ok a, log')
    | (Raise e, log') => handler e log'
    end.

(** A loop body run over a list, the first exception ending the loop. *)
Fixpoint for_each {A B : Type} (f : A -> result B) (xs : list A)
  : result (list B) :=
  match xs with
  | [] => Ok []
  | x :: xs' =>
      bind (f x) (fun y => bind (for_each f xs') (fun ys => Ok (y :: ys)))
  end.

(** An [<a>] element: its text and its [href], when it has one. *)
Record anchor : Type := {
  a_text : string;
  a_href : option string
}.

(** [a["href"]]. *)
Definition href (a : anchor) : result string :=
  match a_href a with
  | Some h => Ok h
  | None => Raise KeyError
  end.

(** [tag.text] (or an attribute) of the result of [find], which is [None]
    when nothing is found. *)
Definition found {A : Type} (tag : option A) : result A :=
  match tag with
  | Some t => Ok t
  | None => Raise AttributeError
  end.

(** [parts[-2]]. *)
Definition second_last (parts : list string) : result string :=
  match rev parts with
  | _ :: p :: _ => Ok p
  | _ => Raise IndexError
  end.

End Web.

Notation "x <~ m ;; k" := (Web.mbind m (fun x => k))
  (at level 61, m at next level, right associativity).

(* ------------------------------------------------------------------ *)
(** ** Rosters: [getRoster] *)

Module Roster.

Import Str Teams Helpers Web.

(** A [<tr>] of the roster table: its links and the text of its cells, in
    document order. *)
Record table_row : Type := {
  tr_anchors : list anchor;
  tr_cells : list string
}.

(** What [getRoster] depends on besides its arguments: the global teams
    table, the calendar year, and the site. A page is given by the rows of
    its roster table, or [None] when it has no such table. *)
Record Site : Type := {
  teams : DataFrame;
  current_year : Z;
  roster_page : string -> result (option (list table_row))
}.

(** The body of the loop over the rows. *)
Definition roster_entry (team team_number : value) (pro : bool)
    (row : table_row) : result dict :=
  bind (found (hd_error (tr_anchors row))) (fun a =>
  bind (cleanName (JStr (strip (a_text a)))) (fun swimmer_name =>
  let id_array := tr_anchors row in
  bind (item id_array 0) (fun a0 =>
  bind (href a0) (fun h =>
  bind (last_item (split "/" h)) (fun swimmer_ID =>
  let cols := tr_cells row in
  bind (item cols 2) (fun c2 =>
  let hometown := strip c2 in
  bind (getState hometown) (fun state =>
  bind (getCity hometown) (fun city =>
  bind (if negb pro then bind (item cols 3) (fun c3 => Ok (strip c3))
        else Ok "None") (fun grade =>
  let HS_power_index := JNull in
  Ok [ ("swimmer_name", JStr swimmer_name);
       ("swimmer_ID", JStr swimmer_ID);
       ("team_name", team);
       ("team_ID", team_number);
       ("grade", JStr grade);
       ("hometown_state", JStr state);
       ("hometown_city", JStr city);
       ("HS_power_index", HS_power_index) ]))))))))).

(** The season the roster is asked for. *)
Definition resolve_season (site : Site) (season_ID year : Z) : Z :=
  let season_ID := if negb (year =? -1)%Z then getSeasonID year else season_ID in
  if (season_ID =? -1)%Z && (year =? -1)%Z
  then getSeasonID (current_year site)
  else season_ID.

Definition roster_url (team_number gender : value) (season_ID : Z) : string :=
  "https://www.swimcloud.com/team/" ++ py_str team_number ++ "/roster/"
  ++ "?page=1&gender=" ++ py_str gender ++ "&season_id=" ++ str_of_Z season_ID.

Definition getRoster (site : Site) (team gender team_ID : value)
    (season_ID year : Z) (pro : bool) : M (list dict) :=
  if negb (py_eq gender (JStr "M") || py_eq gender (JStr "F")) then ret []
  else
    who <~ lift
      (if negb (py_eq team_ID (JInt (-1))) then
         bind (getTeamName (teams site) team_ID) (fun name =>
         Ok (team_ID, py_or name team))
       else
         bind (getTeamID (teams site) team) (fun team_number =>
         Ok (team_number, team))) ;;
    let '(team_number, team) := who in
    let season_ID := resolve_season site season_ID year in
    page <~ fetch (roster_page site) (roster_url team_number gender season_ID) ;;
    rows <~ lift (bind (found page) (fun trs => Ok (tl trs))) ;;
    lift (for_each (roster_entry team team_number pro) rows).

(** A data row [getRoster] can read: a first link with an [href], and
    three cells, or four when the grade is read. *)
Definition readable (pro : bool) (row : table_row) : bool :=
  match tr_anchors row with
  | a :: _ =>
      match a_href a with
      | Some _ =>
          ((if pro then 3 else 4) <=? List.length (tr_cells row))%nat
      | None => false
      end
  | [] => false
  end.

End Roster.

(* ------------------------------------------------------------------ *)
(** ** What a roster entry owes to its row, and sample pages *)

Module RosterSpec.

Import Str Helpers Web Roster.

(** The entry [e] is the one of the row [row]: the eight keys in order;
    the team as resolved by the caller; the swimmer's name cleaned from
    the text of the first link and the ID cut from the end of its
    address; state and city split from the third cell; the grade from the
    fourth cell, or "None" for professionals; no power index. *)
Definition entry_of_row (team team_number : value) (pro : bool)
    (row : table_row) (e : dict) : Prop :=
  keys e = [ "swimmer_name"; "swimmer_ID"; "team_name"; "team_ID"; "grade";
             "hometown_state"; "hometown_city"; "HS_power_index" ]
  /\ get e "team_name" = team
  /\ get e "team_ID" = team_number
  /\ get e "HS_power_index" = JNull
  /\ (exists a h name,
        hd_error (tr_anchors row) = Some a
        /\ a_href a = Some h
        /\ cleanName (JStr (strip (a_text a))) = Ok name
        /\ get e "swimmer_name" = JStr name
        /\ get e "swimmer_ID" = JStr (last (split "/" h) ""))
  /\ (exists hometown state city,
        nth_error (tr_cells row) 2 = Some hometown
        /\ getState (strip hometown) = Ok state
        /\ getCity (strip hometown) = Ok city
        /\ get e "hometown_state" = JStr state
        /\ get e "hometown_city" = JStr city)
  /\ (if pro then get e "grade" = JStr "None"
      else exists grade,
             nth_error (tr_cells row) 3 = Some grade
             /\ get e "grade" = JStr (strip grade)).

Definition swimmer_row (name address hometown grade : string) : table_row :=
  {| tr_anchors := [ {| a_text := name; a_href := Some address |} ];
     tr_cells := [name; ""; hometown; grade] |}.

Definition header_row : table_row :=
  {| tr_anchors := []; tr_cells := [] |}.

Definition florida_rows : list table_row :=
  [ swimmer_row " Smith, John " "/swimmer/123" " Austin, TX " " SR ";
    swimmer_row "Madonna" "/swimmer/77" "Lyon, 69" "FR" ].

(** A site whose every page is the same roster. *)
Definition florida : Site :=
  {| teams := Samples.duplicated_teams;
     current_year := 2025;
     roster_page := fun _ => Ok (Some (header_row :: florida_rows)) |}.

(** A site whose pages have no roster table. *)
Definition no_table : Site :=
  {| teams := Samples.duplicated_teams;
     current_year := 2025;
     roster_page := fun _ => Ok None |}.

(** A site whose second data row has only two cells. *)
Definition short_row : Site :=
  {| teams := Samples.duplicated_teams;
     current_year := 2025;
     roster_page := fun _ =>
       Ok (Some [ header_row;
                  swimmer_row "Madonna" "/swimmer/77" "Lyon, 69" "FR";
                  {| tr_anchors := [ {| a_text := "X"; a_href := Some "/swimmer/1" |} ];
                     tr_cells := ["X"; ""] |} ]) |}.

End RosterSpec.

(* ------------------------------------------------------------------ *)
(** ** High-school recruit rankings: [getHSRecruitRankings] *)

Module Recruits.

Import Str Helpers Web.

Definition us_states : dict :=
  dict_of_items
    [
      ("Alabama", JStr "AL");
      ("Alaska", JStr "AK");
      ("Arizona", JStr "AZ");
      ("Arkansas", JStr "AR");
      ("California", JStr "CA");
      ("Colorado", JStr "CO");
      ("Connecticut", JStr "CT");
      ("Delaware", JStr "DE");
      ("District of Columbia", JStr "DC");
      ("Florida", JStr "FL");
      ("Georgia", JStr "GA");
      ("Hawaii", JStr "HI");
      ("Idaho", JStr "ID");
      ("Illinois", JStr "IL");
      ("Indiana", JStr "IN");
      ("Iowa", JStr "IA");
      ("Kansas", JStr "KS");
      ("Kentucky", JStr "KY");
      ("Louisiana", JStr "LA");
      ("Maine", JStr "ME");
      ("Maryland", JStr "MD");
      ("Massachusetts", JStr "MA");
      ("Michigan", JStr "MI");
      ("Minnesota", JStr "MN");
      ("Mississippi", JStr "MS");
      ("Missouri", JStr "MO");
      ("Montana", JStr "MT");
      ("Nebraska", JStr "NE");
      ("Nevada", JStr "NV");
      ("New Hampshire", JStr "NH");
      ("New Jersey", JStr "NJ");
      ("New Mexico", JStr "NM");
      ("New York", JStr "NY");
      ("North Carolina", JStr "NC");
      ("North Dakota", JStr "ND");
      ("Ohio", JStr "OH");
      ("Oklahoma", JStr "OK");
      ("Oregon", JStr "OR");
      ("Pennsylvania", JStr "PA");
      ("Rhode Island", JStr "RI");
      ("South Carolina", JStr "SC");
      ("South Dakota", JStr "SD");
      ("Tennessee", JStr "TN");
      ("Texas", JStr "TX");
      ("Utah", JStr "UT");
      ("Vermont", JStr "VT");
      ("Virginia", JStr "VA");
      ("Washington", JStr "WA");
      ("West Virginia", JStr "WV");
      ("Wisconsin", JStr "WI");
      ("Wyoming", JStr "WY")
    ].

(** [sub in s]. *)
Fixpoint occurs (sub s : string) : bool :=
  String.prefix sub s
  || match s with
     | EmptyString => false
     | String _ s' => occurs sub s'
     end.

(** [s.rstrip("/")]. *)
Fixpoint rstrip_slash (s : string) : string :=
  match s with
  | EmptyString => EmptyString
  | String c s' =>
      match rstrip_slash s' with
      | EmptyString => if (c =? "/")%char then EmptyString else String c EmptyString
      | r => String c r
      end
  end.

(** [tag.get_text(strip=True)] on the text pieces of a tag: each piece
    stripped, the empty ones left out, the rest run together. *)
Definition get_text_strip (pieces : list string) : string :=
  concat "" (filter (fun p => negb (p =? "")) (map strip pieces)).

(** An [<a>] of a rankings row: address, text pieces, and the [alt] of the
    first [<img>] in it ([None]: no image; [Some None]: no [alt]). *)
Record link : Type := {
  l_href : option string;
  l_strings : list string;
  l_img_alt : option (option string)
}.

(** A [<td>]: its classes and its text pieces. *)
Record cell : Type := {
  c_classes : list string;
  c_strings : list string
}.

Record row : Type := {
  r_links : list link;
  r_cells : list cell
}.

(** The answer to a page request: the status, and the rows of the
    responsive table when the page has one. *)
Record response : Type := {
  status_code : Z;
  table : option (list row)
}.

(** [a["href"]]. *)
Definition link_href (l : link) : result string :=
  match l_href l with
  | Some h => Ok h
  | None => Raise KeyError
  end.

(** [row.find("a", href=lambda h: h and part in h)]. *)
Definition find_link (part : string) (r : row) : option link :=
  find (fun l =>
          match l_href l with
          | Some h => negb (h =? "") && occurs part h
          | None => false
          end) (r_links r).

(** [row.find("td", class_=cls)]. *)
Definition find_cell (cls : string) (r : row) : option cell :=
  find (fun c => existsb (String.eqb cls) (c_classes c)) (r_cells r).

(** [parts[-1]] of a list that is not empty. *)
Definition last_part (parts : list string) : string := last parts "".

(** The name of the committed team, from the link to it. *)
Definition team_name_of (team_link : link) (team_name : string) : string :=
  match l_img_alt team_link with
  | Some (Some alt) =>
      if negb (alt =? "") then
        let parts := split_ws alt in
        let parts :=
          match parts with
          | [] => parts
          | _ => if lower (last_part parts) =? "logo"
                 then removelast parts else parts
          end in
        let name := strip (join " " parts) in
        if negb (name =? "") then name else team_name
      else
        let text := get_text_strip (l_strings team_link) in
        if negb (text =? "") then text else team_name
  | _ =>
      let text := get_text_strip (l_strings team_link) in
      if negb (text =? "") then text else team_name
  end.

(** The body of the loop over the rows of a page: [None] is [continue]. *)
Definition recruit_entry (r : row) : result (option dict) :=
  match find_link "/swimmer/" r with
  | None => Ok None
  | Some name_link =>
      let swimmer_name := get_text_strip (l_strings name_link) in
      bind (link_href name_link) (fun h =>
      let href := rstrip_slash h in
      bind (last_item (split "/" href)) (fun swimmer_ID =>
      bind
        (match find_cell "u-color-mute" r with
         | Some hometown_td =>
             let hometown_info := get_text_strip (c_strings hometown_td) in
             bind (getState hometown_info) (fun hometown_state =>
             bind (getCity hometown_info) (fun hometown_city =>
             Ok (JStr hometown_state, JStr hometown_city)))
         | None => Ok (JNull, JNull)
         end) (fun hometown =>
      let '(hometown_state, hometown_city) := hometown in
      let hs_power_index :=
        match find_cell "u-text-end" r with
        | Some power_td => JStr (get_text_strip (c_strings power_td))
        | None => JNull
        end in
      bind
        (match find_link "/team/" r with
         | Some team_link =>
             bind (link_href team_link) (fun th =>
             let team_href := rstrip_slash th in
             bind (last_item (split "/" team_href)) (fun team_ID =>
             Ok (team_name_of team_link "None", team_ID)))
         | None => Ok ("None", "None")
         end) (fun team =>
      let '(team_name, team_ID) := team in
      Ok (Some [ ("swimmer_name", JStr swimmer_name);
                 ("swimmer_ID", JStr swimmer_ID);
                 ("team_name", JStr team_name);
                 ("team_ID", JStr team_ID);
                 ("hometown_state", hometown_state);
                 ("hometown_city", hometown_city);
                 ("HS_power_index", hs_power_index) ])))))
  end.

(** The entries a loop over rows appends, in order. *)
Fixpoint entries_of_rows (rows : list row) : result (list dict) :=
  match rows with
  | [] => Ok []
  | r :: rows' =>
      bind (recruit_entry r) (fun e =>
      bind (entries_of_rows rows') (fun es =>
      Ok (match e with
          | Some entry => entry :: es
          | None => es
          end)))
  end.

(** [us_states.get(state)]. *)
Definition state_code (state : value) : value :=
  match state with
  | JStr s => get us_states s
  | _ => JNull
  end.

(** The listing asked for, before the page number. *)
Definition recruiting_url (class_year gender state state_abbreviation : value)
    (international : bool) : string :=
  let state_abbreviation :=
    if negb (py_eq state (JStr "none")) && py_eq state_abbreviation (JStr "none")
    then state_code state else state_abbreviation in
  let base :=
    "https://www.swimcloud.com/recruiting/rankings/" ++ py_str class_year
    ++ "/" ++ py_str gender ++ "/" in
  if international then base ++ "2/"
  else if negb (py_eq state_abbreviation JNull
                || py_eq state_abbreviation (JStr "none"))
  then base ++ "1/" ++ py_str state_abbreviation ++ "/"
  else if negb (py_eq state (JStr "none"))
  then base ++ "1/" ++ py_str (state_code state) ++ "/"
  else base.

Definition page_url (recruiting_url : string) (page : Z) : string :=
  recruiting_url ++ "?page=" ++ str_of_Z page.

(** The loop [for page in range(1, 5)], over the pages still to come. *)
Fixpoint pages_loop (site : string -> result response) (url : string)
    (pages : list Z) (recruits : list dict) : M (list dict) :=
  match pages with
  | [] => ret recruits
  | page :: pages' =>
      resp <~ fetch site (page_url url page) ;;
      if negb (status_code resp =? 200)%Z then ret recruits
      else
        match table resp with
        | None => ret recruits
        | Some rows =>
            if (List.length rows <=? 1)%nat then ret recruits
            else
              entries <~ lift (entries_of_rows (tl rows)) ;;
              pages_loop site url pages' (recruits ++ entries)
        end
  end.

Definition getHSRecruitRankings (site : string -> result response)
    (class_year gender state state_abbreviation : value)
    (international : bool) : M (list dict) :=
  if negb (py_eq gender (JStr "M") || py_eq gender (JStr "F")) then ret []
  else
    pages_loop site
      (recruiting_url class_year gender state state_abbreviation international)
      [1; 2; 3; 4]%Z [].

(** A page the loop goes past: status 200 and a table of more than one
    row. *)
Definition full_page (r : result response) : bool :=
  match r with
  | Ok resp =>
      (status_code resp =? 200)%Z
      && match table resp with
         | Some rows => (1 <? List.length rows)%nat
         | None => false
         end
  | Raise _ => false
  end.

(** A page the loop stops at without raising. *)
Definition last_page (r : result response) : bool :=
  match r with
  | Ok _ => negb (full_page r)
  | Raise _ => false
  end.

(** The entries of a page the loop goes past. *)
Definition entries_of (r : result response) : list dict :=
  match r with
  | Ok resp =>
      match table resp with
      | Some rows =>
          match entries_of_rows (tl rows) with
          | Ok entries => entries
          | Raise _ => []
          end
      | None => []
      end
  | Raise _ => []
  end.

End Recruits.

Module RecruitSpec.

Import Str Helpers Web Recruits.

(** The row has a link to a swimmer. *)
Definition listed (r : row) : bool :=
  match find_link "/swimmer/" r with
  | Some _ => true
  | None => false
  end.

(** The entry [e] is the one of the row [r]: the seven keys in order; the
    name and the ID from the first link to a swimmer; state and city from
    the first muted cell, or None without one; the power index as the
    first end-aligned cell shows it, or None; the committed team from the
    first link to a team, or "None" twice without one. *)
Definition entry_of_row (r : row) (e : dict) : Prop :=
  keys e = [ "swimmer_name"; "swimmer_ID"; "team_name"; "team_ID";
             "hometown_state"; "hometown_city"; "HS_power_index" ]
  /\ (exists a h,
        find_link "/swimmer/" r = Some a
        /\ l_href a = Some h
        /\ get e "swimmer_name" = JStr (get_text_strip (l_strings a))
        /\ get e "swimmer_ID" = JStr (last (split "/" (rstrip_slash h)) ""))
  /\ match find_cell "u-color-mute" r with
     | Some td =>
         exists state city,
           getState (get_text_strip (c_strings td)) = Ok state
           /\ getCity (get_text_strip (c_strings td)) = Ok city
           /\ get e "hometown_state" = JStr state
           /\ get e "hometown_city" = JStr city
     | None =>
         get e "hometown_state" = JNull /\ get e "hometown_city" = JNull
     end
  /\ get e "HS_power_index"
     = match find_cell "u-text-end" r with
       | Some td => JStr (get_text_strip (c_strings td))
       | None => JNull
       end
  /\ match find_link "/team/" r with
     | Some t =>
         exists h,
           l_href t = Some h
           /\ get e "team_ID" = JStr (last (split "/" (rstrip_slash h)) "")
           /\ get e "team_name" = JStr (team_name_of t "None")
     | None =>
         get e "team_ID" = JStr "None" /\ get e "team_name" = JStr "None"
     end.

Definition text_link (address text : string) : link :=
  {| l_href := Some address; l_strings := [text]; l_img_alt := None |}.

Definition logo_link (address alt : string) : link :=
  {| l_href := Some address; l_strings := []; l_img_alt := Some (Some alt) |}.

Definition recruit_row (name address hometown power : string)
    (team : list link) : row :=
  {| r_links := (text_link address name :: team)%list;
     r_cells := [ {| c_classes := ["u-color-mute"]; c_strings := [hometown] |};
                  {| c_classes := ["u-text-end"]; c_strings := [power] |} ] |}.

Definition header_row : row := {| r_links := []; r_cells := [] |}.

(** A row that links to no swimmer. *)
Definition advert_row : row :=
  {| r_links := [text_link "/recruiting/" "More"]; r_cells := [] |}.

Definition listing : string :=
  "https://www.swimcloud.com/recruiting/rankings/2028/M/".

(** A listing of two pages; every further page is missing. *)
Definition two_pages (url : string) : result response :=
  if url =? listing ++ "?page=1" then
    Ok {| status_code := 200;
          table := Some [ header_row;
                          recruit_row " Ann Lee " "/swimmer/501/" "Austin, TX"
                            " 1.23 " [logo_link "/team/117/" "Florida logo"];
                          advert_row;
                          recruit_row "Bo Chen" "/swimmer/502" "Lyon" "2.5" [] ] |}
  else if url =? listing ++ "?page=2" then
    Ok {| status_code := 200;
          table := Some [ header_row;
                          recruit_row "Cy Diaz" "/swimmer/503" "Reno, NV" "3.1"
                            [text_link "/team/34" " Texas "] ] |}
  else Ok {| status_code := 404; table := None |}.

(** A listing whose second page cannot be fetched. *)
Definition broken (url : string) : result response :=
  if url =? listing ++ "?page=2" then Raise HTTPError else two_pages url.

End RecruitSpec.

(* ------------------------------------------------------------------ *)
(** * Properties *)

Example str_of_Z_samples :
  str_of_Z 0 = "0" /\ str_of_Z 50 = "50" /\ str_of_Z (-1) = "-1".
Proof. repeat split; reflexivity. Qed.

Example str_samples :
  Str.strip "  Austin  " = "Austin" /\
  Str.split "," "Austin, TX" = ["Austin"; " TX"] /\
  Str.split "," "a,,b," = ["a"; ""; "b"; ""] /\
  Str.split1 ":" "1:02:03" = ["1"; "02:03"] /\
  Str.split_ws "  John   Smith " = ["John"; "Smith"] /\
  Str.split_ws "   " = [] /\
  Str.join " " ["a"; "b"; "c"] = "a b c" /\
  Str.isalpha "" = false /\ Str.isalpha "TX" = true /\ Str.isalpha "T X" = false.
Proof. repeat split; reflexivity. Qed.

Import Str Float Codec Net Swimmer Teams Helpers.

(* ------------------------------------------------------------------ *)
(** ** Event tokens *)

Lemma prefix_append (a b : string) : String.prefix a (a ++ b) = true.
Proof.
  induction a as [|c a IH].
  - now destruct b.
  - simpl. destruct (ascii_dec c c) as [_|Hne]; [exact IH | now elim Hne].
Qed.

Lemma gender_code_digit (g : value) :
  str_of_Z (_gender_code g) = Spec.gender_digit g.
Proof.
  unfold _gender_code.
  destruct g as [|b|n|s]; simpl; try reflexivity.
  destruct (s =? "M"); [reflexivity|].
  destruct (s =? "F"); reflexivity.
Qed.

(** C9. The token of a record is its gender digit (1 for "M", 2 for "F",
    0 for anything else), then the record's distance, course and stroke
    values as they are, each rendered by [str], separated by "|"; so the
    token starts with the gender digit followed by "|". *)
Theorem event_token_format (rec : dict) :
  let g := Spec.gender_digit (get rec "eventgender") in
  _event_token_from_record rec
    = g ++ "|" ++ py_str (get rec "eventdistance")
        ++ "|" ++ py_str (get rec "eventcourse")
        ++ "|" ++ py_str (get rec "eventstroke")
  /\ String.prefix (g ++ "|") (_event_token_from_record rec) = true
  /\ Spec.gender_digit (JStr "M") = "1"
  /\ Spec.gender_digit (JStr "F") = "2".
Proof.
  cbv zeta. unfold _event_token_from_record.
  rewrite gender_code_digit.
  repeat split.
  set (g := Spec.gender_digit _).
  set (rest := py_str _ ++ _).
  replace (g ++ "|" ++ rest) with ((g ++ "|") ++ rest).
  - apply prefix_append.
  - clear. induction g as [|c g IH]; simpl; [reflexivity | now rewrite IH].
Qed.

Lemma season_year_roundtrip (n : Z) :
  getSeasonID (getYear n) = n /\ getYear (getSeasonID n) = n.
Proof. unfold getSeasonID, getYear. lia. Qed.

Example event_token_samples :
  _event_token_from_record
    [("eventgender", JStr "M"); ("eventdistance", JInt 50);
     ("eventcourse", JStr "Y"); ("eventstroke", JInt 1)] = "1|50|Y|1"
  /\ _event_token_from_record
       [("eventgender", JStr "F"); ("eventdistance", JStr "100");
        ("eventcourse", JStr "L"); ("eventstroke", JStr "2")] = "2|100|L|2"
  /\ _event_token_from_record [("eventgender", JStr "X")] = "0|None|None|None"
  /\ _event_label_from_record
       [("eventgender", JStr "M"); ("eventdistance", JInt 50);
        ("eventcourse", JStr "Y"); ("eventstroke", JInt 1)] = "50 Y Free".
Proof. repeat split; reflexivity. Qed.

(* ------------------------------------------------------------------ *)
(** ** Field fallbacks of the flattener *)

Lemma py_or_get (rec : dict) (primary alternate : string) :
  py_or (get rec primary) (get rec alternate)
    = Spec.with_fallback rec primary alternate.
Proof.
  unfold py_or, get, Spec.with_fallback, Spec.field.
  destruct (lookup primary rec) as [v|]; reflexivity.
Qed.

(** C5, as the claim words it, fails: a record whose "eventtime" is present
    but empty takes its time from "time", in both flatteners. *)
Lemma eventtime_fallback_when_present :
  let rec := [("eventtime", JStr ""); ("time", JStr "59.10")] in
  lookup "eventtime" rec = Some (JStr "")
  /\ eventtime (swim_row_of (JInt 7) "50 Y Free" rec) = JStr "59.10"
  /\ f_eventtime (fastest_row_of (JInt 7) rec) = JStr "59.10"
  /\ eventtime (swim_row_of (JInt 7) "50 Y Free" rec) <> JStr "".
Proof. cbv zeta. repeat split. discriminate. Qed.

(** C5, amended. In both flatteners [eventtime] is the record's
    "eventtime" value when that value is present and counts as true
    (not null, empty, zero or false) and the "time" value otherwise;
    [dateofswim] falls back to "date_created" and [meet_name] to "name" in
    the same way; every other copied field is the record's value under its
    key; and a key that is missing reads as null, so a row is always
    built. The computed fields are the exception to null: without
    "eventstroke" the stroke name is the text "None", not null, and the
    label the fastest-times flattener computes spells a missing distance,
    course or stroke as "None". *)
Theorem flattened_fields (swimmer_ID : value) (label : string) (rec : dict) :
  let r := swim_row_of swimmer_ID label rec in
  let f := fastest_row_of swimmer_ID rec in
  eventtime r = Spec.with_fallback rec "eventtime" "time"
  /\ dateofswim r = Spec.with_fallback rec "dateofswim" "date_created"
  /\ meet_name r = Spec.with_fallback rec "meet_name" "name"
  /\ f_eventtime f = Spec.with_fallback rec "eventtime" "time"
  /\ f_dateofswim f = Spec.with_fallback rec "dateofswim" "date_created"
  /\ f_meet_name f = Spec.with_fallback rec "meet_name" "name"
  /\ season_id r = Spec.field rec "season_id"
  /\ f_season_id f = Spec.field rec "season_id"
  /\ heat r = Spec.field rec "heat"
  /\ lane r = Spec.field rec "lane"
  /\ place r = Spec.field rec "place"
  /\ eventdistance r = Spec.field rec "eventdistance"
  /\ eventcourse r = Spec.field rec "eventcourse"
  /\ eventgender r = Spec.field rec "eventgender"
  /\ f_eventdistance f = Spec.field rec "eventdistance"
  /\ f_eventcourse f = Spec.field rec "eventcourse"
  /\ f_eventgender f = Spec.field rec "eventgender"
  /\ swimmer_id r = swimmer_ID
  /\ f_swimmer_id f = swimmer_ID
  /\ event_label r = label
  /\ eventstroke_name r
     = match lookup "eventstroke" rec with
       | Some code => _stroke_name code
       | None => "None"
       end
  /\ f_eventstroke_name f = eventstroke_name r
  /\ f_event_label f
     = py_str (Spec.field rec "eventdistance") ++ " "
       ++ py_str (Spec.field rec "eventcourse") ++ " " ++ eventstroke_name r
  /\ swim_row_of swimmer_ID label [] =
       {| swimmer_id := swimmer_ID; event_label := label;
          eventdistance := JNull; eventcourse := JNull;
          eventstroke_name := "None"; eventgender := JNull;
          eventtime := JNull; dateofswim := JNull; meet_name := JNull;
          season_id := JNull; heat := JNull; lane := JNull; place := JNull |}
  /\ fastest_row_of swimmer_ID [] =
       {| f_swimmer_id := swimmer_ID; f_event_label := "None None None";
          f_eventdistance := JNull; f_eventcourse := JNull;
          f_eventstroke_name := "None"; f_eventgender := JNull;
          f_eventtime := JNull; f_dateofswim := JNull; f_meet_name := JNull;
          f_season_id := JNull |}.
Proof.
  cbv zeta.
  assert (Hstroke : _stroke_name (get rec "eventstroke")
                    = match lookup "eventstroke" rec with
                      | Some code => _stroke_name code
                      | None => "None"
                      end).
  { unfold get. now destruct (lookup "eventstroke" rec). }
  unfold swim_row_of, fastest_row_of, _event_label_from_record; simpl.
  rewrite !py_or_get, Hstroke.
  repeat split.
Qed.

(** A record without "eventstroke": the stroke name of its row is a text,
    not null, in both flatteners. *)
Example missing_stroke_is_text :
  let rec := [("eventdistance", JInt 50); ("eventcourse", JStr "Y")] in
  eventstroke_name (swim_row_of (JInt 7) "50 Y Free" rec) = "None"
  /\ f_eventstroke_name (fastest_row_of (JInt 7) rec) = "None"
  /\ f_event_label (fastest_row_of (JInt 7) rec) = "50 Y None".
Proof. cbv zeta. repeat split. Qed.

(* ------------------------------------------------------------------ *)
(** ** The events table *)

Lemma index_none (x : value) (xs : list value) :
  existsb (fun v => py_eq v x) xs = false -> index x xs = Raise ValueError.
Proof.
  induction xs as [|y ys IH]; simpl; [reflexivity|].
  destruct (py_eq y x); simpl; [discriminate|].
  intros H. now rewrite (IH H).
Qed.

Lemma events_roundtrip_all :
  forallb (fun label =>
             match getEventName (getEventID label) with
             | Ok l => l =? label
             | Raise _ => false
             end) (keys events) = true.
Proof. vm_compute. reflexivity. Qed.

(** C2. Every label of the events table is returned by [getEventName] on
    the code [getEventID] gives for it, the label "25 Y Back" with its code
    "225 Y" included; and [getEventName] raises (the [ValueError] of
    [list.index]) on a code that no entry of the table equals. *)
Theorem events_roundtrip :
  (forall label, In label (keys events) ->
     getEventName (getEventID label) = Ok label)
  /\ getEventID "25 Y Back" = JStr "225 Y"
  /\ getEventName (JStr "225 Y") = Ok "25 Y Back"
  /\ (forall code,
        existsb (fun v => py_eq v code) (values events) = false ->
        getEventName code = Raise ValueError).
Proof.
  split; [|split; [|split]].
  - intros label Hin.
    pose proof events_roundtrip_all as H.
    rewrite forallb_forall in H. specialize (H label Hin).
    destruct (getEventName (getEventID label)) as [l|e]; [|discriminate].
    apply String.eqb_eq in H. now subst.
  - reflexivity.
  - reflexivity.
  - intros code H. unfold getEventName.
    now rewrite (index_none _ _ H).
Qed.

Lemma events_roundtrip_witness :
  getEventName (getEventID "200 Free Relay") = Ok "200 Free Relay"
  /\ getEventName (JStr "6200") = Raise ValueError.
Proof.
  split.
  - apply (proj1 events_roundtrip). vm_compute. tauto.
  - apply (proj2 (proj2 (proj2 events_roundtrip))). vm_compute. reflexivity.
Defined.

(* ------------------------------------------------------------------ *)
(** ** Team lookups *)

Section Lookup_loops.

Variable key : value.

Lemma cell_get (r : dict) (col : string) (v : value) :
  lookup col r = Some v -> cell r col = Ok (get r col).
Proof. unfold cell, get. now intros ->. Qed.

Ltac row_keys H :=
  simpl in H;
  match type of H with
  | context [lookup "team_name" ?r] =>
      let n := fresh "n" in let i := fresh "i" in
      let Hn := fresh "Hn" in let Hi := fresh "Hi" in
      destruct (lookup "team_name" r) as [n|] eqn:Hn; [|discriminate H];
      destruct (lookup "team_ID" r) as [i|] eqn:Hi; [|discriminate H];
      simpl;
      rewrite ?(cell_get _ _ _ Hn), ?(cell_get _ _ _ Hi); simpl
  end.

Lemma getTeamID_loop_no_match (rs : list dict) (acc : value) :
  forallb (fun r =>
             match lookup "team_name" r, lookup "team_ID" r with
             | Some _, Some _ => true
             | _, _ => false
             end) rs = true ->
  Spec.no_match "team_name" key rs = true ->
  getTeamID_loop rs key acc = Ok acc.
Proof.
  revert acc. induction rs as [|r rs IH]; intros acc Hk Hn; [reflexivity|].
  simpl in Hn. apply andb_prop in Hn as [Hr Hn].
  row_keys Hk.
  apply negb_true_iff in Hr. rewrite Hr. now apply IH.
Qed.

Lemma getTeamID_loop_last (pre post : list dict) (r : dict) (acc : value) :
  forallb (fun r =>
             match lookup "team_name" r, lookup "team_ID" r with
             | Some _, Some _ => true
             | _, _ => false
             end) (pre ++ r :: post) = true ->
  py_eq (get r "team_name") key = true ->
  Spec.no_match "team_name" key post = true ->
  getTeamID_loop (pre ++ r :: post) key acc = Ok (get r "team_ID").
Proof.
  revert acc. induction pre as [|p pre IH]; intros acc Hk Hr Hn.
  - change (([] ++ r :: post)%list) with (r :: post) in *.
    row_keys Hk. rewrite Hr. now apply getTeamID_loop_no_match.
  - change (((p :: pre) ++ r :: post)%list) with (p :: (pre ++ r :: post))%list in *.
    row_keys Hk.
    destruct (py_eq (get p "team_name") key); now apply IH.
Qed.

Lemma getTeamName_loop_no_match (rs : list dict) (acc : value) :
  forallb (fun r =>
             match lookup "team_name" r, lookup "team_ID" r with
             | Some _, Some _ => true
             | _, _ => false
             end) rs = true ->
  Spec.no_match "team_ID" key rs = true ->
  getTeamName_loop rs key acc = Ok acc.
Proof.
  revert acc. induction rs as [|r rs IH]; intros acc Hk Hn; [reflexivity|].
  simpl in Hn. apply andb_prop in Hn as [Hr Hn].
  row_keys Hk.
  apply negb_true_iff in Hr. rewrite Hr. now apply IH.
Qed.

Lemma getTeamName_loop_last (pre post : list dict) (r : dict) (acc : value) :
  forallb (fun r =>
             match lookup "team_name" r, lookup "team_ID" r with
             | Some _, Some _ => true
             | _, _ => false
             end) (pre ++ r :: post) = true ->
  py_eq (get r "team_ID") key = true ->
  Spec.no_match "team_ID" key post = true ->
  getTeamName_loop (pre ++ r :: post) key acc = Ok (get r "team_name").
Proof.
  revert acc. induction pre as [|p pre IH]; intros acc Hk Hr Hn.
  - change (([] ++ r :: post)%list) with (r :: post) in *.
    row_keys Hk. rewrite Hr. now apply getTeamName_loop_no_match.
  - change (((p :: pre) ++ r :: post)%list) with (p :: (pre ++ r :: post))%list in *.
    row_keys Hk.
    destruct (py_eq (get p "team_ID") key); now apply IH.
Qed.

End Lookup_loops.

(** C6. On a teams table whose rows carry the columns team_name and
    team_ID (as every table [load_teams] returns does), [getTeamID] returns
    the team_ID of the last row whose team_name equals the name, and -1
    when no row does; [getTeamName] returns the team_name of the last row
    whose team_ID equals the ID, and the empty string when no row does.
    Neither raises. *)
Theorem team_lookup_last_wins (teams : DataFrame) (key : value) :
  Spec.has_team_keys teams = true ->
  (forall pre r post,
      rows teams = (pre ++ r :: post)%list ->
      py_eq (get r "team_name") key = true ->
      Spec.no_match "team_name" key post = true ->
      getTeamID teams key = Ok (get r "team_ID"))
  /\ (Spec.no_match "team_name" key (rows teams) = true ->
      getTeamID teams key = Ok (JInt (-1)))
  /\ (forall pre r post,
      rows teams = (pre ++ r :: post)%list ->
      py_eq (get r "team_ID") key = true ->
      Spec.no_match "team_ID" key post = true ->
      getTeamName teams key = Ok (get r "team_name"))
  /\ (Spec.no_match "team_ID" key (rows teams) = true ->
      getTeamName teams key = Ok (JStr "")).
Proof.
  unfold Spec.has_team_keys, getTeamID, getTeamName. intros Hk.
  repeat split.
  - intros pre r post E Hr Hn. rewrite E in *.
    now apply getTeamID_loop_last.
  - intros Hn. now apply getTeamID_loop_no_match.
  - intros pre r post E Hr Hn. rewrite E in *.
    now apply getTeamName_loop_last.
  - intros Hn. now apply getTeamName_loop_no_match.
Qed.

(** The two cases of a lookup cover every table: either some row matches,
    and then there is a last one, or none does. *)
Lemma last_match_cases (p : dict -> bool) (rs : list dict) :
  forallb (fun r => negb (p r)) rs = true
  \/ exists pre r post,
       rs = (pre ++ r :: post)%list /\ p r = true
       /\ forallb (fun r => negb (p r)) post = true.
Proof.
  induction rs as [|r rs [IH|(pre & r' & post & E & Hr & Hn)]].
  - now left.
  - destruct (p r) eqn:Hp.
    + right. exists [], r, rs. now rewrite Hp, IH.
    + left. simpl. now rewrite Hp, IH.
  - right. exists (r :: pre), r', post. simpl. now rewrite E, Hr, Hn.
Qed.

(* ------------------------------------------------------------------ *)
(** ** Loading the teams table *)

Lemma select_columns (df df' : DataFrame) (cols : list string) :
  select df cols = Ok df' -> columns df' = cols.
Proof.
  unfold select. destruct (forallb (has_column df) cols); [|discriminate].
  intros [= <-]. reflexivity.
Qed.

Lemma has_column_set (df : DataFrame) (col c : string) (v : value) :
  has_column df c = true -> has_column (set_column df col v) c = true.
Proof.
  unfold set_column, has_column at 1 2; simpl. intros H.
  destruct (has_column df col); [exact H|].
  rewrite existsb_app, H. reflexivity.
Qed.

Lemma has_column_set_same (df : DataFrame) (col : string) (v : value) :
  has_column (set_column df col v) col = true.
Proof.
  unfold set_column, has_column at 1; simpl.
  destruct (has_column df col) eqn:E; [exact E|].
  rewrite existsb_app. simpl. rewrite String.eqb_refl.
  now rewrite orb_true_r.
Qed.

Lemma fill_step_keeps (cols : list string) (df : DataFrame) (c : string) :
  has_column df c = true ->
  has_column
    (fold_left
       (fun df col => if has_column df col then df else set_column df col JNull)
       cols df) c = true.
Proof.
  revert df. induction cols as [|col cols IH]; intros df H; simpl; [exact H|].
  apply IH. destruct (has_column df col); [exact H|].
  now apply has_column_set.
Qed.

Lemma fill_step_adds (cols : list string) (df : DataFrame) :
  forallb
    (has_column
       (fold_left
          (fun df col => if has_column df col then df else set_column df col JNull)
          cols df)) cols = true.
Proof.
  revert df. induction cols as [|col cols IH]; intros df; simpl; [reflexivity|].
  rewrite IH, andb_true_r.
  apply fill_step_keeps.
  destruct (has_column df col) eqn:E; [exact E|].
  apply has_column_set_same.
Qed.

(** After the fill loop the selection of the expected columns succeeds. *)
Lemma select_after_fill (df : DataFrame) :
  select (fill_missing df) expected_cols
  = Ok {| columns := expected_cols;
          rows := map (fun r => map (fun c => (c, get r c)) expected_cols)
                      (rows (fill_missing df)) |}.
Proof.
  unfold select, fill_missing. now rewrite fill_step_adds.
Qed.

(** [load_teams] raises only what [read_csv] raises, [EmptyDataError]
    excepted. *)
Lemma load_teams_raises (w : World) (path : option string) (e : exn) :
  load_teams w path = Raise e ->
  e <> EmptyDataError
  /\ exists p content, files w p = File content /\ read_csv w content = Raise e.
Proof.
  unfold load_teams.
  set (p := match path with None => _ | Some p => p end).
  destruct (files w p) as [|content] eqn:Ef; [discriminate|].
  destruct (String.length content =? 0)%nat; [discriminate|].
  destruct (read_csv w content) as [df|e'] eqn:Er.
  - rewrite select_after_fill. discriminate.
  - destruct e'; try discriminate; intros [= <-];
      (split; [discriminate | now exists p, content]).
Qed.

(** Every table [load_teams] returns has the columns the lookups read. *)
Lemma load_teams_has_team_keys (w : World) (path : option string)
    (df : DataFrame) :
  load_teams w path = Ok df -> Spec.has_team_keys df = true.
Proof.
  unfold load_teams.
  destruct (files w _) as [|content]; [intros [= <-]; reflexivity|].
  destruct (String.length content =? 0)%nat; [intros [= <-]; reflexivity|].
  destruct (read_csv w content) as [df0|e].
  - rewrite select_after_fill. intros [= <-].
    unfold Spec.has_team_keys; simpl.
    induction (rows (fill_missing df0)) as [|r rs IH]; [reflexivity|].
    simpl. exact IH.
  - destruct e; try discriminate. intros [= <-]; reflexivity.
Qed.

(** C7. When the file behind the path is missing, has length zero, or is
    one in which [read_csv] finds no columns ([EmptyDataError]),
    [load_teams] returns the table with the seven expected columns, in
    order, and no rows; and every table it returns has exactly those
    columns in that order. *)
Theorem load_teams_degrades_to_empty (w : World) (path : option string) :
  let p :=
    match path with
    | None => _default_teams_path w
    | Some p => p
    end in
  let seven :=
    [ "team_name"; "team_ID"; "team_state"; "team_division";
      "team_division_ID"; "team_conference"; "team_conference_ID" ] in
  (files w p = Missing
   \/ (exists content,
         files w p = File content
         /\ (String.length content = 0%nat
             \/ read_csv w content = Raise EmptyDataError)) ->
   load_teams w path = Ok {| columns := seven; rows := [] |})
  /\ (forall df, load_teams w path = Ok df -> columns df = seven).
Proof.
  cbv zeta. unfold load_teams.
  set (p := match path with None => _ | Some p => p end).
  split.
  - intros [H|(content & H & Hc)]; rewrite H; [reflexivity|].
    destruct Hc as [Hlen|Hr].
    + now rewrite Hlen.
    + rewrite Hr. now destruct (String.length content =? 0)%nat.
  - intros df.
    destruct (files w p) as [|content]; [intros [= <-]; reflexivity|].
    destruct (String.length content =? 0)%nat; [intros [= <-]; reflexivity|].
    destruct (read_csv w content) as [df0|e].
    + intros H. now apply select_columns in H.
    + destruct e; try discriminate. intros [= <-]; reflexivity.
Qed.

(* ------------------------------------------------------------------ *)
(** ** Characters and [str] methods *)

Ltac by_char c :=
  destruct c as [[] [] [] [] [] [] [] []];
  vm_compute; try reflexivity; try discriminate; auto.

Lemma space_not_colon (c : ascii) : is_space c = true -> (c =? ":")%char = false.
Proof. by_char c. Qed.

Lemma space_not_comma (c : ascii) : is_space c = true -> (c =? ",")%char = false.
Proof. by_char c. Qed.

Lemma alpha_not_colon (c : ascii) : is_alpha c = true -> (c =? ":")%char = false.
Proof. by_char c. Qed.

Lemma alpha_not_space (c : ascii) : is_alpha c = true -> is_space c = false.
Proof. by_char c. Qed.

Lemma append_assoc (a b c : string) : (a ++ b) ++ c = a ++ b ++ c.
Proof. induction a as [|x a IH]; simpl; [reflexivity | now rewrite IH]. Qed.

Lemma append_nil_r (a : string) : a ++ "" = a.
Proof. induction a as [|x a IH]; simpl; [reflexivity | now rewrite IH]. Qed.

Lemma all_space_lstrip (s : string) :
  all_chars is_space s = true -> lstrip s = "".
Proof.
  induction s as [|c s IH]; simpl; [reflexivity|].
  intros H. apply andb_prop in H as [Hc Hs]. now rewrite Hc, IH.
Qed.

Lemma all_space_strip (s : string) :
  all_chars is_space s = true -> strip s = "".
Proof. intros H. unfold strip. now rewrite all_space_lstrip. Qed.

Lemma lstrip_head (s : string) :
  match lstrip s with
  | EmptyString => True
  | String c _ => is_space c = false
  end.
Proof.
  induction s as [|c s IH]; simpl; [exact I|].
  destruct (is_space c) eqn:E; [exact IH | exact E].
Qed.

Lemma lstrip_fixed (s : string) :
  match s with
  | EmptyString => True
  | String c _ => is_space c = false
  end -> lstrip s = s.
Proof. destruct s as [|c s]; simpl; [reflexivity | now intros ->]. Qed.

Lemma lstrip_idem (s : string) : lstrip (lstrip s) = lstrip s.
Proof. apply lstrip_fixed, lstrip_head. Qed.

Lemma rstrip_head (s : string) :
  match s with
  | EmptyString => True
  | String c _ => is_space c = false
  end ->
  match rstrip s with
  | EmptyString => s = ""
  | String c _ => is_space c = false
  end.
Proof.
  destruct s as [|c s]; simpl; [reflexivity|]. intros Hc.
  destruct (rstrip s); [now rewrite Hc | exact Hc].
Qed.

Lemma rstrip_idem (s : string) : rstrip (rstrip s) = rstrip s.
Proof.
  induction s as [|c s IH]; simpl; [reflexivity|].
  destruct (rstrip s) as [|d r] eqn:E.
  - destruct (is_space c) eqn:Hc; simpl; [reflexivity | now rewrite Hc].
  - change (rstrip (String c (String d r))) with
      (match rstrip (String d r) with
       | EmptyString => if is_space c then "" else String c ""
       | x => String c x
       end).
    now rewrite IH.
Qed.

Lemma strip_idem (s : string) : strip (strip s) = strip s.
Proof.
  unfold strip.
  rewrite (lstrip_fixed (rstrip (lstrip s))).
  - apply rstrip_idem.
  - pose proof (rstrip_head (lstrip s) (lstrip_head s)) as H.
    destruct (rstrip (lstrip s)); [exact I | exact H].
Qed.

Lemma rstrip_empty_lstrip (s : string) : rstrip s = "" -> lstrip s = "".
Proof.
  induction s as [|c s IH]; simpl; [reflexivity|].
  destruct (rstrip s) as [|d r]; [|discriminate].
  destruct (is_space c); [intros _; now apply IH | discriminate].
Qed.

Lemma strip_rstrip (s : string) : strip (rstrip s) = strip s.
Proof.
  unfold strip. induction s as [|c s IH]; [reflexivity|].
  simpl rstrip at 2. simpl lstrip at 2.
  destruct (rstrip s) as [|d r] eqn:E.
  - destruct (is_space c) eqn:Hc.
    + simpl. now rewrite (rstrip_empty_lstrip s E).
    + simpl. rewrite Hc. simpl. now rewrite E, Hc.
  - destruct (is_space c) eqn:Hc.
    + simpl lstrip at 1. rewrite Hc. exact IH.
    + simpl lstrip at 1. rewrite Hc.
      rewrite <- E.
      change (rstrip (String c (rstrip s))) with
        (match rstrip (rstrip s) with
         | EmptyString => if is_space c then "" else String c ""
         | x => String c x
         end).
      rewrite rstrip_idem. reflexivity.
Qed.

Lemma strip_lstrip (s : string) : strip (lstrip s) = strip s.
Proof. unfold strip. now rewrite lstrip_idem. Qed.

Lemma contains_append (c : ascii) (a b : string) :
  contains c (a ++ b) = contains c a || contains c b.
Proof.
  induction a as [|x a IH]; simpl; [reflexivity|].
  now rewrite IH, orb_assoc.
Qed.

Lemma contains_lstrip (s : string) :
  contains ":" (lstrip s) = contains ":" s.
Proof.
  induction s as [|c s IH]; simpl; [reflexivity|].
  destruct (is_space c) eqn:E; [|reflexivity].
  now rewrite (space_not_colon c E), IH.
Qed.

Lemma contains_rstrip (s : string) :
  contains ":" (rstrip s) = contains ":" s.
Proof.
  induction s as [|c s IH]; simpl; [reflexivity|].
  rewrite <- IH.
  destruct (rstrip s) as [|d r]; [|reflexivity].
  destruct (is_space c) eqn:E; [|reflexivity].
  now rewrite (space_not_colon c E).
Qed.

Lemma alpha_no_colon (s : string) :
  all_chars is_alpha s = true -> contains ":" s = false.
Proof.
  induction s as [|c s IH]; simpl; [reflexivity|].
  intros H. apply andb_prop in H as [Hc Hs].
  now rewrite (alpha_not_colon c Hc), IH.
Qed.

Lemma isalpha_no_colon (s : string) :
  isalpha s = true -> contains ":" s = false.
Proof.
  unfold isalpha. intros H. apply andb_prop in H as [_ H].
  now apply alpha_no_colon.
Qed.

(** [split] never returns the empty list. *)
Lemma split_not_nil (sep : ascii) (s : string) : split sep s <> [].
Proof.
  destruct s as [|c s]; simpl; [discriminate|].
  destruct (c =? sep)%char; [discriminate|].
  destruct (split sep s); discriminate.
Qed.

(** Joining the segments with the separator gives the string back. *)
Lemma join_split (sep : ascii) (s : string) :
  join (String sep "") (split sep s) = s.
Proof.
  induction s as [|c s IH]; [reflexivity|].
  simpl split. destruct (c =? sep)%char eqn:E.
  - apply Ascii.eqb_eq in E. subst c.
    pose proof (split_not_nil sep s) as Hn.
    destruct (split sep s) as [|seg segs] eqn:Es; [now elim Hn|].
    change (join (String sep "") ("" :: seg :: segs))
      with ("" ++ String sep "" ++ join (String sep "") (seg :: segs)).
    now rewrite IH.
  - pose proof (split_not_nil sep s) as Hn.
    destruct (split sep s) as [|seg segs] eqn:Es; [now elim Hn|].
    destruct segs as [|seg' segs].
    + simpl in *. now rewrite IH.
    + change (join (String sep "") (String c seg :: seg' :: segs))
        with (String c (seg ++ String sep "" ++ join (String sep "") (seg' :: segs))).
      change (join (String sep "") (seg :: seg' :: segs))
        with (seg ++ String sep "" ++ join (String sep "") (seg' :: segs)) in IH.
      now rewrite IH.
Qed.

(** No segment contains the separator. *)
Lemma split_segments (sep : ascii) (s : string) :
  Forall (fun seg => contains sep seg = false) (split sep s).
Proof.
  induction s as [|c s IH]; simpl.
  - constructor; [reflexivity | constructor].
  - destruct (c =? sep)%char eqn:E.
    + constructor; [reflexivity | exact IH].
    + destruct (split sep s) as [|seg segs]; simpl.
      * constructor; [simpl; now rewrite E | constructor].
      * inversion IH as [|? ? Hseg Hsegs]; subst.
        constructor; [simpl; now rewrite E, Hseg | exact Hsegs].
Qed.

(** The segments are determined by the string: separator-free pieces
    joined by the separator split back into themselves. *)
Lemma split_join (sep : ascii) (segs : list string) :
  segs <> [] ->
  Forall (fun seg => contains sep seg = false) segs ->
  split sep (join (String sep "") segs) = segs.
Proof.
  induction segs as [|seg segs IH]; [now intros H|].
  intros _ Hall. inversion Hall as [|? ? Hseg Hsegs]; subst.
  destruct segs as [|seg' segs].
  - simpl. clear IH Hall Hsegs.
    induction seg as [|c seg IHs]; [reflexivity|].
    simpl in *. destruct (c =? sep)%char; [discriminate|].
    now rewrite (IHs Hseg).
  - change (join (String sep "") (seg :: seg' :: segs))
      with (seg ++ String sep (join (String sep "") (seg' :: segs))).
    specialize (IH ltac:(discriminate) Hsegs).
    clear Hall Hsegs.
    set (rest := join (String sep "") (seg' :: segs)) in *.
    induction seg as [|c seg IHs].
    + simpl. rewrite Ascii.eqb_refl. now rewrite IH.
    + simpl in *. destruct (c =? sep)%char; [discriminate|].
      now rewrite (IHs Hseg).
Qed.

(** [split1] cuts a string that contains the separator at its first
    occurrence. *)
Lemma split1_cut (sep : ascii) (s : string) :
  contains sep s = true ->
  exists a b, s = a ++ String sep b /\ contains sep a = false
              /\ split1 sep s = [a; b].
Proof.
  induction s as [|c s IH]; simpl; [discriminate|].
  destruct (c =? sep)%char eqn:E.
  - intros _. apply Ascii.eqb_eq in E. subst c. now exists "", s.
  - simpl. intros H. destruct (IH H) as (a & b & Es & Ha & Hs).
    exists (String c a), b. simpl. now rewrite E, Ha, Hs, <- Es.
Qed.

Lemma split1_append (sep : ascii) (a b : string) :
  contains sep a = false -> split1 sep (a ++ String sep b) = [a; b].
Proof.
  induction a as [|c a IH]; simpl.
  - now rewrite Ascii.eqb_refl.
  - destruct (c =? sep)%char; [discriminate|]. simpl.
    intros H. now rewrite (IH H).
Qed.

Lemma lstrip_append (a b : string) (c : ascii) :
  is_space c = false -> lstrip (a ++ String c b) = lstrip a ++ String c b.
Proof.
  intros Hc. induction a as [|x a IH]; simpl.
  - now rewrite Hc.
  - destruct (is_space x); [exact IH | reflexivity].
Qed.

Lemma rstrip_append (a b : string) (c : ascii) :
  is_space c = false -> rstrip (a ++ String c b) = a ++ String c (rstrip b).
Proof.
  intros Hc. induction a as [|x a IH]; simpl.
  - rewrite Hc. now destruct (rstrip b).
  - rewrite IH. now destruct a.
Qed.

Lemma strip_append (a b : string) (c : ascii) :
  is_space c = false ->
  strip (a ++ String c b) = lstrip a ++ String c (rstrip b).
Proof.
  intros Hc. unfold strip. now rewrite lstrip_append, rstrip_append.
Qed.

(* ------------------------------------------------------------------ *)
(** ** Hometown strings *)

Lemma last_cons {A : Type} (p d : A) (ps : list A) :
  last ps p = last (p :: ps) d.
Proof.
  revert p d. induction ps as [|q ps IH]; intros p d; [reflexivity|].
  change (last (p :: q :: ps) d) with (last (q :: ps) d).
  now rewrite <- (IH q d), <- (IH q p).
Qed.

(** C8. A hometown string is its comma-delimited segments joined by
    commas. [getState] returns the last segment, stripped, exactly when
    that is alphabetic (letters only, at least one) and "NONE" otherwise;
    [getCity] returns the segments before the last, each stripped, joined
    by single spaces, which is the empty string when there are none. *)
Theorem hometown_split :
  (forall hometown,
     exists cities state,
       split "," hometown = (cities ++ [state])%list
       /\ hometown = join "," (cities ++ [state])
       /\ Forall (fun seg => contains "," seg = false) (cities ++ [state])
       /\ getState hometown
          = Ok (if isalpha (strip state) then strip state else "NONE")
       /\ (getState hometown = Ok (strip state)
           <-> isalpha (strip state) = true)
       /\ getCity hometown = Ok (join " " (map strip cities)))
  /\ getCity "Austin, TX" = Ok "Austin"
  /\ getState "Austin, TX" = Ok "TX"
  /\ getState "Unknown City, 123" = Ok "NONE"
  /\ getCity "TX" = Ok "".
Proof.
  split; [|repeat split].
  intros hometown.
  pose proof (split_not_nil "," hometown) as Hn.
  pose proof (join_split "," hometown) as Hj.
  pose proof (split_segments "," hometown) as Hs.
  exists (removelast (split "," hometown)), (last (split "," hometown) "").
  rewrite <- (app_removelast_last "" Hn).
  assert (Hstate : getState hometown
                   = Ok (if isalpha (strip (last (split "," hometown) ""))
                         then strip (last (split "," hometown) "")
                         else "NONE")).
  { unfold getState.
    destruct (split "," hometown) as [|p ps]; [now elim Hn|].
    simpl last_item. simpl bind. rewrite (last_cons p "" ps).
    now destruct (isalpha _). }
  repeat split; auto.
  - rewrite Hstate.
    destruct (isalpha (strip (last (split "," hometown) ""))) eqn:E;
      [reflexivity|].
    intros [= H]. rewrite <- H in E. discriminate E.
  - intros H. now rewrite Hstate, H.
  - unfold getCity.
    destruct (split "," hometown) as [|p ps]; [now elim Hn|].
    reflexivity.
Qed.

(* ------------------------------------------------------------------ *)
(** ** Name normalisation *)

Lemma all_space_no_comma (s : string) :
  all_chars is_space s = true -> contains "," s = false.
Proof.
  induction s as [|c s IH]; simpl; [reflexivity|].
  intros H. apply andb_prop in H as [Hc Hs].
  now rewrite (space_not_comma c Hc), IH.
Qed.

(** C10. [cleanName] returns the empty string for the empty string and for
    [None]; on a non-empty string of whitespace only (which therefore has
    no comma) it raises [IndexError]: after stripping, the list of tokens
    is empty and its first element is read. *)
Theorem cleanName_whitespace_only :
  cleanName (JStr "") = Ok ""
  /\ cleanName JNull = Ok ""
  /\ (forall name,
        name <> "" -> all_chars is_space name = true ->
        contains "," name = false
        /\ split_ws (strip name) = []
        /\ cleanName (JStr name) = Raise IndexError).
Proof.
  split; [reflexivity|]. split; [reflexivity|].
  intros name Hne Hsp.
  split; [now apply all_space_no_comma|].
  unfold cleanName.
  rewrite (all_space_strip name Hsp).
  split; [reflexivity|].
  simpl truthy.
  destruct (name =? "") eqn:E.
  - apply String.eqb_eq in E. now elim Hne.
  - reflexivity.
Qed.

Lemma cleanName_whitespace_only_witness :
  cleanName (JStr "  ") = Raise IndexError.
Proof.
  apply (proj2 (proj2 cleanName_whitespace_only)).
  - discriminate.
  - reflexivity.
Defined.

Example cleanName_samples :
  cleanName (JStr "Smith, John") = Ok "John Smith"
  /\ cleanName (JStr "John Smith") = Ok "John Smith"
  /\ cleanName (JStr "Madonna") = Ok "Madonna".
Proof. repeat split; reflexivity. Qed.

(* ------------------------------------------------------------------ *)
(** ** What [float] accepts *)

Lemma alpha_not_digit (c : ascii) : is_alpha c = true -> is_digit c = false.
Proof. by_char c. Qed.

Lemma alpha_not_sign (c : ascii) :
  is_alpha c = true -> (c =? "+")%char = false /\ (c =? "-")%char = false.
Proof. by_char c. Qed.

Lemma alpha_not_point (c : ascii) :
  is_alpha c = true -> (c =? ".")%char = false.
Proof. by_char c. Qed.

(** *** Whitespace around a number *)

Lemma float_space_is_space (c : ascii) :
  is_float_space c = true -> is_space c = true.
Proof. by_char c. Qed.

Lemma float_char_not_space (c : ascii) :
  float_char c = true -> is_space c = false.
Proof. by_char c. Qed.

Lemma float_char_not_colon (c : ascii) :
  float_char c = true -> (c =? ":")%char = false.
Proof. by_char c. Qed.

Lemma digit_float_char (c : ascii) : is_digit c = true -> float_char c = true.
Proof. by_char c. Qed.

Lemma alpha_float_char (c : ascii) : is_alpha c = true -> float_char c = true.
Proof. by_char c. Qed.

Lemma underscore_float_char (c : ascii) :
  (c =? "_")%char = true -> float_char c = true.
Proof. by_char c. Qed.

Lemma plus_float_char (c : ascii) :
  (c =? "+")%char = true -> float_char c = true.
Proof. by_char c. Qed.

Lemma minus_float_char (c : ascii) :
  (c =? "-")%char = true -> float_char c = true.
Proof. by_char c. Qed.

Lemma point_float_char (c : ascii) :
  (c =? ".")%char = true -> float_char c = true.
Proof. by_char c. Qed.

Lemma lower_e_float_char (c : ascii) :
  (to_lower c =? "e")%char = true -> float_char c = true.
Proof. by_char c. Qed.

Lemma lower_alpha (c : ascii) : is_alpha (to_lower c) = is_alpha c.
Proof. by_char c. Qed.

Lemma lstrip_drop (s : string) : lstrip s = drop_left is_space s.
Proof.
  induction s as [|c s IH]; simpl; [reflexivity|].
  now destruct (is_space c).
Qed.

Lemma rstrip_drop (s : string) : rstrip s = drop_right is_space s.
Proof. induction s as [|c s IH]; simpl; [reflexivity | now rewrite IH]. Qed.

Section Dropping.

Variable p : ascii -> bool.

Lemma drop_left_spaces (w s : string) :
  all_chars p w = true -> drop_left p (w ++ s) = drop_left p s.
Proof.
  induction w as [|c w IH]; simpl; [reflexivity|].
  intros H. apply andb_prop in H as [Hc Hw]. rewrite Hc. now apply IH.
Qed.

Lemma drop_left_fixed (c : ascii) (s : string) :
  p c = false -> drop_left p (String c s) = String c s.
Proof. intros H. simpl. now rewrite H. Qed.

Lemma drop_right_all (w : string) :
  all_chars p w = true -> drop_right p w = "".
Proof.
  induction w as [|c w IH]; simpl; [reflexivity|].
  intros H. apply andb_prop in H as [Hc Hw]. now rewrite (IH Hw), Hc.
Qed.

Lemma drop_right_fixed (s : string) :
  all_chars (fun c => negb (p c)) s = true -> drop_right p s = s.
Proof.
  induction s as [|c s IH]; simpl; [reflexivity|].
  intros H. apply andb_prop in H as [Hc Hs]. rewrite (IH Hs).
  apply negb_true_iff in Hc. rewrite Hc. now destruct s.
Qed.

(** Nothing is dropped in front of a part that stays. *)
Lemma drop_right_prefix (a : string) (c : ascii) (s : string) :
  drop_right p (a ++ String c s) = a ++ drop_right p (String c s)
  \/ drop_right p (String c s) = "".
Proof.
  destruct (drop_right p (String c s)) as [|d r] eqn:E; [now right|]. left.
  induction a as [|x a IH]; [exact E|].
  change (match drop_right p (a ++ String c s) with
          | EmptyString => if p x then EmptyString else String x EmptyString
          | r => String x r
          end = String x a ++ String d r).
  rewrite IH. now destruct a.
Qed.

Lemma drop_right_spaces (s w : string) :
  all_chars p w = true -> drop_right p (s ++ w) = drop_right p s.
Proof.
  intros Hw. induction s as [|c s IH]; simpl.
  - now apply drop_right_all.
  - now rewrite IH.
Qed.

Lemma drop_left_cut (s : string) :
  exists w, s = w ++ drop_left p s /\ all_chars p w = true.
Proof.
  induction s as [|c s (w & Hs & Hw)]; [now exists ""|]. simpl.
  destruct (p c) eqn:Hc.
  - exists (String c w). simpl. now rewrite Hc, Hw, <- Hs.
  - now exists "".
Qed.

Lemma drop_right_cut (s : string) :
  exists w, s = drop_right p s ++ w /\ all_chars p w = true.
Proof.
  induction s as [|c s (w & Hs & Hw)]; [now exists ""|]. simpl.
  destruct (drop_right p s) as [|d r] eqn:E.
  - simpl in Hs. subst w. destruct (p c) eqn:Hc.
    + exists (String c s). simpl. now rewrite Hc, Hw.
    + now exists s.
  - exists w. split; [|exact Hw].
    change (String c s = String c (String d r ++ w)). now rewrite <- Hs.
Qed.

End Dropping.

Lemma float_spaces_spaces (w : string) :
  all_chars is_float_space w = true -> all_chars is_space w = true.
Proof.
  induction w as [|c w IH]; simpl; [reflexivity|].
  intros H. apply andb_prop in H as [Hc Hw].
  now rewrite (float_space_is_space c Hc), IH.
Qed.

Lemma float_chars_no_space (s : string) :
  all_chars float_char s = true ->
  all_chars (fun c => negb (is_space c)) s = true.
Proof.
  induction s as [|c s IH]; simpl; [reflexivity|].
  intros H. apply andb_prop in H as [Hc Hs].
  now rewrite (float_char_not_space c Hc), IH.
Qed.

Lemma float_chars_no_float_space (s : string) :
  all_chars float_char s = true ->
  all_chars (fun c => negb (is_float_space c)) s = true.
Proof.
  induction s as [|c s IH]; simpl; [reflexivity|].
  intros H. apply andb_prop in H as [Hc Hs]. rewrite (IH Hs), andb_true_r.
  apply negb_true_iff. destruct (is_float_space c) eqn:E; [|reflexivity].
  apply float_space_is_space in E.
  now rewrite (float_char_not_space c Hc) in E.
Qed.

(** A spelling with neither kind of whitespace in it, between whitespace
    that [float] skips, is what both [float] and [strip] find. *)
Lemma spelling_between_spaces (w1 body w2 : string) :
  body <> "" ->
  all_chars float_char body = true ->
  all_chars is_float_space w1 = true ->
  all_chars is_float_space w2 = true ->
  skip_spaces (w1 ++ body ++ w2) = body
  /\ lstrip (w1 ++ body ++ w2) = body ++ w2
  /\ rstrip (w1 ++ body ++ w2) = w1 ++ body
  /\ strip (w1 ++ body ++ w2) = body.
Proof.
  intros Hne Hb H1 H2.
  destruct body as [|c body]; [now elim Hne|].
  pose proof (float_chars_no_space _ Hb) as Hns.
  pose proof (float_chars_no_float_space _ Hb) as Hnf.
  assert (Hc : is_space c = false /\ is_float_space c = false).
  { simpl in Hns, Hnf.
    apply andb_prop in Hns as [Hns _]. apply andb_prop in Hnf as [Hnf _].
    split; now apply negb_true_iff. }
  destruct Hc as [Hcs Hcf].
  assert (Hr : forall p, all_chars (fun c => negb (p c)) (String c body) = true ->
                         forall a w, all_chars p w = true ->
                           drop_right p (a ++ String c body ++ w)
                           = a ++ String c body).
  { intros p Hp a w Hw.
    rewrite <- append_assoc, drop_right_spaces by exact Hw.
    pose proof (drop_right_fixed p _ Hp) as Hfix.
    destruct (drop_right_prefix p a c body) as [E|E].
    - now rewrite E, Hfix.
    - rewrite Hfix in E. discriminate E. }
  repeat split.
  - unfold skip_spaces. rewrite drop_left_spaces by exact H1.
    simpl append. rewrite drop_left_fixed by exact Hcf.
    exact (Hr is_float_space Hnf "" w2 H2).
  - rewrite lstrip_drop, drop_left_spaces by now apply float_spaces_spaces.
    simpl append. now rewrite drop_left_fixed.
  - rewrite rstrip_drop.
    exact (Hr is_space Hns w1 w2 (float_spaces_spaces _ H2)).
  - unfold strip.
    rewrite lstrip_drop, drop_left_spaces by now apply float_spaces_spaces.
    simpl append. rewrite drop_left_fixed by exact Hcs.
    rewrite rstrip_drop.
    exact (Hr is_space Hns "" w2 (float_spaces_spaces _ H2)).
Qed.

Lemma skip_spaces_cut (s : string) :
  exists w1 w2,
    s = w1 ++ skip_spaces s ++ w2
    /\ all_chars is_float_space w1 = true
    /\ all_chars is_float_space w2 = true.
Proof.
  destruct (drop_left_cut is_float_space s) as (w1 & Hs & H1).
  destruct (drop_right_cut is_float_space (drop_left is_float_space s))
    as (w2 & Hd & H2).
  exists w1, w2. unfold skip_spaces. now rewrite <- Hd, <- Hs.
Qed.

(** *** The characters of a number *)

Lemma digits_from_chars (s : string) (acc : Z) (n : nat) :
  all_chars float_char (snd (digits_from s acc n)) = true ->
  all_chars float_char s = true.
Proof.
  revert acc n. induction s as [|c s IH]; intros acc n; simpl; [reflexivity|].
  destruct (is_digit c) eqn:Ed.
  - intros H. now rewrite (digit_float_char c Ed), (IH _ _ H).
  - destruct ((c =? "_")%char && (0 <? n)%nat && starts_with_digit s) eqn:Eu;
      [|now intros H].
    apply andb_prop in Eu as [Eu _]. apply andb_prop in Eu as [Eu _].
    intros H. now rewrite (underscore_float_char c Eu), (IH _ _ H).
Qed.

Lemma sign_of_chars (s : string) :
  all_chars float_char (snd (sign_of s)) = true ->
  all_chars float_char s = true.
Proof.
  destruct s as [|c s]; simpl; [reflexivity|].
  destruct (c =? "+")%char eqn:Ep;
    [simpl; intros H; now rewrite (plus_float_char c Ep)|].
  destruct (c =? "-")%char eqn:Em;
    [simpl; intros H; now rewrite (minus_float_char c Em)|].
  now intros H.
Qed.

Lemma exponent_of_chars (s : string) (e : Z) :
  exponent_of s = Some e -> all_chars float_char s = true.
Proof.
  destruct s as [|c s]; simpl; [reflexivity|].
  destruct (to_lower c =? "e")%char eqn:Ee; [|discriminate].
  rewrite (lower_e_float_char c Ee). simpl.
  pose proof (sign_of_chars s) as Hs.
  destruct (sign_of s) as [neg s'']. simpl in Hs.
  pose proof (digits_from_chars s'' 0 0) as Hd.
  destruct (digits_from s'' 0 0) as [[x k] r]. simpl in Hd.
  destruct k; [discriminate|]. destruct r; [|discriminate].
  intros _. apply Hs, Hd. reflexivity.
Qed.

Lemma decimal_of_chars (s : string) (d : Z * Z) :
  decimal_of s = Some d -> all_chars float_char s = true.
Proof.
  unfold decimal_of.
  pose proof (digits_from_chars s 0 0) as Hd.
  destruct (digits_from s 0 0) as [[ip n1] r1]. simpl in Hd.
  assert (Hw : forall d',
             (if (0 <? n1)%nat
              then match exponent_of r1 with
                   | Some e => Some (ip, e)
                   | None => None
                   end
              else None) = Some d' -> all_chars float_char s = true).
  { intros d'. destruct (0 <? n1)%nat; [|discriminate].
    destruct (exponent_of r1) as [e|] eqn:Ee; [|discriminate].
    intros _. apply Hd. now apply exponent_of_chars in Ee. }
  destruct r1 as [|c r2]; [apply Hw|].
  destruct (c =? ".")%char eqn:Ep; [|apply Hw].
  pose proof (digits_from_chars r2 0 0) as Hd2.
  destruct (digits_from r2 0 0) as [[fp n2] r3]. simpl in Hd2.
  destruct (0 <? n1 + n2)%nat; [|discriminate].
  destruct (exponent_of r3) as [e|] eqn:Ee; [|discriminate].
  intros _. apply Hd. simpl. rewrite (point_float_char c Ep). simpl.
  apply Hd2. now apply exponent_of_chars in Ee.
Qed.

Lemma lower_alpha_chars (s : string) :
  all_chars is_alpha (lower s) = all_chars is_alpha s.
Proof.
  induction s as [|c s IH]; simpl; [reflexivity|].
  now rewrite lower_alpha, IH.
Qed.

Lemma alpha_float_chars (s : string) :
  all_chars is_alpha s = true -> all_chars float_char s = true.
Proof.
  induction s as [|c s IH]; simpl; [reflexivity|].
  intros H. apply andb_prop in H as [Hc Hs].
  now rewrite (alpha_float_char c Hc), IH.
Qed.

(** A spelling [parse_float] reads is not empty and has only characters
    of numbers. *)
Lemma parse_float_chars (body : string) (f : pyfloat) :
  parse_float body = Some f ->
  body <> "" /\ all_chars float_char body = true.
Proof.
  intros H. split; [intros ->; discriminate H|]. revert H.
  unfold parse_float. intros H. apply sign_of_chars. revert H.
  destruct (sign_of body) as [neg rest]. simpl snd.
  destruct ((lower rest =? "inf") || (lower rest =? "infinity")) eqn:Ei.
  - intros _. apply alpha_float_chars. rewrite <- lower_alpha_chars.
    apply orb_prop in Ei as [E|E]; apply String.eqb_eq in E; now rewrite E.
  - destruct (lower rest =? "nan") eqn:En.
    + intros _. apply alpha_float_chars. rewrite <- lower_alpha_chars.
      apply String.eqb_eq in En. now rewrite En.
    + destruct (decimal_of rest) as [d|] eqn:Ed; [|discriminate].
      intros _. now apply decimal_of_chars in Ed.
Qed.

Lemma float_chars_no_colon (s : string) :
  all_chars float_char s = true -> contains ":" s = false.
Proof.
  induction s as [|c s IH]; simpl; [reflexivity|].
  intros H. apply andb_prop in H as [Hc Hs].
  now rewrite (float_char_not_colon c Hc), IH.
Qed.

(** What [float] accepts is a spelling between whitespace it skips. *)
Lemma py_float_cut (s : string) (f : pyfloat) :
  py_float s = Some f ->
  exists w1 body w2,
    s = w1 ++ body ++ w2
    /\ parse_float body = Some f
    /\ body <> ""
    /\ all_chars float_char body = true
    /\ all_chars is_float_space w1 = true
    /\ all_chars is_float_space w2 = true.
Proof.
  unfold py_float. intros H.
  destruct (skip_spaces_cut s) as (w1 & w2 & Hs & H1 & H2).
  destruct (parse_float_chars _ _ H) as [Hne Hb].
  exists w1, (skip_spaces s), w2. auto 7.
Qed.

Lemma py_float_spelling (body : string) :
  body <> "" -> all_chars float_char body = true ->
  py_float body = parse_float body.
Proof.
  intros Hne Hb. unfold py_float.
  destruct (spelling_between_spaces "" body "" Hne Hb eq_refl eq_refl)
    as [H _].
  simpl append in H. rewrite append_nil_r in H. now rewrite H.
Qed.

(** A string [float] accepts has no colon in it. *)
Lemma py_float_colon (s : string) (f : pyfloat) :
  py_float s = Some f -> contains ":" s = false.
Proof.
  intros H.
  destruct (py_float_cut s f H) as (w1 & body & w2 & -> & _ & _ & Hb & H1 & H2).
  rewrite !contains_append, (float_chars_no_colon _ Hb).
  assert (Hw : forall w, all_chars is_float_space w = true ->
                         contains ":" w = false).
  { induction w as [|c w IH]; simpl; [reflexivity|].
    intros Hc. apply andb_prop in Hc as [Hc Hw].
    now rewrite (space_not_colon c (float_space_is_space c Hc)), IH. }
  now rewrite (Hw w1 H1), (Hw w2 H2).
Qed.

(** What [float] accepts it accepts, with the same value, after [strip],
    [lstrip] or [rstrip]: these remove only whitespace around the
    number. *)
Lemma py_float_stripped (s : string) (f : pyfloat) :
  py_float s = Some f ->
  py_float (strip s) = Some f
  /\ py_float (lstrip s) = Some f
  /\ py_float (rstrip s) = Some f.
Proof.
  intros H.
  destruct (py_float_cut s f H)
    as (w1 & body & w2 & -> & Hp & Hne & Hb & H1 & H2).
  destruct (spelling_between_spaces w1 body w2 Hne Hb H1 H2)
    as (_ & Hl & Hr & Hs).
  rewrite Hl, Hr, Hs. repeat split.
  - now rewrite py_float_spelling.
  - unfold py_float.
    destruct (spelling_between_spaces "" body w2 Hne Hb eq_refl H2) as [E _].
    simpl append in E. now rewrite E.
  - unfold py_float.
    destruct (spelling_between_spaces w1 body "" Hne Hb H1 eq_refl) as [E _].
    rewrite append_nil_r in E. now rewrite E.
Qed.

(** The only alphabetic strings [float] accepts are the names of the
    special values; none is read as a finite number. *)
Lemma py_float_alpha (s : string) (f : pyfloat) :
  isalpha s = true -> py_float s = Some f -> is_finite f = false.
Proof.
  unfold isalpha. intros Ha. apply andb_prop in Ha as [Hne Ha].
  rewrite py_float_spelling;
    [| intros ->; discriminate Hne | now apply alpha_float_chars].
  unfold parse_float.
  destruct s as [|c t]; [discriminate|].
  simpl in Ha. apply andb_prop in Ha as [Hc _]. simpl sign_of.
  destruct (alpha_not_sign c Hc) as [Hp Hm]. rewrite Hp, Hm.
  destruct (_ || _); [now intros [= <-]|].
  destruct (_ =? "nan"); [now intros [= <-]|].
  unfold decimal_of. simpl.
  rewrite (alpha_not_digit c Hc).
  replace ((c =? "_")%char && (0 <? 0)%nat && starts_with_digit t) with false
    by now destruct (c =? "_")%char.
  rewrite (alpha_not_point c Hc). simpl. discriminate.
Qed.

(* ------------------------------------------------------------------ *)
(** ** Display times *)

Lemma convertTime_colon (s minutes seconds : string) :
  strip s = minutes ++ String ":" seconds ->
  contains ":" minutes = false ->
  convertTime (JStr s)
  = bind (float minutes) (fun m =>
    bind (float seconds) (fun x =>
    Ok (Some (fadd (fmul m (of_Z 60)) x)))).
Proof.
  intros Hs Hm. unfold convertTime. simpl py_str. rewrite Hs.
  rewrite contains_append, Hm.
  change (contains ":" (String ":" seconds)) with true.
  cbv beta iota delta [orb].
  now rewrite (split1_append ":" minutes seconds Hm).
Qed.

Lemma convertTime_no_colon (s : string) :
  contains ":" (strip s) = false ->
  convertTime (JStr s)
  = if isalpha (strip s) then Ok None
    else bind (float (strip s)) (fun f => Ok (Some f)).
Proof. intros H. unfold convertTime. simpl py_str. now rewrite H. Qed.

Lemma convertTime_raises (s : string) (e : exn) :
  convertTime (JStr s) = Raise e ->
  e = ValueError
  /\ (if contains ":" (strip s)
      then exists minutes seconds,
             strip s = minutes ++ String ":" seconds
             /\ contains ":" minutes = false
             /\ (py_float minutes = None \/ py_float seconds = None)
      else isalpha (strip s) = false /\ py_float (strip s) = None).
Proof.
  destruct (contains ":" (strip s)) eqn:Hc.
  - destruct (split1_cut ":" (strip s) Hc) as (a & b & Hs & Ha & _).
    rewrite (convertTime_colon s a b Hs Ha). unfold float.
    destruct (py_float a) as [fa|] eqn:Ea; simpl.
    + destruct (py_float b) as [fb|] eqn:Eb; simpl; [discriminate|].
      intros [= <-]. split; [reflexivity|]. exists a, b. auto.
    + intros [= <-]. split; [reflexivity|]. exists a, b. auto.
  - rewrite (convertTime_no_colon s Hc).
    destruct (isalpha (strip s)); [discriminate|].
    unfold float.
    destruct (py_float (strip s)); simpl; [discriminate|].
    intros [= <-]. auto.
Qed.

(** C4. [convertTime] returns minutes*60+seconds, in floating point, for
    text of the form minutes:seconds with both parts numbers; returns the
    number for text that is a number and not letters only, a finite number
    always being such; returns [None] for text that is letters only; and
    raises, a [ValueError], exactly when the text is none of the three. The
    text is read with surrounding whitespace removed, as the code does
    before anything else, and every string [float] accepts is still
    accepted, with the same value, once it is stripped. In particular the
    result is 62.50 for "1:02.50" and 23.14 for "23.14", and [None] for
    "DNS" and "DQ". *)
Theorem convertTime_cases :
  (forall minutes seconds m x,
      py_float minutes = Some m -> py_float seconds = Some x ->
      convertTime (JStr (minutes ++ ":" ++ seconds))
      = Ok (Some (fadd (fmul m (of_Z 60)) x)))
  /\ (forall s f,
        py_float (strip s) = Some f -> isalpha (strip s) = false ->
        convertTime (JStr s) = Ok (Some f))
  /\ (forall s f,
        py_float (strip s) = Some f -> is_finite f = true ->
        convertTime (JStr s) = Ok (Some f))
  /\ (forall s, isalpha (strip s) = true -> convertTime (JStr s) = Ok None)
  /\ (forall s,
        (exists e, convertTime (JStr s) = Raise e)
        <-> ~ Spec.colon_form s /\ ~ Spec.numeric s /\ ~ Spec.alphabetic s)
  /\ (forall s e, convertTime (JStr s) = Raise e -> e = ValueError)
  /\ (forall s f, py_float s = Some f -> py_float (strip s) = Some f)
  /\ convertTime (JStr "1:02.50") = Ok (py_float "62.50")
  /\ py_float "62.50" = Some (S754_finite false 8796093022208000 (-47))
  /\ convertTime (JStr "23.14") = Ok (py_float "23.14")
  /\ py_float "23.14" = Some (S754_finite false 6513330961084580 (-48))
  /\ convertTime (JStr "DNS") = Ok None
  /\ convertTime (JStr "DQ") = Ok None.
Proof.
  assert (Hnum : forall s f,
             py_float (strip s) = Some f -> isalpha (strip s) = false ->
             convertTime (JStr s) = Ok (Some f)).
  { intros s f Hf Ha.
    rewrite convertTime_no_colon.
    - rewrite Ha. unfold float. now rewrite Hf.
    - exact (py_float_colon _ _ Hf). }
  split; [|split; [exact Hnum|split; [|split; [|split; [|split; [|split]]]]]].
  - intros minutes seconds m x Hm Hx.
    assert (Hc : contains ":" (lstrip minutes) = false).
    { rewrite contains_lstrip. exact (py_float_colon _ _ Hm). }
    rewrite (convertTime_colon _ (lstrip minutes) (rstrip seconds)); [|
      change (minutes ++ ":" ++ seconds) with (minutes ++ String ":" seconds);
      now apply strip_append | exact Hc].
    unfold float.
    rewrite (proj1 (proj2 (py_float_stripped _ _ Hm))).
    now rewrite (proj2 (proj2 (py_float_stripped _ _ Hx))).
  - intros s f Hf Hfin. apply Hnum; [exact Hf|].
    destruct (isalpha (strip s)) eqn:Ea; [|reflexivity].
    rewrite (py_float_alpha (strip s) f Ea Hf) in Hfin. discriminate.
  - intros s Ha.
    rewrite convertTime_no_colon; [now rewrite Ha|].
    now apply isalpha_no_colon.
  - intros s. split.
    + intros [e He]. apply convertTime_raises in He as [_ He].
      destruct (contains ":" (strip s)) eqn:Hc.
      * destruct He as (a & b & Hs & Ha & Hf). repeat split.
        -- intros (m & x & Hs' & Hm & Hfm & Hfx).
           change (m ++ ":" ++ x) with (m ++ String ":" x) in Hs'.
           pose proof (split1_append ":" m x Hm) as S1.
           pose proof (split1_append ":" a b Ha) as S2.
           rewrite <- Hs' in S1. rewrite <- Hs in S2. rewrite S1 in S2.
           injection S2 as -> ->. destruct Hf; contradiction.
        -- intros Hn. unfold Spec.numeric in Hn.
           destruct (py_float (strip s)) as [f|] eqn:Ef; [|now elim Hn].
           apply py_float_colon in Ef. congruence.
        -- intros Hal. apply isalpha_no_colon in Hal. congruence.
      * destruct He as [Ha Hf]. repeat split.
        -- intros (m & x & Hs' & _).
           rewrite Hs', contains_append in Hc.
           simpl in Hc. now rewrite orb_true_r in Hc.
        -- intros Hn. now elim Hn.
        -- intros Hal. unfold Spec.alphabetic in Hal. congruence.
    + intros (Hcf & Hn & Hal). exists ValueError.
      destruct (contains ":" (strip s)) eqn:Hc.
      * destruct (split1_cut ":" (strip s) Hc) as (a & b & Hs & Ha & _).
        rewrite (convertTime_colon s a b Hs Ha). unfold float.
        destruct (py_float a) as [fa|] eqn:Ea; [|reflexivity].
        destruct (py_float b) as [fb|] eqn:Eb; [|reflexivity].
        elim Hcf. exists a, b. repeat split; auto; congruence.
      * rewrite (convertTime_no_colon s Hc).
        destruct (isalpha (strip s)) eqn:Ea; [now elim Hal|].
        unfold float.
        destruct (py_float (strip s)) eqn:Ef; [|reflexivity].
        elim Hn. unfold Spec.numeric. congruence.
  - intros s e He. now apply convertTime_raises in He.
  - intros s f Hf. exact (proj1 (py_float_stripped _ _ Hf)).
  - repeat split; vm_compute; reflexivity.
Qed.

Lemma convertTime_cases_witness :
  convertTime (JStr ("2" ++ ":" ++ "05.25"))
  = Ok (Some (fadd (fmul (of_Z 2) (of_Z 60)) (of_decimal false 525 (-2))))
  /\ convertTime (JStr "-inf") = Ok (Some (S754_infinity true))
  /\ convertTime (JStr " 59.9 ") = Ok (Some (of_decimal false 599 (-1)))
  /\ convertTime (JStr "NS") = Ok None
  /\ (exists e, convertTime (JStr "1:0x") = Raise e).
Proof.
  split; [|split; [|split; [|split]]].
  - apply (proj1 convertTime_cases); reflexivity.
  - apply (proj1 (proj2 convertTime_cases)); reflexivity.
  - apply (proj1 (proj2 (proj2 convertTime_cases))); reflexivity.
  - apply (proj1 (proj2 (proj2 (proj2 convertTime_cases)))); reflexivity.
  - apply (proj2 (proj1 (proj2 (proj2 (proj2 (proj2 convertTime_cases)))) "1:0x")).
    repeat split.
    + intros (m & x & Hs & Hm & Hfm & Hfx).
      change (strip "1:0x") with ("1" ++ String ":" "0x") in Hs.
      change (m ++ ":" ++ x) with (m ++ String ":" x) in Hs.
      pose proof (split1_append ":" m x Hm) as S1.
      rewrite <- Hs in S1. injection S1 as <- <-. now apply Hfx.
    + intros H. now apply H.
    + intros H. discriminate H.
Defined.

(** The unit separator (code 31) is whitespace to [strip] and not to
    [float]: at an end of the text it is removed before anything is
    parsed, next to the colon it makes the minutes not a number. *)
Example convertTime_separator :
  py_float (String "1" (String "031" "")) = None
  /\ py_float (String "031" "1") = None
  /\ convertTime (JStr (String "031" "1")) = Ok (py_float "1")
  /\ convertTime (JStr (String "031" "1:30")) = convertTime (JStr "1:30")
  /\ convertTime (JStr (String "1" (String "031" ":30"))) = Raise ValueError.
Proof. repeat split; vm_compute; reflexivity. Qed.

(* ------------------------------------------------------------------ *)
(** ** Ordering of cells and rows *)

Lemma string_leb_refl (s : string) : (s <=? s) = true.
Proof. destruct (String.leb_total s s); assumption. Qed.

Lemma string_leb_trans (s1 s2 s3 : string) :
  (s1 <=? s2) = true -> (s2 <=? s3) = true -> (s1 <=? s3) = true.
Proof.
  unfold String.leb.
  revert s2 s3.
  induction s1 as [|c1 s1 IH]; intros [|c2 s2] [|c3 s3]; simpl;
    try reflexivity; try discriminate.
  unfold Ascii.compare.
  destruct (N.compare_spec (N_of_ascii c1) (N_of_ascii c2)) as [E12|L12|G12];
    destruct (N.compare_spec (N_of_ascii c2) (N_of_ascii c3)) as [E23|L23|G23];
    destruct (N.compare_spec (N_of_ascii c1) (N_of_ascii c3)) as [E13|L13|G13];
    try reflexivity; try discriminate; try lia.
  apply IH.
Qed.

Lemma string_leb_ltb (s t : string) :
  (s <=? t) = true -> (t <=? s) = false -> (s <? t) = true.
Proof.
  unfold String.leb, String.ltb. rewrite (String.compare_antisym t s).
  destruct (String.compare s t); simpl; congruence.
Qed.

Lemma cell_leb_refl (a : value) : Frame.cell_leb a a = true.
Proof.
  destruct a as [|b|n|s]; simpl; try reflexivity.
  - now destruct b.
  - apply Z.leb_refl.
  - apply string_leb_refl.
Qed.

Lemma cell_leb_total (a b : value) :
  Frame.cell_leb a b = true \/ Frame.cell_leb b a = true.
Proof.
  destruct a as [|x|n|s], b as [|y|m|t]; simpl; auto.
  - destruct x, y; simpl; auto.
  - destruct (Z.leb_spec (if x then 1 else 0) m); auto.
    right. apply Z.leb_le. lia.
  - destruct (Z.leb_spec n (if y then 1 else 0)); auto.
    right. apply Z.leb_le. lia.
  - destruct (Z.leb_spec n m); auto. right. apply Z.leb_le. lia.
  - apply String.leb_total.
Qed.

Lemma cell_leb_trans (a b c : value) :
  Frame.cell_leb a b = true -> Frame.cell_leb b c = true ->
  Frame.cell_leb a c = true.
Proof.
  destruct a as [|x|n|s], b as [|y|m|t], c as [|z|k|u]; simpl;
    try reflexivity; try discriminate;
    try (intros H1 H2; apply Z.leb_le in H1; apply Z.leb_le in H2;
         apply Z.leb_le; lia).
  apply string_leb_trans.
Qed.

Section Sorting.

Context {R : Type}.
Variable by_ : list (R -> value).

Lemma lex_leb_total (r1 r2 : R) :
  Frame.lex_leb by_ r1 r2 = true \/ Frame.lex_leb by_ r2 r1 = true.
Proof.
  induction by_ as [|col cols IH]; simpl; [now left|].
  destruct (Frame.cell_leb (col r1) (col r2)) eqn:E12;
    destruct (Frame.cell_leb (col r2) (col r1)) eqn:E21; auto.
  destruct (cell_leb_total (col r1) (col r2)); congruence.
Qed.

Lemma lex_leb_trans (r1 r2 r3 : R) :
  Frame.lex_leb by_ r1 r2 = true -> Frame.lex_leb by_ r2 r3 = true ->
  Frame.lex_leb by_ r1 r3 = true.
Proof.
  induction by_ as [|col cols IH]; simpl; [reflexivity|].
  destruct (Frame.cell_leb (col r1) (col r2)) eqn:E12; [|discriminate].
  destruct (Frame.cell_leb (col r2) (col r3)) eqn:E23;
    [|intros _; discriminate].
  rewrite (cell_leb_trans _ _ _ E12 E23).
  destruct (Frame.cell_leb (col r3) (col r1)) eqn:E31; [|reflexivity].
  rewrite (cell_leb_trans _ _ _ E23 E31).
  rewrite (cell_leb_trans _ _ _ E31 E12).
  exact IH.
Qed.

Lemma insert_perm (r : R) (rows : list R) :
  Permutation (Frame.insert (Frame.lex_leb by_) r rows) (r :: rows).
Proof.
  induction rows as [|r' rows IH]; simpl; [reflexivity|].
  destruct (Frame.lex_leb by_ r r'); [reflexivity|].
  rewrite IH. apply perm_swap.
Qed.

Lemma sort_values_perm (rows : list R) :
  Permutation (Frame.sort_values by_ rows) rows.
Proof.
  induction rows as [|r rows IH]; simpl; [reflexivity|].
  rewrite insert_perm. now constructor.
Qed.

Lemma insert_sorted (r : R) (rows : list R) :
  StronglySorted (Frame.rows_le by_) rows ->
  StronglySorted (Frame.rows_le by_) (Frame.insert (Frame.lex_leb by_) r rows).
Proof.
  induction 1 as [|r' rows Hs IH Hall]; simpl.
  - repeat constructor.
  - destruct (Frame.lex_leb by_ r r') eqn:E.
    + constructor; [now constructor|].
      constructor; [exact E|].
      eapply Forall_impl; [|exact Hall].
      intros x Hx. exact (lex_leb_trans _ _ _ E Hx).
    + constructor; [exact IH|].
      rewrite (insert_perm r rows).
      constructor; [|exact Hall].
      destruct (lex_leb_total r r'); [congruence | assumption].
Qed.

Lemma sort_values_sorted (rows : list R) :
  StronglySorted (Frame.rows_le by_) (Frame.sort_values by_ rows).
Proof.
  induction rows as [|r rows IH]; simpl; [constructor|].
  now apply insert_sorted.
Qed.

End Sorting.

Lemma strongly_sorted_weaken {A : Type} (P Q : A -> A -> Prop) (l : list A) :
  (forall a b, In a l -> In b l -> P a b -> Q a b) ->
  StronglySorted P l -> StronglySorted Q l.
Proof.
  intros H Hs. induction Hs as [|a l Hs IH Hall]; constructor.
  - apply IH. intros x y Hx Hy. apply H; now right.
  - rewrite Forall_forall in *. intros x Hx.
    apply H; [now left | now right | now apply Hall].
Qed.

(* ------------------------------------------------------------------ *)
(** ** The event list of a swimmer *)

Lemma existsb_eqb_In (t : string) (seen : list string) :
  existsb (String.eqb t) seen = true <-> In t seen.
Proof.
  rewrite existsb_exists. split.
  - intros (x & Hx & E). apply String.eqb_eq in E. now subst.
  - intros H. exists t. split; [exact H | apply String.eqb_refl].
Qed.

(** The tokens the loop appends: each token of a record that is neither in
    [seen] nor appended already, once. *)
Lemma event_tokens_loop_tokens (swimmer_ID : value) (fastest : list dict)
    (seen : list string) (tokens : list event_entry) :
  exists fresh,
    map ee_event_token (event_tokens_loop swimmer_ID fastest seen tokens)
    = (map ee_event_token tokens ++ fresh)%list
    /\ NoDup fresh
    /\ (forall t, In t fresh <->
                  ~ In t seen
                  /\ exists rec, In rec fastest
                                 /\ _event_token_from_record rec = t).
Proof.
  revert seen tokens.
  induction fastest as [|rec fastest IH]; intros seen tokens; simpl.
  - exists []. rewrite app_nil_r. split; [reflexivity|].
    split; [constructor|]. intros t. split; [intros []|].
    intros (_ & rec & [] & _).
  - destruct (existsb (String.eqb (_event_token_from_record rec)) seen) eqn:E.
    + apply existsb_eqb_In in E.
      destruct (IH seen tokens) as (fresh & Hm & Hn & Hin).
      exists fresh. split; [exact Hm|]. split; [exact Hn|].
      intros t. rewrite Hin. split.
      * intros (Hs & r & Hr & Ht). split; [exact Hs|]. exists r. auto.
      * intros (Hs & r & [Hr|Hr] & Ht).
        -- subst. contradiction.
        -- split; [exact Hs|]. now exists r.
    + assert (Hnot : ~ In (_event_token_from_record rec) seen).
      { intros H. apply existsb_eqb_In in H. congruence. }
      match goal with
      | |- context [event_tokens_loop _ _ ?s ?ts] =>
          destruct (IH s ts) as (fresh & Hm & Hn & Hin)
      end.
      exists (_event_token_from_record rec :: fresh).
      split; [|split].
      * rewrite Hm, map_app, <- app_assoc. reflexivity.
      * constructor; [|exact Hn]. rewrite Hin. intros [Hs _].
        apply Hs. now left.
      * intros t. simpl. rewrite Hin. split.
        -- intros [<-|(Hs & r & Hr & Ht)].
           ++ split; [exact Hnot|]. exists rec. auto.
           ++ split; [intros H; apply Hs; now right|]. exists r. auto.
        -- intros (Hs & r & [Hr|Hr] & Ht).
           ++ left. now subst.
           ++ destruct (string_dec (_event_token_from_record rec) t) as [Heq|Hne];
                [now left|].
              right. split; [|now exists r].
              intros [H|H]; [contradiction | contradiction].
Qed.

(** Every entry of the event list carries the token and the label of one
    of the records. *)
Lemma event_tokens_loop_entries (swimmer_ID : value) (fastest : list dict)
    (seen : list string) (tokens : list event_entry) (et : event_entry) :
  In et (event_tokens_loop swimmer_ID fastest seen tokens) ->
  In et tokens
  \/ exists rec, In rec fastest
                 /\ ee_event_token et = _event_token_from_record rec
                 /\ ee_event_label et = _event_label_from_record rec.
Proof.
  revert seen tokens.
  induction fastest as [|rec fastest IH]; intros seen tokens; simpl.
  - now left.
  - destruct (existsb _ seen).
    + intros H. destruct (IH _ _ H) as [Hin|(r & Hr & Ht)]; [now left|].
      right. exists r. tauto.
    + intros H. destruct (IH _ _ H) as [Hin|(r & Hr & Ht)].
      * apply in_app_or in Hin as [Hin|[<-|[]]]; [now left|].
        right. exists rec. simpl. auto.
      * right. exists r. tauto.
Qed.

(* ------------------------------------------------------------------ *)
(** ** All times of a swimmer *)

Lemma all_times_loop_run (api : Api) (swimmer_ID : value)
    (event_tokens : list event_entry) (all_rows : list swim_row)
    (log : list request) :
  all_times_loop api swimmer_ID event_tokens all_rows log
  = (Ok (all_rows ++ flat_map (Spec.rows_of_entry api swimmer_ID) event_tokens)%list,
     (log ++ map (fun et => TimesByEvent swimmer_ID (ee_event_token et))
                 event_tokens)%list).
Proof.
  revert all_rows log.
  induction event_tokens as [|et ets IH]; intros all_rows log.
  - simpl. unfold ret. now rewrite !app_nil_r.
  - simpl. unfold mbind at 1, try_except, mbind, getSwimmerTimesByEventJSON, ret.
    unfold Spec.rows_of_entry at 1.
    destruct (times_by_event api swimmer_ID (ee_event_token et)) as [recs|e];
      rewrite IH, <- !app_assoc; reflexivity.
Qed.

(** What one call does, given the answer of the fastest-times endpoint:
    the requests it issues and the table it returns. *)
Lemma getSwimmerAllTimes_run (api : Api) (swimmer_ID : value)
    (fastest : list dict) (log : list request) :
  profile_fastest_times api swimmer_ID = Ok fastest ->
  let entries := event_tokens_loop swimmer_ID fastest [] [] in
  getSwimmerAllTimes api swimmer_ID log
  = (Ok (Frame.sort_values swim_sort_columns
           (flat_map (Spec.rows_of_entry api swimmer_ID) entries)),
     (log ++ ProfileFastestTimes swimmer_ID
          :: map (TimesByEvent swimmer_ID) (map ee_event_token entries))%list).
Proof.
  intros Hf entries.
  unfold getSwimmerAllTimes, getSwimmerEventTokens, mbind,
    getSwimmerProfileFastestTimes, ret.
  rewrite Hf. fold entries.
  rewrite all_times_loop_run. simpl app at 1.
  rewrite map_map, <- app_assoc. simpl app.
  now destruct (flat_map (Spec.rows_of_entry api swimmer_ID) entries).
Qed.

Lemma rows_of_entries_swimmer (api : Api) (swimmer_ID : value)
    (entries : list event_entry) (r : swim_row) :
  In r (flat_map (Spec.rows_of_entry api swimmer_ID) entries) ->
  swimmer_id r = swimmer_ID.
Proof.
  rewrite in_flat_map. intros (et & _ & Hr).
  unfold Spec.rows_of_entry in Hr.
  destruct (times_by_event api swimmer_ID (ee_event_token et)); [|now elim Hr].
  apply in_map_iff in Hr as (rec & <- & _). reflexivity.
Qed.

Lemma lex_leb_row_before (r1 r2 : swim_row) :
  swimmer_id r1 = swimmer_id r2 ->
  Frame.lex_leb swim_sort_columns r1 r2 = true -> Spec.row_before r1 r2.
Proof.
  intros Hid. unfold swim_sort_columns, Spec.row_before. simpl.
  rewrite Hid, cell_leb_refl.
  destruct (event_label r1 <=? event_label r2) eqn:E12; [|discriminate].
  destruct (event_label r2 <=? event_label r1) eqn:E21.
  - destruct (Frame.cell_leb (dateofswim r1) (dateofswim r2)) eqn:Ed;
      [|discriminate].
    intros _. split; [reflexivity|]. right.
    split; [now apply String.leb_antisym|].
    destruct (dateofswim r2) as [|b|n|s] eqn:E2; [now left| | |];
      right; (split; [|split; [discriminate|reflexivity]]);
      intros E1; rewrite E1 in Ed; discriminate Ed.
  - intros _. split; [reflexivity|]. left. now apply string_leb_ltb.
Qed.

(** C1. Given the answer of the fastest-times endpoint, one call issues
    the fastest-times request and then one per-event request for each
    distinct token of the records, no token twice, so as many as there are
    distinct tokens; and the rows it returns are in ascending order of
    (swimmer ID, event label, date of swim), null dates last. The rows
    returned are the combined rows of the fetches, none lost and none
    added: a rearrangement of the rows of the records each fetch answered,
    fetch after fetch, each under the token and label of a record of the
    fastest-times answer. *)
Theorem all_times_one_fetch_per_token_sorted (api : Api) (swimmer_ID : value)
    (fastest : list dict) (log : list request) :
  profile_fastest_times api swimmer_ID = Ok fastest ->
  exists table fetched,
    getSwimmerAllTimes api swimmer_ID log
    = (Ok table,
       (log ++ ProfileFastestTimes swimmer_ID
            :: map (TimesByEvent swimmer_ID) fetched)%list)
    /\ NoDup fetched
    /\ (forall t, In t fetched <->
                  exists rec, In rec fastest
                              /\ _event_token_from_record rec = t)
    /\ (forall distinct,
          NoDup distinct ->
          (forall t, In t distinct <->
                     exists rec, In rec fastest
                                 /\ _event_token_from_record rec = t) ->
          List.length fetched = List.length distinct)
    /\ StronglySorted Spec.row_before table
    /\ (exists entries,
          map ee_event_token entries = fetched
          /\ (forall et,
                In et entries ->
                exists rec, In rec fastest
                            /\ ee_event_token et = _event_token_from_record rec
                            /\ ee_event_label et = _event_label_from_record rec)
          /\ Permutation table
               (flat_map (Spec.rows_of_entry api swimmer_ID) entries)).
Proof.
  intros Hf.
  pose proof (getSwimmerAllTimes_run api swimmer_ID fastest log Hf) as Hrun.
  cbv zeta in Hrun.
  destruct (event_tokens_loop_tokens swimmer_ID fastest [] [])
    as (fresh & Hm & Hn & Hin).
  simpl in Hm. rewrite Hm in Hrun.
  eexists. exists fresh.
  split; [exact Hrun|].
  assert (Hset : forall t, In t fresh <->
                           exists rec, In rec fastest
                                       /\ _event_token_from_record rec = t).
  { intros t. rewrite Hin. split; [now intros [_ H]|].
    intros H. split; [intros []|exact H]. }
  split; [exact Hn|]. split; [exact Hset|]. split; [|split].
  - intros distinct Hd Hsame.
    apply Permutation_length, NoDup_Permutation; auto.
    intros t. now rewrite Hset, Hsame.
  - eapply strongly_sorted_weaken; [|apply sort_values_sorted].
    intros r1 r2 H1 H2 Hle.
    apply lex_leb_row_before; [|exact Hle].
    assert (S1 : swimmer_id r1 = swimmer_ID).
    { eapply rows_of_entries_swimmer, Permutation_in;
        [apply sort_values_perm | exact H1]. }
    assert (S2 : swimmer_id r2 = swimmer_ID).
    { eapply rows_of_entries_swimmer, Permutation_in;
        [apply sort_values_perm | exact H2]. }
    congruence.
  - exists (event_tokens_loop swimmer_ID fastest [] []).
    split; [exact Hm|]. split; [|apply sort_values_perm].
    intros et Het.
    destruct (event_tokens_loop_entries _ _ _ _ _ Het) as [[]|H]. exact H.
Qed.

Lemma all_times_one_fetch_per_token_sorted_witness :
  exists table fetched,
    getSwimmerAllTimes Samples.full_service (JInt 7) []
    = (Ok table,
       ([] ++ ProfileFastestTimes (JInt 7)
           :: map (TimesByEvent (JInt 7)) fetched)%list)
    /\ NoDup fetched
    /\ (forall t, In t fetched <->
                  exists rec, In rec Samples.three_records
                              /\ _event_token_from_record rec = t)
    /\ (forall distinct,
          NoDup distinct ->
          (forall t, In t distinct <->
                     exists rec, In rec Samples.three_records
                                 /\ _event_token_from_record rec = t) ->
          List.length fetched = List.length distinct)
    /\ StronglySorted Spec.row_before table
    /\ (exists entries,
          map ee_event_token entries = fetched
          /\ (forall et,
                In et entries ->
                exists rec, In rec Samples.three_records
                            /\ ee_event_token et = _event_token_from_record rec
                            /\ ee_event_label et = _event_label_from_record rec)
          /\ Permutation table
               (flat_map (Spec.rows_of_entry Samples.full_service (JInt 7))
                  entries)).
Proof.
  apply (all_times_one_fetch_per_token_sorted
           Samples.full_service (JInt 7) Samples.three_records []).
  reflexivity.
Defined.

(** Three records over two tokens: two per-event requests, and the rows by
    label, then date, the undated swim last within its event. *)
Example three_records_two_fetches :
  per_event_fetches (snd (getSwimmerAllTimes Samples.full_service (JInt 7) []))
  = ["1|50|Y|1"; "1|100|Y|1"]
  /\ match fst (getSwimmerAllTimes Samples.full_service (JInt 7) []) with
     | Ok table =>
         map (fun r => (event_label r, dateofswim r, eventtime r)) table
         = [ ("100 Y Free", JStr "2023-02-18", JStr "44.02");
             ("50 Y Free", JStr "2023-02-17", JStr "20.11");
             ("50 Y Free", JStr "2023-11-02", JStr "20.50");
             ("50 Y Free", JNull, JStr "20.30") ]
     | Raise _ => False
     end.
Proof. split; vm_compute; reflexivity. Qed.

(** C3. Given the answer of the fastest-times endpoint, the call returns a
    table however many per-event fetches raise; the table holds a row for
    every record of every event whose fetch answered, and every row of the
    table is such a row: an event whose fetch raised contributes nothing
    and takes nothing away. *)
Theorem all_times_skips_failed_events (api : Api) (swimmer_ID : value)
    (fastest : list dict) (log : list request) :
  profile_fastest_times api swimmer_ID = Ok fastest ->
  exists table log',
    getSwimmerAllTimes api swimmer_ID log = (Ok table, log')
    /\ (forall first recs rec,
          In first fastest ->
          times_by_event api swimmer_ID (_event_token_from_record first)
          = Ok recs ->
          In rec recs ->
          exists label, In (swim_row_of swimmer_ID label rec) table)
    /\ (forall row,
          In row table ->
          exists first recs rec,
            In first fastest
            /\ times_by_event api swimmer_ID (_event_token_from_record first)
               = Ok recs
            /\ In rec recs
            /\ row = swim_row_of swimmer_ID (_event_label_from_record first) rec).
Proof.
  intros Hf.
  pose proof (getSwimmerAllTimes_run api swimmer_ID fastest log Hf) as Hrun.
  cbv zeta in Hrun.
  set (entries := event_tokens_loop swimmer_ID fastest [] []) in *.
  eexists. eexists. split; [exact Hrun|]. split.
  - intros first recs rec Hfirst Hfetch Hrec.
    destruct (event_tokens_loop_tokens swimmer_ID fastest [] [])
      as (fresh & Hm & _ & Hin).
    simpl in Hm. fold entries in Hm.
    assert (Ht : In (_event_token_from_record first) (map ee_event_token entries)).
    { rewrite Hm. apply Hin. split; [intros []|]. now exists first. }
    apply in_map_iff in Ht as (et & Het & Hentry).
    exists (ee_event_label et).
    apply (Permutation_in _ (Permutation_sym (sort_values_perm _ _))).
    apply in_flat_map. exists et. split; [exact Hentry|].
    unfold Spec.rows_of_entry. rewrite Het, Hfetch.
    now apply in_map.
  - intros row Hrow.
    apply (Permutation_in _ (sort_values_perm _ _)) in Hrow.
    apply in_flat_map in Hrow as (et & Hentry & Hrow).
    destruct (event_tokens_loop_entries _ _ _ _ _ Hentry)
      as [[]|(first & Hfirst & Htok & Hlab)].
    unfold Spec.rows_of_entry in Hrow. rewrite Htok in Hrow.
    destruct (times_by_event api swimmer_ID (_event_token_from_record first))
      as [recs|e] eqn:Hfetch; [|now elim Hrow].
    apply in_map_iff in Hrow as (rec & <- & Hrec).
    exists first, recs, rec. rewrite Hlab. auto.
Qed.

Lemma all_times_skips_failed_events_witness :
  exists table log',
    getSwimmerAllTimes Samples.failing_service (JInt 7) [] = (Ok table, log')
    /\ (forall first recs rec,
          In first Samples.three_records ->
          times_by_event Samples.failing_service (JInt 7)
            (_event_token_from_record first) = Ok recs ->
          In rec recs ->
          exists label, In (swim_row_of (JInt 7) label rec) table)
    /\ (forall row,
          In row table ->
          exists first recs rec,
            In first Samples.three_records
            /\ times_by_event Samples.failing_service (JInt 7)
                 (_event_token_from_record first) = Ok recs
            /\ In rec recs
            /\ row = swim_row_of (JInt 7) (_event_label_from_record first) rec).
Proof.
  apply (all_times_skips_failed_events
           Samples.failing_service (JInt 7) Samples.three_records []).
  reflexivity.
Defined.

(** With the 50 free endpoint failing, both events are still requested and
    the 100 free row is returned. *)
Example failing_event_is_skipped :
  getSwimmerAllTimes Samples.failing_service (JInt 7) []
  = (Ok [ swim_row_of (JInt 7) "100 Y Free"
            (Samples.dated (Samples.free_100 "44.02") (JStr "2023-02-18")) ],
     [ ProfileFastestTimes (JInt 7);
       TimesByEvent (JInt 7) "1|50|Y|1";
       TimesByEvent (JInt 7) "1|100|Y|1" ]).
Proof. vm_compute. reflexivity. Qed.

Lemma team_lookup_last_wins_witness :
  getTeamID Samples.duplicated_teams (JStr "Florida") = Ok (JInt 999)
  /\ getTeamID Samples.duplicated_teams (JStr "Georgia") = Ok (JInt (-1))
  /\ getTeamName Samples.duplicated_teams (JInt 105) = Ok (JStr "Texas A&M")
  /\ getTeamName Samples.duplicated_teams (JInt 1) = Ok (JStr "").
Proof.
  split; [|split; [|split]].
  - apply (proj1 (team_lookup_last_wins Samples.duplicated_teams
                    (JStr "Florida") eq_refl)
             [Samples.team "Florida" 117; Samples.team "Texas" 105]
             (Samples.team "Florida" 999)
             [Samples.team "Texas A&M" 105]); reflexivity.
  - apply (proj1 (proj2 (team_lookup_last_wins Samples.duplicated_teams
                           (JStr "Georgia") eq_refl))); reflexivity.
  - apply (proj1 (proj2 (proj2 (team_lookup_last_wins Samples.duplicated_teams
                                  (JInt 105) eq_refl)))
             [Samples.team "Florida" 117; Samples.team "Texas" 105;
              Samples.team "Florida" 999]
             (Samples.team "Texas A&M" 105) []); reflexivity.
  - apply (proj2 (proj2 (proj2 (team_lookup_last_wins Samples.duplicated_teams
                                  (JInt 1) eq_refl)))); reflexivity.
Defined.

Lemma load_teams_degrades_to_empty_witness :
  load_teams Samples.disk (Some "nowhere.csv")
  = Ok {| columns :=
            [ "team_name"; "team_ID"; "team_state"; "team_division";
              "team_division_ID"; "team_conference"; "team_conference_ID" ];
          rows := [] |}
  /\ load_teams Samples.disk (Some "empty.csv")
     = load_teams Samples.disk (Some "nowhere.csv")
  /\ load_teams Samples.disk (Some "blank.csv")
     = load_teams Samples.disk (Some "nowhere.csv")
  /\ (forall df, load_teams Samples.disk None = Ok df ->
        columns df =
          [ "team_name"; "team_ID"; "team_state"; "team_division";
            "team_division_ID"; "team_conference"; "team_conference_ID" ]).
Proof.
  split; [|split; [|split]].
  - apply (proj1 (load_teams_degrades_to_empty Samples.disk (Some "nowhere.csv"))).
    left. reflexivity.
  - rewrite (proj1 (load_teams_degrades_to_empty Samples.disk (Some "empty.csv")));
      [reflexivity|].
    right. exists "". split; [reflexivity | left; reflexivity].
  - rewrite (proj1 (load_teams_degrades_to_empty Samples.disk (Some "blank.csv")));
      [reflexivity|].
    right. exists " ". split; [reflexivity | right; reflexivity].
  - apply (proj2 (load_teams_degrades_to_empty Samples.disk None)).
Defined.

(** The table of fastest times holds one row per record, each built by
    [fastest_row_of]. *)
Lemma fastest_times_clean_rows (api : Api) (swimmer_ID : value)
    (fastest : list dict) (log : list request) :
  profile_fastest_times api swimmer_ID = Ok fastest ->
  exists table,
    getSwimmerFastestTimesClean api swimmer_ID log
    = (Ok table, (log ++ [ProfileFastestTimes swimmer_ID])%list)
    /\ Permutation table (map (fastest_row_of swimmer_ID) fastest).
Proof.
  intros Hf.
  unfold getSwimmerFastestTimesClean, mbind, getSwimmerProfileFastestTimes, ret.
  rewrite Hf.
  destruct (map (fastest_row_of swimmer_ID) fastest) as [|r rs] eqn:E.
  - now exists [].
  - eexists. split; [reflexivity|]. apply sort_values_perm.
Qed.

(* ------------------------------------------------------------------ *)
(** * Further properties *)

(** ** The event list: order and origin of the entries *)

Lemma filter_filter {A : Type} (p q : A -> bool) (l : list A) :
  filter p (filter q l) = filter (fun x => q x && p x) l.
Proof.
  induction l as [|x l IH]; simpl; [reflexivity|].
  destruct (q x); simpl; [destruct (p x)|]; now rewrite IH.
Qed.

Lemma event_tokens_loop_first_by (swimmer_ID : value) (fastest : list dict)
    (seen : list string) (tokens : list event_entry) :
  event_tokens_loop swimmer_ID fastest seen tokens
  = (tokens ++
     map (More.entry_of swimmer_ID)
       (filter (fun rec =>
                  negb (existsb (String.eqb (_event_token_from_record rec)) seen))
          (More.first_by _event_token_from_record fastest)))%list.
Proof.
  revert seen tokens.
  induction fastest as [|rec fastest IH]; intros seen tokens; simpl.
  - now rewrite app_nil_r.
  - rewrite filter_filter.
    destruct (existsb (String.eqb (_event_token_from_record rec)) seen) eqn:E;
      simpl; rewrite IH.
    + f_equal. f_equal. apply filter_ext_in. intros r _.
      destruct (_event_token_from_record r =? _event_token_from_record rec) eqn:Er;
        [|reflexivity].
      apply String.eqb_eq in Er. rewrite Er, E. reflexivity.
    + rewrite <- app_assoc. simpl. f_equal. f_equal. f_equal.
      apply filter_ext. intros r.
      rewrite (String.eqb_sym (_event_token_from_record r)).
      now destruct (_event_token_from_record rec =? _event_token_from_record r).
Qed.

(** X1. The event list of a swimmer has one entry for each record of the
    fastest-times answer that is the first with its token, in the order of
    the answer, and the entry carries that record's label and raw fields:
    a later record with the same token changes nothing. *)
Theorem event_tokens_are_first_records (api : Api) (swimmer_ID : value)
    (fastest : list dict) (log : list request) :
  profile_fastest_times api swimmer_ID = Ok fastest ->
  getSwimmerEventTokens api swimmer_ID log
  = (Ok (map (fun rec =>
                {| ee_swimmer_id := swimmer_ID;
                   ee_event_token := _event_token_from_record rec;
                   ee_event_label := _event_label_from_record rec;
                   ee_eventdistance := get rec "eventdistance";
                   ee_eventstroke := get rec "eventstroke";
                   ee_eventcourse := get rec "eventcourse";
                   ee_eventgender := get rec "eventgender" |})
            (More.first_by _event_token_from_record fastest)),
     (log ++ [ProfileFastestTimes swimmer_ID])%list).
Proof.
  intros Hf.
  unfold getSwimmerEventTokens, mbind, getSwimmerProfileFastestTimes, ret.
  rewrite Hf, event_tokens_loop_first_by. simpl.
  f_equal. f_equal.
  induction (More.first_by _event_token_from_record fastest) as [|r l IH];
    simpl; [reflexivity | now rewrite IH].
Qed.

Lemma event_tokens_are_first_records_witness :
  getSwimmerEventTokens Samples.full_service (JInt 7) []
  = (Ok (map (fun rec =>
                {| ee_swimmer_id := JInt 7;
                   ee_event_token := _event_token_from_record rec;
                   ee_event_label := _event_label_from_record rec;
                   ee_eventdistance := get rec "eventdistance";
                   ee_eventstroke := get rec "eventstroke";
                   ee_eventcourse := get rec "eventcourse";
                   ee_eventgender := get rec "eventgender" |})
            (More.first_by _event_token_from_record Samples.three_records)),
     ([] ++ [ProfileFastestTimes (JInt 7)])%list).
Proof.
  apply (event_tokens_are_first_records Samples.full_service (JInt 7)
           Samples.three_records []).
  reflexivity.
Defined.

(** ** Failure and emptiness of the fastest-times answer *)

(** X2. When the fastest-times request raises, each of the three swimmer
    functions raises the same exception, having issued that one request
    and no per-event request: nothing is caught at this level. *)
Theorem fastest_times_failure_propagates (api : Api) (swimmer_ID : value)
    (e : exn) (log : list request) :
  profile_fastest_times api swimmer_ID = Raise e ->
  getSwimmerEventTokens api swimmer_ID log
  = (Raise e, (log ++ [ProfileFastestTimes swimmer_ID])%list)
  /\ getSwimmerAllTimes api swimmer_ID log
     = (Raise e, (log ++ [ProfileFastestTimes swimmer_ID])%list)
  /\ getSwimmerFastestTimesClean api swimmer_ID log
     = (Raise e, (log ++ [ProfileFastestTimes swimmer_ID])%list).
Proof.
  intros Hf.
  unfold getSwimmerAllTimes, getSwimmerEventTokens, getSwimmerFastestTimesClean,
    mbind, getSwimmerProfileFastestTimes.
  rewrite Hf. repeat split.
Qed.

Lemma fastest_times_failure_propagates_witness :
  let down :=
    {| profile_fastest_times := fun _ => Raise HTTPError;
       times_by_event := fun _ _ => Ok [] |} in
  getSwimmerEventTokens down (JInt 7) []
  = (Raise HTTPError, ([] ++ [ProfileFastestTimes (JInt 7)])%list)
  /\ getSwimmerAllTimes down (JInt 7) []
     = (Raise HTTPError, ([] ++ [ProfileFastestTimes (JInt 7)])%list)
  /\ getSwimmerFastestTimesClean down (JInt 7) []
     = (Raise HTTPError, ([] ++ [ProfileFastestTimes (JInt 7)])%list).
Proof.
  cbv zeta.
  apply (fastest_times_failure_propagates
           {| profile_fastest_times := fun _ => Raise HTTPError;
              times_by_event := fun _ _ => Ok [] |} (JInt 7) HTTPError []).
  reflexivity.
Defined.

Lemma flat_map_all_nil {A B : Type} (f : A -> list B) (l : list A) :
  (forall a, In a l -> f a = []) -> flat_map f l = [].
Proof.
  induction l as [|a l IH]; intros H; simpl; [reflexivity|].
  rewrite (H a (or_introl eq_refl)). apply IH.
  intros b Hb. apply H. now right.
Qed.

(** X3. When no per-event fetch answers with a record (each raises or
    returns an empty list), [getSwimmerAllTimes] still requests every
    distinct token once and returns the empty table; with an empty
    fastest-times answer it issues no per-event request at all. *)
Theorem all_times_empty_table (api : Api) (swimmer_ID : value)
    (fastest : list dict) (log : list request) :
  profile_fastest_times api swimmer_ID = Ok fastest ->
  (forall rec, In rec fastest ->
     times_by_event api swimmer_ID (_event_token_from_record rec) = Ok []
     \/ exists e,
          times_by_event api swimmer_ID (_event_token_from_record rec) = Raise e) ->
  getSwimmerAllTimes api swimmer_ID log
  = (Ok [],
     (log ++ ProfileFastestTimes swimmer_ID
          :: map (fun rec => TimesByEvent swimmer_ID (_event_token_from_record rec))
               (More.first_by _event_token_from_record fastest))%list)
  /\ (fastest = [] ->
      getSwimmerAllTimes api swimmer_ID log
      = (Ok [], (log ++ [ProfileFastestTimes swimmer_ID])%list)).
Proof.
  intros Hf Hnone.
  pose proof (getSwimmerAllTimes_run api swimmer_ID fastest log Hf) as Hrun.
  cbv zeta in Hrun.
  rewrite event_tokens_loop_first_by in Hrun. simpl in Hrun.
  assert (Hfirst : forall rec,
             In rec (More.first_by _event_token_from_record fastest) ->
             In rec fastest).
  { clear. induction fastest as [|r l IH]; simpl; [tauto|].
    intros rec [H|H]; [now left|].
    apply filter_In in H as [H _]. right. now apply IH. }
  rewrite flat_map_all_nil in Hrun.
  - split.
    + rewrite Hrun. simpl. rewrite !map_map. f_equal. f_equal. f_equal.
      assert (Hid : forall l : list dict,
                 filter (fun _ => negb false) l = l).
      { clear. induction l; simpl; [reflexivity | now f_equal]. }
      now rewrite Hid.
    + intros ->. rewrite Hrun. reflexivity.
  - intros et Het. apply in_map_iff in Het as (rec & <- & Hrec).
    apply filter_In in Hrec as [Hrec _]. apply Hfirst in Hrec.
    unfold Spec.rows_of_entry. simpl.
    destruct (Hnone rec Hrec) as [H|[e H]]; now rewrite H.
Qed.

Lemma all_times_empty_table_witness :
  let idle :=
    {| profile_fastest_times := fun _ => Ok Samples.three_records;
       times_by_event := fun _ token =>
         if token =? "1|50|Y|1" then Ok [] else Raise HTTPError |} in
  getSwimmerAllTimes idle (JInt 7) []
  = (Ok [],
     [ ProfileFastestTimes (JInt 7);
       TimesByEvent (JInt 7) "1|50|Y|1";
       TimesByEvent (JInt 7) "1|100|Y|1" ]).
Proof.
  cbv zeta.
  refine (proj1 (all_times_empty_table
                   {| profile_fastest_times := fun _ => Ok Samples.three_records;
                      times_by_event := fun _ token =>
                        if token =? "1|50|Y|1" then Ok [] else Raise HTTPError |}
                   (JInt 7) Samples.three_records [] eq_refl _)).
  intros rec [<-|[<-|[<-|[]]]];
    [left; reflexivity | right; exists HTTPError; reflexivity | left; reflexivity].
Defined.

Lemma cell_leb_antisym_label (r1 r2 : fastest_row) :
  f_swimmer_id r1 = f_swimmer_id r2 ->
  Frame.lex_leb fastest_sort_columns r1 r2 = true ->
  (f_event_label r1 <=? f_event_label r2) = true.
Proof.
  intros Hid. unfold fastest_sort_columns. simpl.
  rewrite Hid, cell_leb_refl.
  destruct (f_event_label r1 <=? f_event_label r2); [reflexivity|discriminate].
Qed.

(** X4. [getSwimmerFastestTimesClean] issues the one fastest-times request
    and returns one row per record of the answer (records that share an
    event are all kept), each built from its own record, in ascending
    order of event label. *)
Theorem fastest_times_clean_table (api : Api) (swimmer_ID : value)
    (fastest : list dict) (log : list request) :
  profile_fastest_times api swimmer_ID = Ok fastest ->
  exists table,
    getSwimmerFastestTimesClean api swimmer_ID log
    = (Ok table, (log ++ [ProfileFastestTimes swimmer_ID])%list)
    /\ Permutation table (map (fastest_row_of swimmer_ID) fastest)
    /\ List.length table = List.length fastest
    /\ StronglySorted
         (fun r1 r2 => (f_event_label r1 <=? f_event_label r2) = true) table.
Proof.
  intros Hf.
  destruct (fastest_times_clean_rows api swimmer_ID fastest log Hf)
    as (table & Hrun & Hperm).
  exists table. split; [exact Hrun|]. split; [exact Hperm|]. split.
  - rewrite (Permutation_length Hperm). apply length_map.
  - assert (Hsorted : StronglySorted (Frame.rows_le fastest_sort_columns) table).
    { assert (Ht : table
                   = Frame.sort_values fastest_sort_columns
                       (map (fastest_row_of swimmer_ID) fastest)).
      { unfold getSwimmerFastestTimesClean, mbind,
          getSwimmerProfileFastestTimes, ret in Hrun.
        rewrite Hf in Hrun.
        destruct (map (fastest_row_of swimmer_ID) fastest) as [|r rs];
          injection Hrun as <-; reflexivity. }
      rewrite Ht. apply sort_values_sorted. }
    eapply strongly_sorted_weaken; [|exact Hsorted].
    intros r1 r2 H1 H2 Hle.
    apply cell_leb_antisym_label; [|exact Hle].
    assert (Hid : forall r, In r table -> f_swimmer_id r = swimmer_ID).
    { intros r Hr. apply (Permutation_in _ Hperm) in Hr.
      apply in_map_iff in Hr as (rec & <- & _). reflexivity. }
    now rewrite (Hid r1 H1), (Hid r2 H2).
Qed.

Lemma fastest_times_clean_table_witness :
  exists table,
    getSwimmerFastestTimesClean Samples.full_service (JInt 7) []
    = (Ok table, ([] ++ [ProfileFastestTimes (JInt 7)])%list)
    /\ Permutation table (map (fastest_row_of (JInt 7)) Samples.three_records)
    /\ List.length table = List.length Samples.three_records
    /\ StronglySorted
         (fun r1 r2 => (f_event_label r1 <=? f_event_label r2) = true) table.
Proof.
  apply (fastest_times_clean_table Samples.full_service (JInt 7)
           Samples.three_records []).
  reflexivity.
Defined.

(** ** Tokens and labels *)

Lemma gender_code_pipe_free (g : value) :
  contains "|" (str_of_Z (_gender_code g)) = false.
Proof.
  unfold _gender_code.
  destruct (py_eq g (JStr "M")); [reflexivity|].
  destruct (py_eq g (JStr "F")); reflexivity.
Qed.

Lemma token_segments (rec : dict) :
  More.pipe_free rec = true ->
  split "|" (_event_token_from_record rec)
  = [ str_of_Z (_gender_code (get rec "eventgender"));
      py_str (get rec "eventdistance");
      py_str (get rec "eventcourse");
      py_str (get rec "eventstroke") ].
Proof.
  unfold More.pipe_free. intros H.
  apply andb_prop in H as [H Hs]. apply andb_prop in H as [Hd Hc].
  apply negb_true_iff in Hd, Hc, Hs.
  change (_event_token_from_record rec)
    with (join "|"
            [ str_of_Z (_gender_code (get rec "eventgender"));
              py_str (get rec "eventdistance");
              py_str (get rec "eventcourse");
              py_str (get rec "eventstroke") ]).
  apply split_join; [discriminate|].
  repeat constructor; auto using gender_code_pipe_free.
Qed.

(** X5. For records whose distance, course and stroke render without "|",
    the token determines the label: two such records with the same token
    have the same gender code, the same rendered distance, course and
    stroke, and the same event label. So the label of the first record of
    a token fits every record of that token. *)
Theorem token_determines_label (r1 r2 : dict) :
  More.pipe_free r1 = true -> More.pipe_free r2 = true ->
  _event_token_from_record r1 = _event_token_from_record r2 ->
  _gender_code (get r1 "eventgender") = _gender_code (get r2 "eventgender")
  /\ py_str (get r1 "eventdistance") = py_str (get r2 "eventdistance")
  /\ py_str (get r1 "eventcourse") = py_str (get r2 "eventcourse")
  /\ py_str (get r1 "eventstroke") = py_str (get r2 "eventstroke")
  /\ _event_label_from_record r1 = _event_label_from_record r2.
Proof.
  intros H1 H2 Ht.
  pose proof (token_segments r1 H1) as S1.
  pose proof (token_segments r2 H2) as S2.
  rewrite Ht, S2 in S1. injection S1 as Hg Hd Hc Hs.
  assert (Hcode : _gender_code (get r1 "eventgender")
                  = _gender_code (get r2 "eventgender")).
  { revert Hg. unfold _gender_code.
    destruct (py_eq (get r1 "eventgender") (JStr "M")),
             (py_eq (get r1 "eventgender") (JStr "F")),
             (py_eq (get r2 "eventgender") (JStr "M")),
             (py_eq (get r2 "eventgender") (JStr "F"));
      vm_compute; congruence. }
  repeat split; auto.
  unfold _event_label_from_record, _stroke_name. cbv zeta.
  now rewrite <- Hd, <- Hc, <- Hs.
Qed.

Lemma token_determines_label_witness :
  _event_label_from_record (Samples.free_50 "20.11")
  = _event_label_from_record (Samples.free_50 "20.50").
Proof.
  apply (token_determines_label (Samples.free_50 "20.11")
           (Samples.free_50 "20.50")); reflexivity.
Defined.

(** Without that condition a token can stand for two labels. *)
Example token_with_pipes_is_ambiguous :
  let r1 := [("eventdistance", JStr "1|2"); ("eventcourse", JStr "3")] in
  let r2 := [("eventdistance", JStr "1"); ("eventcourse", JStr "2|3")] in
  _event_token_from_record r1 = _event_token_from_record r2
  /\ _event_label_from_record r1 <> _event_label_from_record r2.
Proof. cbv zeta. split; [reflexivity | discriminate]. Qed.

(** ** The teams table: what loading keeps, and when it raises *)

Import TeamTable.

Lemma get_dict_set (k c : string) (v : value) (r : dict) :
  get (dict_set k v r) c = if k =? c then v else get r c.
Proof.
  unfold get. induction r as [|[k' v'] r IH]; simpl.
  - now destruct (k =? c).
  - destruct (k' =? k) eqn:Ek; simpl.
    + apply String.eqb_eq in Ek. subst k'. now destruct (k =? c).
    + destruct (k' =? c) eqn:Ec.
      * apply String.eqb_eq in Ec. subst k'.
        rewrite String.eqb_sym in Ek. now rewrite Ek.
      * exact IH.
Qed.

Lemma fill_rows (cols : list string) (df : DataFrame) :
  Forall2
    (fun r0 r =>
       forall c,
         get r c
         = if existsb (String.eqb c) cols && negb (has_column df c)
           then JNull else get r0 c)
    (rows df)
    (rows
       (fold_left
          (fun df col => if has_column df col then df else set_column df col JNull)
          cols df)).
Proof.
  revert df. induction cols as [|col cols IH]; intros df.
  - simpl. induction (rows df) as [|r rs IHr]; constructor; auto.
  - simpl fold_left. destruct (has_column df col) eqn:Hcol.
    + eapply Forall2_impl; [|apply IH].
      intros r0 r H c. rewrite H. simpl.
      destruct (c =? col) eqn:Ec; [|reflexivity].
      apply String.eqb_eq in Ec. subst c. now rewrite Hcol, andb_false_r.
    + specialize (IH (set_column df col JNull)).
      unfold set_column at 2 in IH. simpl rows in IH.
      remember (rows (fold_left _ cols (set_column df col JNull))) as out.
      clear Heqout. revert out IH.
      induction (rows df) as [|r0 rs IHr]; intros out H; simpl in H.
      * inversion H. constructor.
      * inversion H as [|? r ? out' Hr Hrest]; subst. constructor.
        -- intros c. rewrite Hr, get_dict_set. simpl existsb.
           assert (Hhas : has_column (set_column df col JNull) c
                          = has_column df c || (col =? c)).
           { unfold set_column, has_column at 1. simpl. fold (has_column df col).
             rewrite Hcol, existsb_app. simpl.
             now rewrite orb_false_r, (String.eqb_sym c col). }
           rewrite Hhas. rewrite (String.eqb_sym c col).
           destruct (col =? c) eqn:Ec; simpl.
           ++ apply String.eqb_eq in Ec. subst c. rewrite Hcol.
              now rewrite orb_true_r, andb_false_r.
           ++ now rewrite orb_false_r.
        -- now apply IHr.
Qed.

(** X6. When the file is there, not empty, and [read_csv] parses it,
    [load_teams] returns one row per parsed row, in order; in each row an
    expected column that the file has keeps its cell, an expected column
    the file lacks reads [None], and any other column of the file is
    dropped. *)
Theorem load_teams_keeps_rows (w : World) (path : option string)
    (content : string) (df0 : DataFrame) :
  files w (match path with
           | None => _default_teams_path w
           | Some p => p
           end) = File content ->
  content <> "" ->
  read_csv w content = Ok df0 ->
  exists df,
    load_teams w path = Ok df
    /\ columns df = expected_cols
    /\ Forall2
         (fun r0 r =>
            r = map (fun c => (c, if has_column df0 c then get r0 c else JNull))
                    expected_cols)
         (rows df0) (rows df).
Proof.
  intros Hfile Hne Hread. unfold load_teams. rewrite Hfile.
  destruct content as [|ch content]; [now elim Hne|].
  simpl String.length. simpl Nat.eqb. cbv iota.
  rewrite Hread, select_after_fill.
  eexists. split; [reflexivity|]. split; [reflexivity|].
  simpl rows.
  pose proof (fill_rows expected_cols df0) as H.
  fold (fill_missing df0) in H.
  induction H as [|r0 r rs0 rs Hr Hrest IH]; simpl; constructor; [|exact IH].
  rewrite !Hr. simpl.
  repeat match goal with
         | |- context [has_column df0 ?c] => destruct (has_column df0 c)
         end; reflexivity.
Qed.

Lemma load_teams_keeps_rows_witness :
  exists df,
    load_teams Cases.campus None = Ok df
    /\ columns df = expected_cols
    /\ Forall2
         (fun r0 r =>
            r = map (fun c =>
                       (c, if has_column Cases.parsed_teams c
                           then get r0 c else JNull))
                    expected_cols)
         (rows Cases.parsed_teams) (rows df).
Proof.
  apply (load_teams_keeps_rows Cases.campus None Cases.teams_csv
           Cases.parsed_teams).
  - reflexivity.
  - discriminate.
  - vm_compute. reflexivity.
Defined.

Example loaded_teams_sample :
  load_teams Cases.campus None
  = Ok {| columns := expected_cols;
          rows :=
            map (fun t : string * string * string =>
                   let '(name, id, division) := t in
                   [ ("team_name", JStr name); ("team_ID", JStr id);
                     ("team_state", JNull); ("team_division", JStr division);
                     ("team_division_ID", JNull); ("team_conference", JNull);
                     ("team_conference_ID", JNull) ])
                [ ("Florida", "117", "Division 1");
                  ("Texas", "105", "Division 1");
                  ("Emory", "420", "Division 3") ] |}.
Proof. vm_compute. reflexivity. Qed.

(** X7. [load_teams] raises exactly when the file is there, is not empty,
    and [read_csv] raises something other than [EmptyDataError] on it;
    it then raises that same exception. *)
Theorem load_teams_raises_iff (w : World) (path : option string) (e : exn) :
  load_teams w path = Raise e
  <-> exists content,
        files w (match path with
                 | None => _default_teams_path w
                 | Some p => p
                 end) = File content
        /\ content <> ""
        /\ read_csv w content = Raise e
        /\ e <> EmptyDataError.
Proof.
  unfold load_teams.
  set (p := match path with None => _ | Some p => p end).
  split.
  - destruct (files w p) as [|content] eqn:Ef; [discriminate|].
    destruct content as [|ch content]; [discriminate|].
    simpl String.length. simpl Nat.eqb. cbv iota.
    destruct (read_csv w (String ch content)) as [df|e'] eqn:Er.
    + rewrite select_after_fill. discriminate.
    + intros H. exists (String ch content).
      destruct e'; try discriminate; injection H as <-;
        (repeat split; [discriminate | exact Er | discriminate]).
  - intros (content & Hf & Hne & Hr & He). rewrite Hf.
    destruct content as [|ch content]; [now elim Hne|].
    simpl String.length. simpl Nat.eqb. cbv iota. rewrite Hr.
    destruct e; try reflexivity. now elim He.
Qed.

Lemma load_teams_columns (w : World) (path : option string) (df : DataFrame) :
  load_teams w path = Ok df -> columns df = expected_cols.
Proof.
  unfold load_teams.
  destruct (files w _) as [|content]; [intros [= <-]; reflexivity|].
  destruct (String.length content =? 0)%nat; [intros [= <-]; reflexivity|].
  destruct (read_csv w content) as [df0|e].
  - apply select_columns.
  - destruct e; try discriminate. intros [= <-]; reflexivity.
Qed.

(** ** Lookups and filters on the loaded table *)

(** X8. After [set_teams_csv] on a path whose file is missing, empty, or
    without columns, the global table is the empty one: [getTeamID] gives
    -1 for every name, [getTeamName] gives the empty string for every ID,
    and [getCollegeTeams] gives the empty list for every filter. *)
Theorem empty_table_after_reload (w : World) (path : option string)
    (old : DataFrame) :
  files w (match path with
           | None => _default_teams_path w
           | Some p => p
           end) = Missing
  \/ (exists content,
        files w (match path with
                 | None => _default_teams_path w
                 | Some p => p
                 end) = File content
        /\ (content = "" \/ read_csv w content = Raise EmptyDataError)) ->
  exists teams,
    set_teams_csv w path old = (Ok tt, teams)
    /\ (forall key,
          getTeamID teams key = Ok (JInt (-1))
          /\ getTeamName teams key = Ok (JStr ""))
    /\ (forall names confs divs, getCollegeTeams teams names confs divs = Ok []).
Proof.
  intros H.
  assert (Hload : load_teams w path = Ok (empty_frame expected_cols)).
  { unfold load_teams.
    destruct H as [H|(content & H & [->|Hr])]; rewrite H; [reflexivity..|].
    rewrite Hr. now destruct (String.length content =? 0)%nat. }
  exists (empty_frame expected_cols).
  unfold set_teams_csv. rewrite Hload.
  split; [reflexivity|]. split; [now split|].
  intros names confs divs. unfold getCollegeTeams, rows_where_isin.
  destruct (negb (list_eq names [JStr "NONE"])); [reflexivity|].
  destruct (negb (list_eq divs [JStr "NONE"])); [reflexivity|].
  destruct (negb (list_eq confs [JStr "NONE"])); reflexivity.
Qed.

Lemma empty_table_after_reload_witness :
  exists teams,
    set_teams_csv Samples.disk (Some "blank.csv") Samples.duplicated_teams
    = (Ok tt, teams)
    /\ (forall key,
          getTeamID teams key = Ok (JInt (-1))
          /\ getTeamName teams key = Ok (JStr ""))
    /\ (forall names confs divs, getCollegeTeams teams names confs divs = Ok []).
Proof.
  apply (empty_table_after_reload Samples.disk (Some "blank.csv")
           Samples.duplicated_teams).
  right. exists " ". split; [reflexivity | right; reflexivity].
Defined.

Lemma py_eq_refl (v : value) : py_eq v v = true.
Proof.
  destruct v as [|b|n|s]; simpl.
  - reflexivity.
  - now destruct b.
  - apply Z.eqb_refl.
  - apply String.eqb_refl.
Qed.

(** X9. For a row with a name and an ID (neither missing) that is the last
    of the table with its name and the last with its ID, the two lookups
    undo each other: the name leads to
    the row's ID and that ID leads back to the row's name, and the other
    way round. *)
Theorem team_lookups_inverse (teams : DataFrame) (pre post : list dict)
    (r : dict) :
  Spec.has_team_keys teams = true ->
  rows teams = (pre ++ r :: post)%list ->
  get r "team_name" <> JNull ->
  get r "team_ID" <> JNull ->
  Spec.no_match "team_name" (get r "team_name") post = true ->
  Spec.no_match "team_ID" (get r "team_ID") post = true ->
  bind (getTeamID teams (get r "team_name")) (getTeamName teams)
  = Ok (get r "team_name")
  /\ bind (getTeamName teams (get r "team_ID")) (getTeamID teams)
     = Ok (get r "team_ID").
Proof.
  unfold Spec.has_team_keys, getTeamID, getTeamName.
  intros Hk E _ _ Hn Hi. rewrite E in *.
  rewrite (getTeamID_loop_last _ pre post r _ Hk (py_eq_refl _) Hn).
  rewrite (getTeamName_loop_last _ pre post r _ Hk (py_eq_refl _) Hi).
  simpl.
  rewrite (getTeamID_loop_last _ pre post r _ Hk (py_eq_refl _) Hn).
  rewrite (getTeamName_loop_last _ pre post r _ Hk (py_eq_refl _) Hi).
  now split.
Qed.

Lemma team_lookups_inverse_witness :
  bind (getTeamID Samples.duplicated_teams (JStr "Florida"))
       (getTeamName Samples.duplicated_teams) = Ok (JStr "Florida")
  /\ bind (getTeamName Samples.duplicated_teams (JInt 999))
          (getTeamID Samples.duplicated_teams) = Ok (JInt 999).
Proof.
  apply (team_lookups_inverse Samples.duplicated_teams
           [Samples.team "Florida" 117; Samples.team "Texas" 105]
           [Samples.team "Texas A&M" 105]
           (Samples.team "Florida" 999)); try reflexivity; discriminate.
Defined.

(** With a duplicated key the round trip can end at another row. *)
Example team_lookups_not_inverse_on_duplicates :
  bind (getTeamID Samples.duplicated_teams (JStr "Texas"))
       (getTeamName Samples.duplicated_teams) = Ok (JStr "Texas A&M").
Proof. reflexivity. Qed.

(** X10. On a table [load_teams] returned, [getCollegeTeams] never raises
    and returns rows of the table in table order. A list of team names
    other than ["NONE"] decides alone, whatever the other two filters
    are: the rows returned are those whose name is in the list, so the
    empty list returns nothing. With every filter left at ["NONE"] the
    whole table is returned. *)
Theorem college_teams_filter (w : World) (path : option string)
    (teams : DataFrame) (names confs divs : list value) :
  load_teams w path = Ok teams ->
  exists out,
    getCollegeTeams teams names confs divs = Ok out
    /\ (exists keep, out = filter keep (rows teams))
    /\ (list_eq names [JStr "NONE"] = false ->
        out = filter (fun r => existsb (py_eq (get r "team_name")) names)
                (rows teams))
    /\ (names = [] -> out = [])
    /\ (list_eq names [JStr "NONE"] = true ->
        list_eq divs [JStr "NONE"] = true ->
        list_eq confs [JStr "NONE"] = true -> out = rows teams).
Proof.
  intros Hload. apply load_teams_columns in Hload.
  assert (Hcol : forall c, existsb (String.eqb c) expected_cols = true ->
                           has_column teams c = true).
  { intros c. unfold has_column. now rewrite Hload. }
  assert (Hall : forall l : list dict, l = filter (fun _ => true) l).
  { induction l; simpl; [reflexivity | now f_equal]. }
  unfold getCollegeTeams, rows_where_isin.
  rewrite !Hcol by reflexivity.
  destruct (list_eq names [JStr "NONE"]) eqn:En; simpl.
  - destruct (list_eq divs [JStr "NONE"]) eqn:Ed; simpl.
    + destruct (list_eq confs [JStr "NONE"]) eqn:Ec; simpl;
        eexists; (split; [reflexivity|]);
        (split; [eexists; first [reflexivity | apply Hall]|]);
        (split; [discriminate|]);
        (split; [intros ->; discriminate En|]); congruence.
    + eexists. split; [reflexivity|]. split; [eexists; reflexivity|].
      split; [discriminate|]. split; [intros ->; discriminate En|]. discriminate.
  - eexists. split; [reflexivity|]. split; [eexists; reflexivity|].
    split; [reflexivity|]. split; [|discriminate].
    intros ->. simpl. clear. induction (rows teams); simpl; auto.
Qed.

Lemma college_teams_filter_witness :
  exists out,
    getCollegeTeams Cases.loaded_teams
      [JStr "Florida"; JStr "Emory"] [JStr "SEC"] [JStr "Division 3"] = Ok out
    /\ (exists keep, out = filter keep (rows Cases.loaded_teams))
    /\ (list_eq [JStr "Florida"; JStr "Emory"] [JStr "NONE"] = false ->
        out = filter (fun r => existsb (py_eq (get r "team_name"))
                                 [JStr "Florida"; JStr "Emory"])
                (rows Cases.loaded_teams))
    /\ ([JStr "Florida"; JStr "Emory"] = [] -> out = [])
    /\ (list_eq [JStr "Florida"; JStr "Emory"] [JStr "NONE"] = true ->
        list_eq [JStr "Division 3"] [JStr "NONE"] = true ->
        list_eq [JStr "SEC"] [JStr "NONE"] = true ->
        out = rows Cases.loaded_teams).
Proof.
  apply (college_teams_filter Cases.campus None Cases.loaded_teams
           [JStr "Florida"; JStr "Emory"] [JStr "SEC"] [JStr "Division 3"]).
  vm_compute. reflexivity.
Defined.

Example college_teams_samples :
  map (fun r => get r "team_name")
    (match getCollegeTeams Cases.loaded_teams
             [JStr "Florida"; JStr "Emory"] [JStr "SEC"] [JStr "Division 3"] with
     | Ok out => out
     | Raise _ => []
     end) = [JStr "Florida"; JStr "Emory"]
  /\ map (fun r => get r "team_name")
       (match getCollegeTeams Cases.loaded_teams
                [JStr "NONE"] [JStr "SEC"] [JStr "Division 1"] with
        | Ok out => out
        | Raise _ => []
        end) = [JStr "Florida"; JStr "Texas"]
  /\ getCollegeTeams Cases.loaded_teams [JStr "NONE"] [JStr "SEC"] [JStr "NONE"]
     = Ok [].
Proof. repeat split; vm_compute; reflexivity. Qed.

(** ** Names *)

Lemma all_space_lstrip_eq (s : string) :
  all_chars is_space (lstrip s) = all_chars is_space s.
Proof.
  induction s as [|c s IH]; simpl; [reflexivity|].
  destruct (is_space c) eqn:E; simpl; [exact IH | now rewrite E].
Qed.

Lemma all_space_rstrip_eq (s : string) :
  all_chars is_space (rstrip s) = all_chars is_space s.
Proof.
  induction s as [|c s IH]; simpl; [reflexivity|].
  rewrite <- IH.
  destruct (rstrip s) as [|d r]; [|reflexivity].
  destruct (is_space c) eqn:E; simpl; [reflexivity | now rewrite E].
Qed.

Lemma split_ws_nil (s : string) :
  split_ws s = [] -> all_chars is_space s = true.
Proof.
  induction s as [|c s IH]; simpl; [reflexivity|].
  destruct (is_space c); [exact IH|].
  destruct s as [|d s']; [discriminate|].
  destruct (is_space d); [discriminate|].
  destruct (split_ws (String d s')); discriminate.
Qed.

(** X11. On a string, [cleanName] raises exactly when the string is not
    empty and all whitespace, and then it is [IndexError]; so it never
    raises on a string that has been stripped, which is how [getRoster]
    calls it. *)
Theorem cleanName_raises_iff (name : string) :
  ((exists e, cleanName (JStr name) = Raise e)
   <-> name <> "" /\ all_chars is_space name = true)
  /\ (forall e, cleanName (JStr name) = Raise e -> e = IndexError)
  /\ (exists cleaned, cleanName (JStr (strip name)) = Ok cleaned).
Proof.
  assert (Hcases : forall s,
             (exists out, cleanName (JStr s) = Ok out)
             \/ (cleanName (JStr s) = Raise IndexError
                 /\ s <> "" /\ all_chars is_space s = true)).
  { intros s. unfold cleanName. simpl truthy.
    destruct (s =? "") eqn:Es; simpl negb; cbv iota; [left; now eexists|].
    destruct (contains "," (strip s)).
    - left. destruct (map strip _) as [|a [|b [|c l]]]; now eexists.
    - destruct (split_ws (strip s)) as [|t ts] eqn:Et.
      + right. split; [reflexivity|]. split.
        * intros ->. discriminate Es.
        * apply split_ws_nil in Et. unfold strip in Et.
          now rewrite all_space_rstrip_eq, all_space_lstrip_eq in Et.
      + left. simpl. destruct ts; simpl; now eexists. }
  split; [split|split].
  - intros [e He]. destruct (Hcases name) as [[out Ho]|(_ & H)];
      [congruence | exact H].
  - intros [Hne Hsp]. exists IndexError.
    unfold cleanName. simpl truthy.
    destruct (name =? "") eqn:Es; [apply String.eqb_eq in Es; now elim Hne|].
    simpl. now rewrite (all_space_strip name Hsp).
  - intros e He. destruct (Hcases name) as [[out Ho]|(H & _)]; congruence.
  - destruct (Hcases (strip name)) as [H|(_ & Hne & Hsp)]; [exact H|].
    elim Hne. rewrite <- strip_idem. now apply all_space_strip.
Qed.

Lemma contains_lstrip_none (c : ascii) (s : string) :
  contains c s = false -> contains c (lstrip s) = false.
Proof.
  induction s as [|d s IH]; simpl; [reflexivity|].
  destruct (is_space d); [|intros H; exact H].
  intros H. apply orb_false_iff in H as [_ H]. now apply IH.
Qed.

Lemma contains_rstrip_none (c : ascii) (s : string) :
  contains c s = false -> contains c (rstrip s) = false.
Proof.
  induction s as [|d s IH]; simpl; [reflexivity|].
  intros H. apply orb_false_iff in H as [Hd H]. specialize (IH H).
  destruct (rstrip s) as [|x r].
  - destruct (is_space d); simpl; [reflexivity | now rewrite Hd].
  - simpl in *. now rewrite Hd, IH.
Qed.

Lemma contains_strip_none (c : ascii) (s : string) :
  contains c s = false -> contains c (strip s) = false.
Proof.
  intros H. unfold strip. now apply contains_rstrip_none, contains_lstrip_none.
Qed.

Lemma rstrip_cons (c : ascii) (s : string) :
  is_space c = false -> rstrip (String c s) = String c (rstrip s).
Proof. intros H. simpl. rewrite H. now destruct (rstrip s). Qed.

Lemma strip_head (s : string) :
  match strip s with
  | EmptyString => True
  | String c _ => is_space c = false
  end.
Proof.
  unfold strip.
  pose proof (rstrip_head (lstrip s) (lstrip_head s)) as H.
  destruct (rstrip (lstrip s)); [exact I | exact H].
Qed.

Lemma strip_rstrip_fixed (s : string) : rstrip (strip s) = strip s.
Proof. unfold strip. apply rstrip_idem. Qed.

(** Two stripped, non-empty words with one space between them are
    stripped already. *)
Lemma strip_two_words (x y : string) :
  strip x <> "" -> strip y <> "" ->
  strip (strip x ++ " " ++ strip y) = strip x ++ " " ++ strip y.
Proof.
  intros Hx Hy.
  pose proof (strip_head x) as Hhx. pose proof (strip_head y) as Hhy.
  pose proof (strip_rstrip_fixed y) as Hry.
  destruct (strip x) as [|h a]; [now elim Hx|].
  destruct (strip y) as [|k b]; [now elim Hy|].
  unfold strip at 1.
  rewrite (lstrip_fixed (String h a ++ " " ++ String k b)) by exact Hhx.
  rewrite (rstrip_cons k b Hhy) in Hry. injection Hry as Hb.
  change (String h a ++ " " ++ String k b)
    with (String h a ++ String " " (String k b)).
  replace (String h a ++ String " " (String k b))
    with ((String h a ++ " ") ++ String k b)
    by (rewrite append_assoc; reflexivity).
  rewrite (rstrip_append _ b k Hhy), Hb. reflexivity.
Qed.

(** X12. A name written "Last, First", with no further comma and neither
    part blank, becomes "First Last", each part stripped of surrounding
    whitespace. *)
Theorem cleanName_last_first (last first : string) :
  contains "," last = false -> contains "," first = false ->
  strip last <> "" -> strip first <> "" ->
  cleanName (JStr (last ++ "," ++ first))
  = Ok (strip first ++ " " ++ strip last).
Proof.
  intros Hcl Hcf Hl Hf. unfold cleanName.
  assert (Htruthy : truthy (JStr (last ++ "," ++ first)) = true).
  { simpl. now destruct last. }
  rewrite Htruthy. simpl negb. cbv iota.
  change (last ++ "," ++ first) with (last ++ String "," first).
  rewrite (strip_append last first ",") by reflexivity.
  rewrite contains_append.
  change (contains "," (String "," (rstrip first))) with true.
  rewrite orb_true_r. cbv iota.
  change (lstrip last ++ String "," (rstrip first))
    with (join "," [lstrip last; rstrip first]).
  rewrite split_join; [|discriminate|].
  - simpl filter.
    rewrite strip_lstrip, strip_rstrip.
    assert (Hnl : (strip last =? "") = false)
      by (apply String.eqb_neq; exact Hl).
    assert (Hnf : (strip first =? "") = false)
      by (apply String.eqb_neq; exact Hf).
    simpl truthy. rewrite Hnl, Hnf. simpl negb. cbv iota.
    simpl map.
    rewrite strip_lstrip, strip_rstrip.
    now rewrite (strip_two_words first last Hf Hl).
  - repeat constructor.
    + now apply contains_lstrip_none.
    + now apply contains_rstrip_none.
Qed.

Lemma cleanName_last_first_witness :
  cleanName (JStr ("  van der Berg " ++ "," ++ " Anna Maria "))
  = Ok (strip " Anna Maria " ++ " " ++ strip "  van der Berg ").
Proof.
  apply (cleanName_last_first "  van der Berg " " Anna Maria ");
    try reflexivity; discriminate.
Defined.

(** With a comma, inner whitespace is kept; without one it is collapsed:
    cleaning twice is not cleaning once. *)
Example cleanName_not_idempotent :
  cleanName (JStr "Smith, John  Paul") = Ok "John  Paul Smith"
  /\ cleanName (JStr "John  Paul Smith") = Ok "John Paul Smith".
Proof. split; reflexivity. Qed.

(** ** Display times with more than one colon *)

Lemma convertTime_second_colon (minutes seconds : string) :
  contains ":" minutes = false -> contains ":" seconds = true ->
  convertTime (JStr (minutes ++ String ":" seconds)) = Raise ValueError.
Proof.
  intros Hm Hs.
  rewrite (convertTime_colon _ (lstrip minutes) (rstrip seconds)).
  - assert (Hf : py_float (rstrip seconds) = None).
    { destruct (py_float (rstrip seconds)) as [f|] eqn:E; [|reflexivity].
      apply py_float_colon in E. rewrite contains_rstrip in E. congruence. }
    unfold float. rewrite Hf.
    now destruct (py_float (lstrip minutes)).
  - now apply strip_append.
  - now rewrite contains_lstrip.
Qed.

(** X13. Text with two or more colons, such as an hours:minutes:seconds
    time, always makes [convertTime] raise [ValueError]: only the first
    colon is a separator, and what follows it must be a number. *)
Theorem convertTime_two_colons (a b : string) :
  contains ":" b = true ->
  convertTime (JStr (a ++ ":" ++ b)) = Raise ValueError.
Proof.
  intros Hb.
  change (a ++ ":" ++ b) with (a ++ String ":" b).
  destruct (contains ":" a) eqn:Ha.
  - destruct (split1_cut ":" a Ha) as (a1 & a2 & Ea & Ha1 & _).
    rewrite Ea, append_assoc. simpl append.
    apply convertTime_second_colon; [exact Ha1|].
    rewrite contains_append.
    change (contains ":" (String ":" b)) with true.
    apply orb_true_r.
  - now apply convertTime_second_colon.
Qed.

Lemma convertTime_two_colons_witness :
  convertTime (JStr ("1" ++ ":" ++ "02:03.45")) = Raise ValueError.
Proof. apply (convertTime_two_colons "1" "02:03.45"). reflexivity. Defined.

(** ** The events table as a bijection *)

Lemma lookup_not_in (k : string) (d : dict) :
  ~ In k (keys d) -> lookup k d = None.
Proof.
  induction d as [|[k' v] d IH]; simpl; [reflexivity|].
  intros H. destruct (k' =? k) eqn:E.
  - apply String.eqb_eq in E. elim H. now left.
  - apply IH. intros Hin. apply H. now right.
Qed.

Lemma events_codes_roundtrip_all :
  forallb (fun code =>
             match getEventName code with
             | Ok label => py_eq (getEventID label) code
             | Raise _ => false
             end) (values events) = true.
Proof. vm_compute. reflexivity. Qed.

Lemma events_codes_distinct_all :
  forallb (fun l1 =>
             forallb (fun l2 =>
                        negb (py_eq (getEventID l1) (getEventID l2))
                        || (l1 =? l2))
                     (keys events))
          (keys events) = true.
Proof. vm_compute. reflexivity. Qed.

(** X14. The events table is one-to-one: every code of the table is
    mapped by [getEventName] to a label that [getEventID] maps back to it,
    and two labels of the table with equal codes are the same label. A
    label that is not in the table has the code [None], on which
    [getEventName] raises [ValueError]. *)
Theorem events_bijection :
  (forall code, In code (values events) ->
     exists label,
       getEventName code = Ok label /\ In label (keys events)
       /\ py_eq (getEventID label) code = true)
  /\ (forall l1 l2, In l1 (keys events) -> In l2 (keys events) ->
        py_eq (getEventID l1) (getEventID l2) = true -> l1 = l2)
  /\ (forall label, ~ In label (keys events) ->
        getEventID label = JNull
        /\ getEventName (getEventID label) = Raise ValueError).
Proof.
  split; [|split].
  - intros code Hin.
    pose proof events_codes_roundtrip_all as H.
    rewrite forallb_forall in H. specialize (H code Hin).
    destruct (getEventName code) as [label|e] eqn:E; [|discriminate].
    exists label. split; [reflexivity|]. split; [|exact H].
    unfold getEventName, bind in E.
    destruct (index code (values events)) as [i|]; [|discriminate].
    unfold item in E.
    destruct (nth_error (keys events) i) as [l|] eqn:En; [|discriminate].
    injection E as <-. eapply nth_error_In. exact En.
  - intros l1 l2 H1 H2 Heq.
    pose proof events_codes_distinct_all as H.
    rewrite forallb_forall in H. specialize (H l1 H1).
    rewrite forallb_forall in H. specialize (H l2 H2).
    rewrite Heq in H. simpl in H. now apply String.eqb_eq.
  - intros label Hnot. unfold getEventID, get.
    rewrite (lookup_not_in label events Hnot). split; reflexivity.
Qed.

Lemma events_bijection_witness :
  (exists label,
     getEventName (JInt 7400) = Ok label /\ In label (keys events)
     /\ py_eq (getEventID label) (JInt 7400) = true)
  /\ getEventName (getEventID "50 Y Freestyle") = Raise ValueError.
Proof.
  split.
  - apply (proj1 events_bijection). vm_compute. tauto.
  - apply (proj2 (proj2 events_bijection) "50 Y Freestyle").
    vm_compute. intuition discriminate.
Defined.

(** ** City and state are well formed *)

Lemma contains_join_none (c : ascii) (sep : string) (parts : list string) :
  contains c sep = false ->
  Forall (fun p => contains c p = false) parts ->
  contains c (join sep parts) = false.
Proof.
  intros Hsep Hall. induction Hall as [|p ps Hp Hps IH]; [reflexivity|].
  destruct ps as [|q ps]; [exact Hp|].
  change (join sep (p :: q :: ps)) with (p ++ sep ++ join sep (q :: ps)).
  now rewrite !contains_append, Hp, Hsep, IH.
Qed.

Lemma forall_removelast {A : Type} (P : A -> Prop) (l : list A) :
  Forall P l -> Forall P (removelast l).
Proof.
  induction 1 as [|x l Hx Hl IH]; simpl; [constructor|].
  destruct l; [constructor | now constructor].
Qed.

(** X15. [getState] and [getCity] never raise. The state is always
    letters only (the sentinel "NONE" is), and the city never contains a
    comma; for a hometown without a comma the city is empty. *)
Theorem hometown_parts_well_formed (hometown : string) :
  (exists state, getState hometown = Ok state /\ isalpha state = true)
  /\ (exists city, getCity hometown = Ok city /\ contains "," city = false)
  /\ (contains "," hometown = false -> getCity hometown = Ok "").
Proof.
  pose proof (split_not_nil "," hometown) as Hn.
  pose proof (split_segments "," hometown) as Hs.
  split; [|split].
  - unfold getState.
    destruct (split "," hometown) as [|p ps]; [now elim Hn|]. simpl.
    destruct (isalpha (strip (last ps p))) eqn:E; eexists; split;
      try reflexivity; exact E.
  - unfold getCity.
    destruct (split "," hometown) as [|p ps] eqn:E; [now elim Hn|].
    simpl bind. eexists. split; [reflexivity|].
    apply contains_join_none; [reflexivity|].
    apply Forall_map. apply forall_removelast in Hs.
    eapply Forall_impl; [|exact Hs].
    intros seg. apply contains_strip_none.
  - intros Hc. unfold getCity.
    assert (E : split "," hometown = [hometown]).
    { clear Hn Hs. induction hometown as [|c s IH]; [reflexivity|].
      simpl in *. destruct (c =? ",")%char; [discriminate|].
      now rewrite (IH Hc). }
    now rewrite E.
Qed.

Lemma hometown_parts_well_formed_witness :
  getCity "Texas" = Ok "".
Proof.
  apply (proj2 (proj2 (hometown_parts_well_formed "Texas"))). reflexivity.
Defined.

(** ** Header cells of a progression table *)

Import Progression.

Section Index_scan.

Lemma scan_meet (data : list cell) (i : Z) (found : indexes) :
  (meet_name_index (getIndexes_loop data i found) = meet_name_index found
   /\ forallb (fun td => negb (is_meet td)) data = true)
  \/ (exists before td after,
        data = (before ++ td :: after)%list
        /\ meet_name_index (getIndexes_loop data i found)
           = (i + Z.of_nat (List.length before))%Z
        /\ is_meet td = true
        /\ forallb (fun td => negb (is_meet td)) after = true).
Proof.
  revert i found. induction data as [|td data IH]; intros i found.
  - left. split; reflexivity.
  - simpl getIndexes_loop.
    match goal with
    | |- context [getIndexes_loop data (i + 1)%Z ?f] =>
        destruct (IH (i + 1)%Z f) as [[Hsame Hnone]|(b & t & a & E & Hi & Ht & Ha)]
    end.
    + destruct (is_meet td) eqn:Hm.
      * right. exists [], td, data. simpl.
        rewrite Hsame. pose proof Hm as Ht. unfold is_meet in Ht.
        rewrite Ht. simpl.
        repeat split; auto; lia.
      * left. rewrite Hsame. unfold is_meet in Hm. rewrite Hm.
        split; [|simpl; unfold is_meet at 1; now rewrite Hm].
        destruct (strip (cell_text td) =? "Date"); [reflexivity|].
        now destruct ((strip (cell_text td) =? "") && _).
    + right. exists (td :: b), t, a. subst data. simpl.
      rewrite Hi. repeat split; auto; lia.
Qed.

Lemma scan_date (data : list cell) (i : Z) (found : indexes) :
  (date_index (getIndexes_loop data i found) = date_index found
   /\ forallb (fun td => negb (is_date td)) data = true)
  \/ (exists before td after,
        data = (before ++ td :: after)%list
        /\ date_index (getIndexes_loop data i found)
           = (i + Z.of_nat (List.length before))%Z
        /\ is_date td = true
        /\ forallb (fun td => negb (is_date td)) after = true).
Proof.
  revert i found. induction data as [|td data IH]; intros i found.
  - left. split; reflexivity.
  - simpl getIndexes_loop.
    match goal with
    | |- context [getIndexes_loop data (i + 1)%Z ?f] =>
        destruct (IH (i + 1)%Z f) as [[Hsame Hnone]|(b & t & a & E & Hi & Ht & Ha)]
    end.
    + destruct (is_date td) eqn:Hd.
      * right. exists [], td, data. simpl.
        rewrite Hsame. pose proof Hd as Ht. unfold is_date in Ht.
        apply String.eqb_eq in Ht. rewrite Ht. simpl.
        repeat split; auto; lia.
      * left. rewrite Hsame. unfold is_date in Hd. rewrite Hd.
        split; [|simpl; unfold is_date at 1; now rewrite Hd].
        destruct (strip (cell_text td) =? "Meet"); [reflexivity|].
        now destruct ((strip (cell_text td) =? "") && _).
    + right. exists (td :: b), t, a. subst data. simpl.
      rewrite Hi. repeat split; auto; lia.
Qed.

Lemma scan_info (data : list cell) (i : Z) (found : indexes) :
  (additional_info_index (getIndexes_loop data i found)
   = additional_info_index found
   /\ forallb (fun td => negb (is_info td)) data = true)
  \/ (exists before td after,
        data = (before ++ td :: after)%list
        /\ additional_info_index (getIndexes_loop data i found)
           = (i + Z.of_nat (List.length before))%Z
        /\ is_info td = true
        /\ forallb (fun td => negb (is_info td)) after = true).
Proof.
  revert i found. induction data as [|td data IH]; intros i found.
  - left. split; reflexivity.
  - simpl getIndexes_loop.
    match goal with
    | |- context [getIndexes_loop data (i + 1)%Z ?f] =>
        destruct (IH (i + 1)%Z f) as [[Hsame Hnone]|(b & t & a & E & Hi & Ht & Ha)]
    end.
    + destruct (is_info td) eqn:Hinfo.
      * right. exists [], td, data. simpl.
        rewrite Hsame. pose proof Hinfo as Ht. unfold is_info in Ht.
        rewrite Ht.
        apply andb_prop in Ht as [He _].
        apply String.eqb_eq in He. rewrite He. simpl.
        repeat split; auto; lia.
      * left. rewrite Hsame. unfold is_info in Hinfo. rewrite Hinfo.
        split; [|simpl; unfold is_info at 1; now rewrite Hinfo].
        destruct (strip (cell_text td) =? "Meet"); [reflexivity|].
        now destruct (strip (cell_text td) =? "Date").
    + right. exists (td :: b), t, a. subst data. simpl.
      rewrite Hi. repeat split; auto; lia.
Qed.

End Index_scan.

Lemma same_position {A : Type} (b1 b2 a1 a2 : list A) (x1 x2 : A) :
  (b1 ++ x1 :: a1 = b2 ++ x2 :: a2)%list ->
  List.length b1 = List.length b2 -> x1 = x2.
Proof.
  revert b2. induction b1 as [|y b1 IH]; intros [|z b2]; simpl;
    try discriminate.
  - now intros [= -> _].
  - intros [= _ E] [= L]. now apply (IH b2).
Qed.

(** X16. Each index [getIndexes] returns is -1 when no header cell is of
    its kind and otherwise the position of the last cell of its kind
    ("Meet", "Date", or an empty cell of class c-table-clean__col-fit);
    the text is compared after stripping. Two indexes that are not -1
    are never equal. *)
Theorem getIndexes_last_positions (data : list cell) :
  let found := getIndexes data in
  last_position is_meet data (meet_name_index found)
  /\ last_position is_date data (date_index found)
  /\ last_position is_info data (additional_info_index found)
  /\ (meet_name_index found <> (-1)%Z ->
      meet_name_index found <> date_index found
      /\ meet_name_index found <> additional_info_index found)
  /\ (date_index found <> (-1)%Z ->
      date_index found <> additional_info_index found).
Proof.
  cbv zeta. unfold getIndexes.
  set (start := {| meet_name_index := -1; date_index := -1;
                   additional_info_index := -1 |}).
  assert (Hm : last_position is_meet data
                 (meet_name_index (getIndexes_loop data 0 start))).
  { destruct (scan_meet data 0 start) as [[H N]|(b & t & a & E & H & T & A)].
    - left. now rewrite H.
    - right. exists b, t, a. rewrite H. repeat split; auto. }
  assert (Hd : last_position is_date data
                 (date_index (getIndexes_loop data 0 start))).
  { destruct (scan_date data 0 start) as [[H N]|(b & t & a & E & H & T & A)].
    - left. now rewrite H.
    - right. exists b, t, a. rewrite H. repeat split; auto. }
  assert (Hi : last_position is_info data
                 (additional_info_index (getIndexes_loop data 0 start))).
  { destruct (scan_info data 0 start) as [[H N]|(b & t & a & E & H & T & A)].
    - left. now rewrite H.
    - right. exists b, t, a. rewrite H. repeat split; auto. }
  assert (Hexcl : forall td,
             (is_meet td = true -> is_date td = false /\ is_info td = false)
             /\ (is_date td = true -> is_info td = false)).
  { intros td. unfold is_meet, is_date, is_info. split.
    - intros H. apply String.eqb_eq in H. now rewrite H.
    - intros H. apply String.eqb_eq in H. now rewrite H. }
  assert (Hdiff : forall p q i j,
             (forall td, p td = true -> q td = false) ->
             last_position p data i -> last_position q data j ->
             i <> (-1)%Z -> i <> j).
  { intros p q i j Hpq [[Hi1 _]|(b1 & t1 & a1 & E1 & I1 & P1 & _)]
      [[Hj1 _]|(b2 & t2 & a2 & E2 & I2 & Q2 & _)] Hne; try congruence;
      try lia.
    intros Hij. rewrite E1 in E2.
    assert (L : List.length b1 = List.length b2) by lia.
    pose proof (same_position _ _ _ _ _ _ E2 L) as ->.
    rewrite (Hpq _ P1) in Q2. discriminate. }
  split; [exact Hm|]. split; [exact Hd|]. split; [exact Hi|]. split.
  - intros Hne. split.
    + apply (Hdiff is_meet is_date); auto.
      intros td H. exact (proj1 (proj1 (Hexcl td) H)).
    + apply (Hdiff is_meet is_info); auto.
      intros td H. exact (proj2 (proj1 (Hexcl td) H)).
  - intros Hne. apply (Hdiff is_date is_info); auto.
    intros td H. exact (proj2 (Hexcl td) H).
Qed.

Lemma getIndexes_last_positions_witness :
  let data :=
    [ {| cell_text := " Meet "; cell_class := None |};
      {| cell_text := "Time"; cell_class := None |};
      {| cell_text := ""; cell_class := Some ["c-table-clean__col-fit"] |};
      {| cell_text := "Date"; cell_class := Some ["u-text-end"] |} ] in
  getIndexes data
  = {| meet_name_index := 0; date_index := 3; additional_info_index := 2 |}
  /\ meet_name_index (getIndexes data) <> date_index (getIndexes data).
Proof.
  cbv zeta. split; [reflexivity|].
  apply (proj1 (proj2 (proj2 (proj2 (getIndexes_last_positions _))))).
  vm_compute. discriminate.
Defined.

(** ** Locating the rows of a times answer *)

Import TimesJson.

Section Times_rows.

Context {T : Type}.
Variable DataFrame : list json -> result T.

Lemma located_rows_raises (times_json : json) (e : exn) :
  located_rows times_json = Raise e ->
  (e = TypeError /\ exists v, times_json = JScalar v)
  \/ (e = ValueError
      /\ exists fields,
           times_json = JObject fields
           /\ list_under "results" fields = None
           /\ list_under "times" fields = None
           /\ List.length (list_values fields) <> 1%nat).
Proof.
  destruct times_json as [v|rows|fields]; simpl.
  - intros [= <-]. left. split; [reflexivity | now exists v].
  - discriminate.
  - destruct (list_under "results" fields) eqn:E1; [discriminate|].
    destruct (list_under "times" fields) eqn:E2; [discriminate|].
    intros H. right.
    destruct (list_values fields) as [|j [|j' l]] eqn:El.
    + injection H as <-. split; [reflexivity|]. exists fields.
      rewrite El. repeat split; auto; discriminate.
    + assert (Hj : is_list j = true).
      { assert (Hin : In j (list_values fields)) by (rewrite El; now left).
        unfold list_values in Hin. now apply filter_In in Hin. }
      destruct j; try discriminate Hj. discriminate H.
    + assert (e = ValueError) as -> by (destruct j; congruence).
      split; [reflexivity|]. exists fields.
      rewrite El. repeat split; auto; discriminate.
Qed.

(** X17. [swimmer_times_to_dataframe] builds its table from a list as it
    is. In an object, a list under "results" is taken whatever else there
    is; else a list under "times"; else the only list-valued field, and
    [ValueError] is raised, and no table built, when there is none or more
    than one. A scalar raises [TypeError]. Any other exception is one the
    table constructor raises on the rows located. *)
Theorem times_rows_located (times_json : json) :
  (forall rows, times_json = JArray rows ->
     swimmer_times_to_dataframe DataFrame times_json = DataFrame rows)
  /\ (forall fields rows,
        times_json = JObject fields ->
        list_under "results" fields = Some rows ->
        swimmer_times_to_dataframe DataFrame times_json = DataFrame rows)
  /\ (forall fields rows,
        times_json = JObject fields ->
        list_under "results" fields = None ->
        list_under "times" fields = Some rows ->
        swimmer_times_to_dataframe DataFrame times_json = DataFrame rows)
  /\ (forall fields,
        times_json = JObject fields ->
        list_under "results" fields = None ->
        list_under "times" fields = None ->
        (forall rows, list_values fields = [JArray rows] ->
           swimmer_times_to_dataframe DataFrame times_json = DataFrame rows)
        /\ (List.length (list_values fields) <> 1%nat ->
            swimmer_times_to_dataframe DataFrame times_json
            = Raise ValueError))
  /\ (forall v, times_json = JScalar v ->
        swimmer_times_to_dataframe DataFrame times_json = Raise TypeError)
  /\ (forall e,
        swimmer_times_to_dataframe DataFrame times_json = Raise e ->
        (e = TypeError /\ exists v, times_json = JScalar v)
        \/ (e = ValueError
            /\ exists fields,
                 times_json = JObject fields
                 /\ list_under "results" fields = None
                 /\ list_under "times" fields = None
                 /\ List.length (list_values fields) <> 1%nat)
        \/ (exists rows,
              located_rows times_json = Ok rows /\ DataFrame rows = Raise e)).
Proof.
  unfold swimmer_times_to_dataframe.
  split; [|split; [|split; [|split; [|split]]]].
  - now intros rows ->.
  - intros fields rows -> H. simpl. now rewrite H.
  - intros fields rows -> H1 H2. simpl. now rewrite H1, H2.
  - intros fields -> H1 H2. simpl. rewrite H1, H2. split.
    + now intros rows ->.
    + intros Hlen.
      assert (Hall : Forall (fun j => is_list j = true) (list_values fields)).
      { unfold list_values. apply Forall_forall. intros j Hj.
        now apply filter_In in Hj. }
      destruct (list_values fields) as [|j [|j' l]]; try reflexivity.
      * now elim Hlen.
      * destruct j; reflexivity.
  - now intros v ->.
  - intros e H.
    destruct (located_rows times_json) as [rows|e'] eqn:El.
    + right. right. now exists rows.
    + simpl in H. injection H as ->.
      destruct (located_rows_raises _ _ El) as [H|H]; [now left|].
      right. now left.
Qed.

End Times_rows.

Lemma times_rows_located_witness :
  swimmer_times_to_dataframe objects_only (JObject both_keys)
  = Ok [ JObject [("time", JScalar (JStr "19.98"))]; JObject [] ]
  /\ swimmer_times_to_dataframe objects_only
       (JObject [ ("a", JArray []); ("b", JArray []) ]) = Raise ValueError
  /\ swimmer_times_to_dataframe objects_only
       (JArray [ JObject []; JScalar (JInt 5) ]) = Raise TypeError.
Proof.
  split; [|split].
  - exact (proj1 (proj2 (times_rows_located objects_only (JObject both_keys)))
             both_keys
             [ JObject [("time", JScalar (JStr "19.98"))]; JObject [] ]
             eq_refl eq_refl).
  - apply (proj2 (proj1 (proj2 (proj2 (proj2
             (times_rows_located objects_only
                (JObject [ ("a", JArray []); ("b", JArray []) ])))))
                    [ ("a", JArray []); ("b", JArray []) ]
                    eq_refl eq_refl eq_refl)).
    vm_compute. discriminate.
  - exact (proj1 (times_rows_located objects_only
                    (JArray [ JObject []; JScalar (JInt 5) ]))
             [ JObject []; JScalar (JInt 5) ] eq_refl).
Defined.

(** ** Rosters *)

Import Web Roster.

Lemma cleanName_stripped_ok (s : string) :
  exists cleaned, cleanName (JStr (strip s)) = Ok cleaned.
Proof.
  unfold cleanName. simpl truthy.
  destruct (strip s =? "") eqn:Es; simpl negb; cbv iota; [now eexists|].
  rewrite strip_idem.
  destruct (contains "," (strip s)).
  - destruct (map strip _) as [|a [|b [|c l]]]; now eexists.
  - destruct (split_ws (strip s)) as [|t ts] eqn:Et.
    + apply split_ws_nil in Et. apply all_space_strip in Et.
      rewrite strip_idem in Et. rewrite Et in Es. discriminate.
    + simpl. destruct ts; simpl; now eexists.
Qed.

Lemma getState_ok (hometown : string) :
  exists state, getState hometown = Ok state.
Proof.
  unfold getState. pose proof (split_not_nil "," hometown) as Hn.
  destruct (split "," hometown) as [|p ps]; [now elim Hn|]. simpl.
  destruct (isalpha _); now eexists.
Qed.

Lemma getCity_ok (hometown : string) :
  exists city, getCity hometown = Ok city.
Proof.
  unfold getCity. pose proof (split_not_nil "," hometown) as Hn.
  destruct (split "," hometown) as [|p ps]; [now elim Hn|]. now eexists.
Qed.

Lemma last_segment_ok (sep : ascii) (s : string) :
  last_item (split sep s) = Ok (last (split sep s) "").
Proof.
  pose proof (split_not_nil sep s) as Hn.
  destruct (split sep s) as [|p ps]; [now elim Hn|].
  simpl last_item. now rewrite (last_cons p "" ps).
Qed.

Lemma getTeamID_total (teams : DataFrame) (key : value) :
  Spec.has_team_keys teams = true -> exists v, getTeamID teams key = Ok v.
Proof.
  unfold Spec.has_team_keys, getTeamID. intros Hk.
  destruct (last_match_cases (fun r => py_eq (get r "team_name") key) (rows teams))
    as [Hn|(pre & r & post & E & Hr & Hn)].
  - eexists. now apply getTeamID_loop_no_match.
  - rewrite E in *. eexists. now apply getTeamID_loop_last.
Qed.

Lemma getTeamName_total (teams : DataFrame) (key : value) :
  Spec.has_team_keys teams = true -> exists v, getTeamName teams key = Ok v.
Proof.
  unfold Spec.has_team_keys, getTeamName. intros Hk.
  destruct (last_match_cases (fun r => py_eq (get r "team_ID") key) (rows teams))
    as [Hn|(pre & r & post & E & Hr & Hn)].
  - eexists. now apply getTeamName_loop_no_match.
  - rewrite E in *. eexists. now apply getTeamName_loop_last.
Qed.

(** X18. [getRoster] returns the empty list without any request when the
    gender is neither "M" nor "F". Otherwise, on a teams table with its
    two key columns, it issues exactly one request, whatever the page
    turns out to be: for the team number given, or else the one the table
    has for the team name, and for the season of the year given, or else
    the season given, or else the season of the current year. *)
Theorem getRoster_one_request (site : Site) (team gender team_ID : value)
    (season_ID year : Z) (pro : bool) (log : list string) :
  (py_eq gender (JStr "M") || py_eq gender (JStr "F") = false ->
   getRoster site team gender team_ID season_ID year pro log = (Ok [], log))
  /\ (py_eq gender (JStr "M") || py_eq gender (JStr "F") = true ->
      Spec.has_team_keys (teams site) = true ->
      exists outcome team_number,
        getRoster site team gender team_ID season_ID year pro log
        = (outcome,
           (log ++
            [ ("https://www.swimcloud.com/team/" ++ py_str team_number
               ++ "/roster/?page=1&gender=" ++ py_str gender ++ "&season_id="
               ++ str_of_Z
                    (if (year =? -1)%Z then
                       if (season_ID =? -1)%Z then (current_year site - 1996)%Z
                       else season_ID
                     else (year - 1996)%Z))%string ])%list)
        /\ (if py_eq team_ID (JInt (-1))
            then getTeamID (teams site) team = Ok team_number
            else team_number = team_ID)).
Proof.
  unfold getRoster. split.
  - intros ->. reflexivity.
  - intros -> Hk. simpl negb. cbv iota.
    assert (Hseason : resolve_season site season_ID year
                      = if (year =? -1)%Z then
                          if (season_ID =? -1)%Z then (current_year site - 1996)%Z
                          else season_ID
                        else (year - 1996)%Z).
    { unfold resolve_season, getSeasonID.
      destruct (year =? -1)%Z eqn:Ey; simpl.
      - destruct (season_ID =? -1)%Z; reflexivity.
      - now rewrite andb_false_r. }
    unfold mbind, lift, fetch.
    destruct (py_eq team_ID (JInt (-1))) eqn:Eid; simpl negb; cbv iota.
    + destruct (getTeamID_total (teams site) team Hk) as [id Hid].
      rewrite Hid. cbn -[roster_url resolve_season for_each append].
      match goal with
      | |- context [roster_page site ?u] => destruct (roster_page site u) as [[trs|]|e]
      end;
        eexists; exists id; rewrite Hseason;
        (split; reflexivity).
    + destruct (getTeamName_total (teams site) team_ID Hk) as [name Hname].
      rewrite Hname. cbn -[roster_url resolve_season for_each append].
      match goal with
      | |- context [roster_page site ?u] => destruct (roster_page site u) as [[trs|]|e]
      end;
        eexists; exists team_ID; rewrite Hseason;
        (split; reflexivity).
Qed.

Lemma getRoster_one_request_witness :
  getRoster RosterSpec.florida (JStr "nobody") (JStr "X") (JInt 117) (-1) 2025
    false [] = (Ok [], [])
  /\ exists outcome team_number,
       getRoster RosterSpec.florida (JStr "Florida") (JStr "F") (JInt (-1))
         (-1) (-1) false []
       = (outcome,
          ([] ++
           [ ("https://www.swimcloud.com/team/" ++ py_str team_number
              ++ "/roster/?page=1&gender=" ++ py_str (JStr "F") ++ "&season_id="
              ++ str_of_Z
                   (if (-1 =? -1)%Z then
                      if (-1 =? -1)%Z
                      then (current_year RosterSpec.florida - 1996)%Z
                      else (-1)%Z
                    else (-1 - 1996)%Z))%string ])%list)
       /\ (if py_eq (JInt (-1)) (JInt (-1))
           then getTeamID (teams RosterSpec.florida) (JStr "Florida")
                = Ok team_number
           else team_number = JInt (-1)).
Proof.
  split.
  - apply (proj1 (getRoster_one_request RosterSpec.florida (JStr "nobody")
                    (JStr "X") (JInt 117) (-1) 2025 false [])).
    reflexivity.
  - apply (proj2 (getRoster_one_request RosterSpec.florida (JStr "Florida")
                    (JStr "F") (JInt (-1)) (-1) (-1) false []));
      reflexivity.
Defined.

Example uf_roster_request :
  snd (getRoster RosterSpec.florida (JStr "University of Florida") (JStr "M")
         (JInt 117) (-1) 2025 false [])
  = ["https://www.swimcloud.com/team/117/roster/?page=1&gender=M&season_id=29"].
Proof. vm_compute. reflexivity. Qed.

Import RosterSpec.

Lemma for_each_forall2 {A B : Type} (f : A -> result B) (P : A -> B -> Prop)
    (xs : list A) :
  (forall x, In x xs -> exists y, f x = Ok y /\ P x y) ->
  exists ys, for_each f xs = Ok ys /\ Forall2 P xs ys.
Proof.
  induction xs as [|x xs IH]; intros H.
  - exists []. split; [reflexivity | constructor].
  - destruct (H x (or_introl eq_refl)) as (y & Hy & Py).
    destruct IH as (ys & Hys & Pys); [intros z Hz; apply H; now right|].
    exists (y :: ys). simpl. rewrite Hy, Hys. split; [reflexivity|].
    now constructor.
Qed.

Lemma item_nth {A : Type} (xs : list A) (i : nat) (x : A) :
  nth_error xs i = Some x -> item xs i = Ok x.
Proof. unfold item. now intros ->. Qed.

Lemma roster_entry_readable (team team_number : value) (pro : bool)
    (row : table_row) :
  readable pro row = true ->
  exists e,
    roster_entry team team_number pro row = Ok e
    /\ entry_of_row team team_number pro row e.
Proof.
  unfold readable, roster_entry.
  destruct (tr_anchors row) as [|a anchors] eqn:Ea; [discriminate|].
  destruct (a_href a) as [h|] eqn:Eh; [|discriminate].
  intros Hlen. apply Nat.leb_le in Hlen.
  destruct (cleanName_stripped_ok (a_text a)) as [name Hname].
  assert (H2 : exists c2, nth_error (tr_cells row) 2 = Some c2).
  { destruct (nth_error (tr_cells row) 2) eqn:E; [now eexists|].
    apply nth_error_None in E. destruct pro; lia. }
  destruct H2 as [c2 Hc2].
  destruct (getState_ok (strip c2)) as [state Hstate].
  destruct (getCity_ok (strip c2)) as [city Hcity].
  simpl hd_error. simpl found. simpl bind at 1.
  rewrite Hname. simpl bind at 1.
  change (item (a :: anchors) 0) with (Ok a). simpl bind at 1.
  unfold href. rewrite Eh. simpl bind at 1.
  rewrite last_segment_ok. simpl bind at 1.
  rewrite (item_nth _ _ _ Hc2). simpl bind at 1.
  rewrite Hstate. simpl bind at 1.
  rewrite Hcity. simpl bind at 1.
  destruct pro.
  - simpl. eexists. split; [reflexivity|].
    unfold entry_of_row. rewrite Ea.
    repeat split.
    + exists a, h, name. repeat split; auto.
    + exists c2, state, city. repeat split; auto.
  - assert (H3 : exists c3, nth_error (tr_cells row) 3 = Some c3).
    { destruct (nth_error (tr_cells row) 3) eqn:E; [now eexists|].
      apply nth_error_None in E. simpl in Hlen. lia. }
    destruct H3 as [c3 Hc3].
    simpl negb. cbv iota. rewrite (item_nth _ _ _ Hc3). simpl.
    eexists. split; [reflexivity|].
    unfold entry_of_row. rewrite Ea.
    repeat split.
    + exists a, h, name. repeat split; auto.
    + exists c2, state, city. repeat split; auto.
    + exists c3. split; auto.
Qed.

(** X19. With a valid gender and a team number given, on a page whose
    roster table has a header row and data rows that each have a link
    with an address and the cells read, [getRoster] returns one entry per
    data row, in order; each entry has the eight keys, the swimmer's
    cleaned name and ID, state and city, grade, and no power index. The
    team name is the table's name for that number when it has one and the
    name passed otherwise. *)
Theorem getRoster_entries (site : Site) (team gender team_ID : value)
    (season_ID year : Z) (pro : bool) (log : list string)
    (header : table_row) (rows : list table_row) :
  py_eq gender (JStr "M") || py_eq gender (JStr "F") = true ->
  py_eq team_ID (JInt (-1)) = false ->
  Spec.has_team_keys (teams site) = true ->
  roster_page site
    (roster_url team_ID gender (resolve_season site season_ID year))
  = Ok (Some (header :: rows)) ->
  forallb (readable pro) rows = true ->
  exists entries name,
    fst (getRoster site team gender team_ID season_ID year pro log)
    = Ok entries
    /\ getTeamName (teams site) team_ID = Ok name
    /\ Forall2
         (entry_of_row (if truthy name then name else team) team_ID pro)
         rows entries.
Proof.
  intros Hg Hid Hk Hpage Hrows.
  destruct (getTeamName_total (teams site) team_ID Hk) as [name Hname].
  destruct (for_each_forall2
              (roster_entry (py_or name team) team_ID pro)
              (entry_of_row (py_or name team) team_ID pro) rows)
    as (entries & He & HP).
  { intros row Hin. apply roster_entry_readable.
    rewrite forallb_forall in Hrows. now apply Hrows. }
  exists entries, name.
  split; [|split; [exact Hname | exact HP]].
  unfold getRoster. rewrite Hg, Hid. simpl negb. cbv iota.
  unfold mbind, lift, fetch. rewrite Hname.
  cbn -[roster_url resolve_season for_each append roster_entry].
  rewrite Hpage.
  cbn -[roster_url resolve_season for_each append roster_entry].
  now rewrite He.
Qed.

Lemma getRoster_entries_witness :
  exists entries name,
    fst (getRoster florida (JStr "UF") (JStr "M") (JInt 117) (-1) 2025 false [])
    = Ok entries
    /\ getTeamName (teams florida) (JInt 117) = Ok name
    /\ Forall2
         (entry_of_row (if truthy name then name else JStr "UF") (JInt 117) false)
         florida_rows entries.
Proof.
  apply (getRoster_entries florida (JStr "UF") (JStr "M") (JInt 117) (-1) 2025
           false [] header_row florida_rows); reflexivity.
Defined.

Example florida_roster :
  fst (getRoster florida (JStr "UF") (JStr "M") (JInt 117) (-1) 2025 false [])
  = Ok [ [ ("swimmer_name", JStr "John Smith"); ("swimmer_ID", JStr "123");
           ("team_name", JStr "Florida"); ("team_ID", JInt 117);
           ("grade", JStr "SR"); ("hometown_state", JStr "TX");
           ("hometown_city", JStr "Austin"); ("HS_power_index", JNull) ];
         [ ("swimmer_name", JStr "Madonna"); ("swimmer_ID", JStr "77");
           ("team_name", JStr "Florida"); ("team_ID", JInt 117);
           ("grade", JStr "FR"); ("hometown_state", JStr "NONE");
           ("hometown_city", JStr "Lyon"); ("HS_power_index", JNull) ] ].
Proof. vm_compute. reflexivity. Qed.

Lemma for_each_raises {A B : Type} (f : A -> result B) (good rest : list A)
    (bad : A) (e : exn) :
  (forall x, In x good -> exists y, f x = Ok y) ->
  f bad = Raise e ->
  for_each f (good ++ bad :: rest) = Raise e.
Proof.
  intros Hgood Hbad. induction good as [|x good IH]; simpl.
  - now rewrite Hbad.
  - destruct (Hgood x (or_introl eq_refl)) as [y Hy]. rewrite Hy. simpl.
    rewrite IH; [reflexivity|]. intros z Hz. apply Hgood. now right.
Qed.

(** X20. [getRoster] returns no partial roster. With a valid gender and a
    team number given, it raises what the request raises; it raises
    [AttributeError] when the page has no roster table, and also at the
    first data row without a link; it raises [IndexError] at the first
    data row that has a link with an address but fewer than three cells.
    The rows read before that row are lost with it. *)
Theorem getRoster_all_or_nothing (site : Site) (team gender team_ID : value)
    (season_ID year : Z) (pro : bool) (log : list string) :
  py_eq gender (JStr "M") || py_eq gender (JStr "F") = true ->
  py_eq team_ID (JInt (-1)) = false ->
  Spec.has_team_keys (teams site) = true ->
  let page :=
    roster_page site
      (roster_url team_ID gender (resolve_season site season_ID year)) in
  let outcome :=
    fst (getRoster site team gender team_ID season_ID year pro log) in
  (forall e, page = Raise e -> outcome = Raise e)
  /\ (page = Ok None -> outcome = Raise AttributeError)
  /\ (forall header good bad rest,
        page = Ok (Some (header :: good ++ bad :: rest)%list) ->
        forallb (readable pro) good = true ->
        (tr_anchors bad = [] -> outcome = Raise AttributeError)
        /\ (forall a h others,
              tr_anchors bad = a :: others -> a_href a = Some h ->
              (List.length (tr_cells bad) < 3)%nat ->
              outcome = Raise IndexError)).
Proof.
  intros Hg Hid Hk page outcome.
  destruct (getTeamName_total (teams site) team_ID Hk) as [name Hname].
  assert (Hrun : outcome
                 = match page with
                   | Ok p =>
                       match bind (found p) (fun trs => Ok (tl trs)) with
                       | Ok rows =>
                           for_each (roster_entry (py_or name team) team_ID pro)
                             rows
                       | Raise e => Raise e
                       end
                   | Raise e => Raise e
                   end).
  { unfold outcome, getRoster. rewrite Hg, Hid. simpl negb. cbv iota.
    unfold mbind, lift, fetch. rewrite Hname.
    cbn -[roster_url resolve_season for_each append roster_entry found].
    fold page. destruct page as [p|e]; [|reflexivity].
    now destruct (bind (found p) _). }
  split; [|split].
  - intros e He. now rewrite Hrun, He.
  - intros Hp. now rewrite Hrun, Hp.
  - intros header good bad rest Hp Hgood.
    rewrite Hrun, Hp. simpl found. simpl bind. cbv iota. simpl tl.
    assert (Hok : forall x, In x good ->
                    exists y, roster_entry (py_or name team) team_ID pro x = Ok y).
    { intros x Hx. rewrite forallb_forall in Hgood.
      destruct (roster_entry_readable (py_or name team) team_ID pro x
                  (Hgood x Hx)) as (y & Hy & _).
      now exists y. }
    split.
    + intros Ha. apply for_each_raises; [exact Hok|].
      unfold roster_entry. now rewrite Ha.
    + intros a h others Ha Hh Hlen. apply for_each_raises; [exact Hok|].
      unfold roster_entry. rewrite Ha. simpl hd_error. simpl found.
      simpl bind at 1.
      destruct (cleanName_stripped_ok (a_text a)) as [nm Hnm].
      rewrite Hnm. simpl bind at 1.
      change (item (a :: others) 0) with (Ok a). simpl bind at 1.
      unfold href. rewrite Hh. simpl bind at 1.
      rewrite last_segment_ok. simpl bind at 1.
      assert (Hnone : item (tr_cells bad) 2 = Raise IndexError).
      { unfold item.
        destruct (nth_error (tr_cells bad) 2) eqn:E; [|reflexivity].
        assert (nth_error (tr_cells bad) 2 <> None) by congruence.
        apply nth_error_Some in H. lia. }
      now rewrite Hnone.
Qed.

Lemma getRoster_all_or_nothing_witness :
  fst (getRoster no_table (JStr "UF") (JStr "M") (JInt 117) (-1) 2025 false [])
  = Raise AttributeError
  /\ fst (getRoster short_row (JStr "UF") (JStr "M") (JInt 117) (-1) 2025
            false [])
     = Raise IndexError.
Proof.
  split.
  - apply (proj1 (proj2 (getRoster_all_or_nothing no_table (JStr "UF")
                           (JStr "M") (JInt 117) (-1) 2025 false []
                           eq_refl eq_refl eq_refl))).
    reflexivity.
  - refine (proj2 (proj2 (proj2 (getRoster_all_or_nothing short_row (JStr "UF")
                                   (JStr "M") (JInt 117) (-1) 2025 false []
                                   eq_refl eq_refl eq_refl))
                     header_row
                     [swimmer_row "Madonna" "/swimmer/77" "Lyon, 69" "FR"]
                     {| tr_anchors := [ {| a_text := "X";
                                           a_href := Some "/swimmer/1" |} ];
                        tr_cells := ["X"; ""] |}
                     [] eq_refl eq_refl)
              {| a_text := "X"; a_href := Some "/swimmer/1" |} "/swimmer/1" []
              eq_refl eq_refl _).
    simpl. lia.
Defined.

(** ** Recruit rankings: pages *)

Import Recruits.

Lemma find_link_href (part : string) (r : row) (l : link) :
  find_link part r = Some l -> exists h, l_href l = Some h.
Proof.
  unfold find_link. intros H. apply find_some in H as [_ H].
  destruct (l_href l) as [h|]; [now exists h | discriminate].
Qed.

Lemma recruit_entry_ok (r : row) : exists e, recruit_entry r = Ok e.
Proof.
  unfold recruit_entry.
  destruct (find_link "/swimmer/" r) as [name_link|] eqn:En; [|now eexists].
  destruct (find_link_href _ _ _ En) as [h Hh].
  unfold link_href at 1. rewrite Hh. simpl bind at 1.
  rewrite last_segment_ok. simpl bind at 1.
  assert (Hhome : exists st city,
             match find_cell "u-color-mute" r with
             | Some hometown_td =>
                 bind (getState (get_text_strip (c_strings hometown_td)))
                   (fun hometown_state =>
                    bind (getCity (get_text_strip (c_strings hometown_td)))
                      (fun hometown_city =>
                       Ok (JStr hometown_state, JStr hometown_city)))
             | None => Ok (JNull, JNull)
             end = Ok (st, city)).
  { destruct (find_cell "u-color-mute" r) as [td|]; [|now eexists; eexists].
    destruct (getState_ok (get_text_strip (c_strings td))) as [st Hst].
    destruct (getCity_ok (get_text_strip (c_strings td))) as [ct Hct].
    rewrite Hst, Hct. now eexists; eexists. }
  destruct Hhome as (st & city & Hhome). rewrite Hhome. simpl bind at 1.
  cbv beta iota.
  destruct (find_link "/team/" r) as [team_link|] eqn:Et.
  - destruct (find_link_href _ _ _ Et) as [th Hth].
    unfold link_href. rewrite Hth. simpl bind at 1.
    rewrite last_segment_ok. simpl. now eexists.
  - simpl. now eexists.
Qed.

Lemma entries_of_rows_ok (rows : list row) :
  exists es, entries_of_rows rows = Ok es.
Proof.
  induction rows as [|r rows [es IH]]; [now eexists|].
  simpl. destruct (recruit_entry_ok r) as [e He]. rewrite He, IH. simpl.
  now eexists.
Qed.

Lemma pages_step_full (site : string -> result response) (url : string)
    (page : Z) (pages : list Z) (recruits : list dict) (log : list string) :
  full_page (site (page_url url page)) = true ->
  pages_loop site url (page :: pages) recruits log
  = pages_loop site url pages
      (recruits ++ entries_of (site (page_url url page)))%list
      (log ++ [page_url url page])%list.
Proof.
  unfold full_page, entries_of. simpl pages_loop. unfold mbind at 1, fetch.
  destruct (site (page_url url page)) as [resp|e]; [|discriminate].
  intros H. apply andb_prop in H as [Hs Ht]. rewrite Hs. simpl negb. cbv iota.
  destruct (table resp) as [rows|]; [|discriminate].
  apply Nat.ltb_lt in Ht.
  assert (Hlen : (List.length rows <=? 1)%nat = false)
    by (apply Nat.leb_gt; exact Ht).
  rewrite Hlen. unfold mbind, lift.
  destruct (entries_of_rows_ok (tl rows)) as [es Hes]. now rewrite Hes.
Qed.

Lemma pages_step_last (site : string -> result response) (url : string)
    (page : Z) (pages : list Z) (recruits : list dict) (log : list string) :
  last_page (site (page_url url page)) = true ->
  pages_loop site url (page :: pages) recruits log
  = (Ok recruits, (log ++ [page_url url page])%list).
Proof.
  unfold last_page, full_page. simpl pages_loop. unfold mbind at 1, fetch.
  destruct (site (page_url url page)) as [resp|e]; [|discriminate].
  intros H. apply negb_true_iff in H.
  destruct (status_code resp =? 200)%Z; simpl in *; [|reflexivity].
  destruct (table resp) as [rows|]; [|reflexivity].
  apply Nat.ltb_ge in H. apply Nat.leb_le in H. now rewrite H.
Qed.

Lemma pages_step_raise (site : string -> result response) (url : string)
    (page : Z) (pages : list Z) (recruits : list dict) (log : list string)
    (e : exn) :
  site (page_url url page) = Raise e ->
  pages_loop site url (page :: pages) recruits log
  = (Raise e, (log ++ [page_url url page])%list).
Proof.
  intros H. simpl pages_loop. unfold mbind at 1, fetch. now rewrite H.
Qed.

(** X21. [getHSRecruitRankings] requests pages 1, 2, ... of one listing
    and never a fifth. It goes past a page only when the status is 200 and
    the page has a table of more than one row; at the first page that is
    not so it stops, and returns the entries of the pages before it, in
    order. If instead the request for that page raises, the exception is
    raised and the entries gathered so far are lost. *)
Theorem recruit_pages (site : string -> result response)
    (class_year gender state state_abbreviation : value)
    (international : bool) (log : list string) (k : nat) :
  py_eq gender (JStr "M") || py_eq gender (JStr "F") = true ->
  (k <= 4)%nat ->
  let url :=
    recruiting_url class_year gender state state_abbreviation international in
  let page := fun p => site (page_url url p) in
  (forall p, In p (firstn k [1; 2; 3; 4]%Z) -> full_page (page p) = true) ->
  ((k < 4)%nat -> last_page (page (Z.of_nat k + 1)%Z) = true ->
   getHSRecruitRankings site class_year gender state state_abbreviation
     international log
   = (Ok (flat_map (fun p => entries_of (page p)) (firstn k [1; 2; 3; 4]%Z)),
      (log ++ map (page_url url) (firstn (k + 1) [1; 2; 3; 4]%Z))%list))
  /\ (k = 4%nat ->
      getHSRecruitRankings site class_year gender state state_abbreviation
        international log
      = (Ok (flat_map (fun p => entries_of (page p)) [1; 2; 3; 4]%Z),
         (log ++ map (page_url url) [1; 2; 3; 4]%Z)%list))
  /\ (forall e,
        (k < 4)%nat -> page (Z.of_nat k + 1)%Z = Raise e ->
        getHSRecruitRankings site class_year gender state state_abbreviation
          international log
        = (Raise e,
           (log ++ map (page_url url) (firstn (k + 1) [1; 2; 3; 4]%Z))%list)).
Proof.
  intros Hg Hk url page Hfull.
  unfold getHSRecruitRankings. rewrite Hg. cbn [negb]. fold url.
  assert (Hstep : forall p, In p (firstn k [1; 2; 3; 4]%Z) ->
             forall ps acc lg,
               pages_loop site url (p :: ps) acc lg
               = pages_loop site url ps (acc ++ entries_of (page p))%list
                   (lg ++ [page_url url p])%list).
  { intros p Hp ps acc lg. apply pages_step_full. now apply Hfull. }
  destruct k as [|[|[|[|[|k]]]]]; try lia; simpl firstn in *;
    match goal with
    | |- context [(Z.of_nat ?n + 1)%Z] =>
        let v := eval vm_compute in (Z.of_nat n + 1)%Z in
        change (Z.of_nat n + 1)%Z with v
    end.
  - split; [|split]; [intros _ Hl | intros H; discriminate H | intros e _ He].
    + now rewrite (pages_step_last site url _ _ _ _ Hl).
    + now rewrite (pages_step_raise site url _ _ _ _ _ He).
  - rewrite Hstep by (simpl; tauto).
    split; [|split]; [intros _ Hl | intros H; discriminate H | intros e _ He].
    + rewrite (pages_step_last site url _ _ _ _ Hl). simpl.
      now rewrite app_nil_r, <- app_assoc.
    + rewrite (pages_step_raise site url _ _ _ _ _ He). simpl.
      now rewrite <- app_assoc.
  - rewrite !Hstep by (simpl; tauto).
    split; [|split]; [intros _ Hl | intros H; discriminate H | intros e _ He].
    + rewrite (pages_step_last site url _ _ _ _ Hl). simpl.
      now rewrite app_nil_r, <- !app_assoc.
    + rewrite (pages_step_raise site url _ _ _ _ _ He). simpl.
      now rewrite <- !app_assoc.
  - rewrite !Hstep by (simpl; tauto).
    split; [|split]; [intros _ Hl | intros H; discriminate H | intros e _ He].
    + rewrite (pages_step_last site url _ _ _ _ Hl). simpl.
      now rewrite app_nil_r, <- !app_assoc.
    + rewrite (pages_step_raise site url _ _ _ _ _ He). simpl.
      now rewrite <- !app_assoc.
  - rewrite !Hstep by (simpl; tauto).
    split; [|split]; [intros Hlt; lia | intros _ | intros e Hlt; lia].
    simpl. unfold ret. now rewrite app_nil_r, <- !app_assoc.
Qed.


Lemma recruit_pages_witness :
  getHSRecruitRankings RecruitSpec.two_pages (JInt 2028) (JStr "M")
    (JStr "none") (JStr "none") false []
  = (Ok (flat_map
           (fun p => entries_of
                       (RecruitSpec.two_pages (page_url RecruitSpec.listing p)))
           [1; 2]%Z),
     map (page_url RecruitSpec.listing) [1; 2; 3]%Z)
  /\ getHSRecruitRankings RecruitSpec.broken (JInt 2028) (JStr "M")
       (JStr "none") (JStr "none") false []
     = (Raise HTTPError, map (page_url RecruitSpec.listing) [1; 2]%Z).
Proof.
  split.
  - refine (proj1 (recruit_pages RecruitSpec.two_pages (JInt 2028) (JStr "M")
                     (JStr "none") (JStr "none") false [] 2 eq_refl _ _) _ _).
    + lia.
    + intros p [<-|[<-|[]]]; vm_compute; reflexivity.
    + lia.
    + vm_compute. reflexivity.
  - refine (proj2 (proj2 (recruit_pages RecruitSpec.broken (JInt 2028)
                            (JStr "M") (JStr "none") (JStr "none") false [] 1
                            eq_refl _ _)) HTTPError _ _).
    + lia.
    + intros p [<-|[]]; vm_compute; reflexivity.
    + lia.
    + vm_compute. reflexivity.
Defined.


(** ** Recruit rankings: rows *)

Lemma recruit_entry_spec (r : row) :
  (RecruitSpec.listed r = false /\ recruit_entry r = Ok None)
  \/ (RecruitSpec.listed r = true
      /\ exists e, recruit_entry r = Ok (Some e) /\ RecruitSpec.entry_of_row r e).
Proof.
  unfold RecruitSpec.listed, RecruitSpec.entry_of_row, recruit_entry.
  destruct (find_link "/swimmer/" r) as [name_link|] eqn:En; [right|left; auto].
  split; [reflexivity|].
  destruct (find_link_href _ _ _ En) as [h Hh].
  unfold link_href at 1. rewrite Hh. simpl bind at 1.
  rewrite last_segment_ok. simpl bind at 1.
  destruct (find_link "/team/" r) as [team_link|] eqn:Et.
  - destruct (find_link_href _ _ _ Et) as [th Hth].
    unfold link_href. rewrite Hth.
    destruct (find_cell "u-color-mute" r) as [td|].
    + destruct (getState_ok (get_text_strip (c_strings td))) as [st Hst].
      destruct (getCity_ok (get_text_strip (c_strings td))) as [ct Hct].
      rewrite Hst, Hct. simpl bind. rewrite last_segment_ok. simpl bind.
      eexists. split; [reflexivity|].
      repeat split; try reflexivity.
      * exists name_link, h. repeat split; auto.
      * exists st, ct. repeat split; auto.
      * exists th. repeat split; auto.
    + simpl bind. rewrite last_segment_ok. simpl bind.
      eexists. split; [reflexivity|].
      repeat split; try reflexivity.
      * exists name_link, h. repeat split; auto.
      * exists th. repeat split; auto.
  - destruct (find_cell "u-color-mute" r) as [td|].
    + destruct (getState_ok (get_text_strip (c_strings td))) as [st Hst].
      destruct (getCity_ok (get_text_strip (c_strings td))) as [ct Hct].
      rewrite Hst, Hct. simpl bind.
      eexists. split; [reflexivity|].
      repeat split; try reflexivity.
      * exists name_link, h. repeat split; auto.
      * exists st, ct. repeat split; auto.
    + simpl bind.
      eexists. split; [reflexivity|].
      repeat split; try reflexivity.
      exists name_link, h. repeat split; auto.
Qed.

(** X22. Reading the rows of a rankings page never raises. The entries
    are those of the rows that link to a swimmer, one each and in page
    order; rows without such a link are passed over. Each entry has the
    seven keys in order, the name and ID of the first swimmer link (the ID
    is the last segment of its address, trailing slashes dropped), state
    and city of the first muted cell or None without one, the power index
    as shown or None, and the team of the first team link or "None"
    twice. *)
Theorem recruit_rows_entries (rows : list row) :
  exists es,
    entries_of_rows rows = Ok es
    /\ Forall2 RecruitSpec.entry_of_row (filter RecruitSpec.listed rows) es.
Proof.
  induction rows as [|r rows (es & IH & HF)]; [exists []; split; [reflexivity|constructor]|].
  simpl entries_of_rows. simpl filter.
  destruct (recruit_entry_spec r) as [[Hl He]|[Hl (e & He & Hspec)]];
    rewrite He, IH, Hl; simpl bind.
  - exists es. split; [reflexivity|exact HF].
  - exists (e :: es). split; [reflexivity|now constructor].
Qed.


(** ** Recruit rankings: the listing asked for *)

Lemma us_state_codes (name code : string) :
  get us_states name = JStr code ->
  (name =? "none") = false /\ (code =? "none") = false.
Proof.
  unfold get.
  let d := eval vm_compute in us_states in change us_states with d.
  cbn [lookup].
  repeat match goal with
         | |- context [if ?k =? name then _ else _] =>
             destruct (String.eqb_spec k name) as [<-|_]
         end;
    intros H; try discriminate H; injection H as <-; split; reflexivity.
Qed.

(** X23. In [getHSRecruitRankings] a state can be named in full or by its
    code, and both ask for the same listing: for every name of the
    [us_states] table, passing the name alone gives the address that
    passing its code alone gives, the state listing of that code. A state
    name that is not in the table is not rejected: the listing asked for
    is the one of the state "None". An international query ignores both
    arguments. *)
Theorem recruiting_url_state (class_year gender : value) :
  let base :=
    "https://www.swimcloud.com/recruiting/rankings/" ++ py_str class_year
    ++ "/" ++ py_str gender ++ "/" in
  (forall name code,
      get us_states name = JStr code ->
      recruiting_url class_year gender (JStr name) (JStr "none") false
      = recruiting_url class_year gender (JStr "none") (JStr code) false
      /\ recruiting_url class_year gender (JStr name) (JStr "none") false
         = base ++ "1/" ++ code ++ "/")
  /\ (forall name,
        name <> "none" -> get us_states name = JNull ->
        recruiting_url class_year gender (JStr name) (JStr "none") false
        = base ++ "1/None/")
  /\ (forall state state_abbreviation,
        recruiting_url class_year gender state state_abbreviation true
        = base ++ "2/").
Proof.
  intros base. split; [|split].
  - intros name code H. destruct (us_state_codes _ _ H) as [Hn Hc].
    unfold recruiting_url, state_code. fold base.
    replace (py_eq (JStr name) (JStr "none")) with (name =? "none")
      by reflexivity.
    replace (py_eq (JStr "none") (JStr "none")) with true by reflexivity.
    rewrite Hn, H. cbn [negb andb].
    replace (py_eq (JStr code) JNull) with false by reflexivity.
    replace (py_eq (JStr code) (JStr "none")) with (code =? "none")
      by reflexivity.
    rewrite Hc. split; reflexivity.
  - intros name Hn H. apply String.eqb_neq in Hn.
    unfold recruiting_url, state_code. fold base.
    replace (py_eq (JStr name) (JStr "none")) with (name =? "none")
      by reflexivity.
    replace (py_eq (JStr "none") (JStr "none")) with true by reflexivity.
    rewrite Hn, H. reflexivity.
  - intros state abbr. unfold recruiting_url. reflexivity.
Qed.

Lemma recruiting_url_state_witness :
  recruiting_url (JInt 2028) (JStr "F") (JStr "Florida") (JStr "none") false
  = "https://www.swimcloud.com/recruiting/rankings/2028/F/1/FL/"
  /\ recruiting_url (JInt 2028) (JStr "F") (JStr "Atlantis") (JStr "none") false
     = "https://www.swimcloud.com/recruiting/rankings/2028/F/1/None/".
Proof.
  split.
  - exact (proj2 (proj1 (recruiting_url_state (JInt 2028) (JStr "F"))
                    "Florida" "FL" eq_refl)).
  - refine (proj1 (proj2 (recruiting_url_state (JInt 2028) (JStr "F")))
              "Atlantis" _ eq_refl).
    discriminate.
Defined.
